(** * Nuke render submitter: a shallow embedding of [submission_panel.py]

    The panel collects a few form values, formats text files and shells out
    to the farm's command line tool.  The embedding follows the source
    method by method.  Python values are modelled as follows:

    - [str] is [string] (a sequence of bytes; the text handled here is
      ASCII, and characters outside ASCII are outside the model);
    - [int] is [Z];
    - an exception is a value of [exn]; a method that can raise runs in the
      monad [M], which threads the [World] and keeps the side effects made
      before the exception;
    - the file system, the environment, the host scene and the external
      tools are fields of [World].

    [os.path] is [posixpath]: the model follows the plugin on a POSIX host
    (the branch on [platform.system()] is kept, the path algebra is the
    POSIX one). *)

From Stdlib Require Import ZArith NArith Ascii String Decimal DecimalString DecimalN DecimalZ Lia.
From stdpp Require Import gmap strings list.

Set Default Proof Using "Type".

(** ** Python built-ins on strings *)

Module Py.

(** [s.startswith(p)], returning the rest of [s] after the prefix. *)
Fixpoint strip_prefix (p s : string) : option string :=
  match p, s with
  | EmptyString, _ => Some s
  | String a p', String b s' => if Ascii.eqb a b then strip_prefix p' s' else None
  | String _ _, EmptyString => None
  end.

Definition startswith (s p : string) : bool :=
  match strip_prefix p s with Some _ => true | None => false end.

(** [old in s] for strings. *)
Fixpoint contains (s old : string) : bool :=
  startswith s old ||
  match s with
  | EmptyString => false
  | String _ s' => contains s' old
  end.

(** [s.replace(old, new)] for a non-empty [old] (every call of the source
    passes a literal): the occurrences are found from the left and do not
    overlap.  [skip] counts the characters of an occurrence that are still
    to be dropped. *)
Fixpoint replace_from (old new s : string) (skip : nat) : string :=
  match s with
  | EmptyString => EmptyString
  | String c s' =>
      match skip with
      | S k => replace_from old new s' k
      | O =>
          if startswith s old
          then new +:+ replace_from old new s' (String.length old - 1)
          else String c (replace_from old new s' 0)
      end
  end.

Definition replace (s old new : string) : string := replace_from old new s 0.

(** [s.split(sep)] for a non-empty [sep]. *)
Fixpoint split_from (sep s : string) (skip : nat) : list string :=
  match s with
  | EmptyString => [EmptyString]
  | String c s' =>
      match skip with
      | S k => split_from sep s' k
      | O =>
          if startswith s sep
          then EmptyString :: split_from sep s' (String.length sep - 1)
          else match split_from sep s' 0 with
               | h :: t => String c h :: t
               | [] => [String c EmptyString]
               end
      end
  end.

Definition split (s sep : string) : list string := split_from sep s 0.

(** [sep.join(parts)]. *)
Fixpoint join (sep : string) (parts : list string) : string :=
  match parts with
  | [] => EmptyString
  | [p] => p
  | p :: ps => p +:+ sep +:+ join sep ps
  end.

(** ASCII white space as [str.strip()] and [int()] see it:
    tab, line feed, vertical tab, form feed, carriage return, the four
    separators 0x1c to 0x1f, and space. *)
Definition isspace (c : ascii) : bool :=
  let n := nat_of_ascii c in
  ((9 <=? n) && (n <=? 13)) || ((28 <=? n) && (n <=? 32)).

Fixpoint lstrip (s : string) : string :=
  match s with
  | String c s' => if isspace c then lstrip s' else s
  | EmptyString => EmptyString
  end.

(** [rstrip] keeps a character when it is not white space or when something
    that is kept follows it. *)
Fixpoint rstrip (s : string) : string :=
  match s with
  | EmptyString => EmptyString
  | String c s' =>
      match rstrip s' with
      | EmptyString => if isspace c then EmptyString else String c EmptyString
      | r => String c r
      end
  end.

Definition strip (s : string) : string := rstrip (lstrip s).

Fixpoint contains_char (c : ascii) (s : string) : bool :=
  match s with
  | EmptyString => false
  | String a s' => Ascii.eqb a c || contains_char c s'
  end.

(** [(s[:i], s[i:])] for [i = s.rfind(c) + 1], one past the last [c]
    (0 when there is none): the common start of [posixpath.dirname] and
    [posixpath.basename]. *)
Fixpoint cut_last (c : ascii) (s : string) : string * string :=
  match s with
  | EmptyString => (EmptyString, EmptyString)
  | String a s' =>
      if contains_char c s'
      then (String a (fst (cut_last c s')), snd (cut_last c s'))
      else if Ascii.eqb a c then (String a EmptyString, s')
      else (EmptyString, String a s')
  end.

(** [s.rstrip(c)] for one character [c]. *)
Fixpoint rstrip_char (c : ascii) (s : string) : string :=
  match s with
  | EmptyString => EmptyString
  | String a s' =>
      match rstrip_char c s' with
      | EmptyString => if Ascii.eqb a c then EmptyString else String a EmptyString
      | r => String a r
      end
  end.

Fixpoint all_char (c : ascii) (s : string) : bool :=
  match s with
  | EmptyString => true
  | String a s' => Ascii.eqb a c && all_char c s'
  end.

(** [all(P(c) for c in s)]. *)
Fixpoint str_forall (P : ascii -> bool) (s : string) : bool :=
  match s with
  | EmptyString => true
  | String c s' => P c && str_forall P s'
  end.

(** *** Integers *)

Definition digit_of (c : ascii) : option (uint -> uint) :=
  match c with
  | "0" => Some D0 | "1" => Some D1 | "2" => Some D2 | "3" => Some D3
  | "4" => Some D4 | "5" => Some D5 | "6" => Some D6 | "7" => Some D7
  | "8" => Some D8 | "9" => Some D9
  | _ => None
  end%char.

Definition isdigit (c : ascii) : bool :=
  match digit_of c with Some _ => true | None => false end.

(** The digits of an [int()] literal: at least one digit, and single
    underscores allowed between digits. *)
Fixpoint parse_digits (s : string) : option uint :=
  match s with
  | EmptyString => None
  | String c rest =>
      match digit_of c with
      | None => None
      | Some d =>
          match rest with
          | EmptyString => Some (d Nil)
          | String "_" rest' => option_map d (parse_digits rest')
          | _ => option_map d (parse_digits rest)
          end
      end
  end.

(** [int(s)] in base 10: surrounding white space is dropped, one sign is
    allowed; [None] stands for the [ValueError]. *)
Definition int (s : string) : option Z :=
  match strip s with
  | String "-" body => option_map (fun d => (- Z.of_N (N.of_uint d))%Z) (parse_digits body)
  | String "+" body => option_map (fun d => Z.of_N (N.of_uint d)) (parse_digits body)
  | body => option_map (fun d => Z.of_N (N.of_uint d)) (parse_digits body)
  end.

(** [str(n)], which is also [f"{n}"], for an [int]. *)
Definition str (z : Z) : string := NilZero.string_of_int (Z.to_int z).

(** [f"{n:02d}"] for a non-negative [n]: decimal, padded with zeros on the
    left to a width of at least two. *)
Definition format_02d (n : N) : string :=
  let s := str (Z.of_N n) in
  if String.length s <? 2 then "0" +:+ s else s.

(** ** [posixpath] and [pathlib] *)

Definition sep : ascii := "/"%char.

Definition basename (p : string) : string := snd (cut_last sep p).

Definition dirname (p : string) : string :=
  let head := fst (cut_last sep p) in
  match head with
  | EmptyString => head
  | _ => if all_char sep head then head else rstrip_char sep head
  end.

Fixpoint endswith_char (s : string) (c : ascii) : bool :=
  match s with
  | EmptyString => false
  | String a EmptyString => Ascii.eqb a c
  | String _ s' => endswith_char s' c
  end.

(** [s.count(c)] for one character. *)
Fixpoint count_char (c : ascii) (s : string) : nat :=
  match s with
  | EmptyString => 0
  | String a s' => (if Ascii.eqb a c then 1 else 0) + count_char c s'
  end.

(** [s.endswith(suffix)]. *)
Fixpoint endswith (s suffix : string) : bool :=
  String.eqb s suffix ||
  match s with
  | EmptyString => false
  | String _ s' => endswith s' suffix
  end.

(** [os.path.join(a, b)] with two arguments. *)
Definition path_join (a b : string) : string :=
  if startswith b "/" then b
  else match a with
       | EmptyString => b
       | _ => if endswith_char a sep then a +:+ b else a +:+ "/" +:+ b
       end.

(** [pathlib.PurePosixPath(p).name]: the last component of the path, empty
    components and ["."] components being dropped when the path is parsed. *)
Definition path_name (p : string) : string :=
  List.last
    (List.filter (fun c => negb (String.eqb c "" || String.eqb c ".")) (split p "/"))
    "".

(** [pathlib.PurePosixPath(p).stem]: the name without its last suffix; a
    dot that starts or ends the name does not start a suffix. *)
Definition path_stem (p : string) : string :=
  let name := path_name p in
  let '(h, t) := cut_last "."%char name in
  match h, t with
  | EmptyString, _ => name                     (* no dot *)
  | String _ EmptyString, _ => name              (* the only dot is first *)
  | _, EmptyString => name                       (* the last dot is last *)
  | _, _ => String.substring 0 (String.length h - 1) h
  end.

End Py.

(** ** Exceptions, the world and the monad of methods *)

(** The exceptions the modelled code can meet.  The errors of the
    operating system carry the path they are about, the others the text of
    their message. *)
Inductive exn :=
| ValueError (msg : string)
| TypeError (msg : string)
| AttributeError (msg : string)
| KeyError (msg : string)
| IndexError (msg : string)
| NameError (msg : string)
| UnboundLocalError (msg : string)
| FileNotFoundError (path : string)
| FileExistsError (path : string)
| IsADirectoryError (path : string)
| NotADirectoryError (path : string).

(** [str(e)]. *)
Definition exn_str (e : exn) : string :=
  match e with
  | ValueError m | TypeError m | AttributeError m | KeyError m | IndexError m
  | NameError m | UnboundLocalError m => m
  | FileNotFoundError p => "[Errno 2] No such file or directory: '" +:+ p +:+ "'"
  | FileExistsError p => "[Errno 17] File exists: '" +:+ p +:+ "'"
  | IsADirectoryError p => "[Errno 21] Is a directory: '" +:+ p +:+ "'"
  | NotADirectoryError p => "[Errno 20] Not a directory: '" +:+ p +:+ "'"
  end.

(** [except NameError] also catches its subclass [UnboundLocalError]. *)
Definition is_NameError (e : exn) : bool :=
  match e with
  | NameError _ | UnboundLocalError _ => true
  | _ => false
  end.

Inductive fs_entry :=
| File (content : string)
| Dir.

(** A node of the host scene.  [cached_path] is [None] on a node that has
    no such knob (asking for it raises [NameError] in the host). *)
Record Node := {
  node_name : string;
  node_class : string;
  node_file : string;
  node_cached_path : option string;
  node_selected : bool;
  node_disable : bool;
}.

(** The toolkit's write node app, as the effect of its two conversions on
    the scene. *)
Record WriteNodeApp := {
  convert_to_write_nodes : list Node -> list Node;
  convert_from_write_nodes : list Node -> list Node;
}.

(** [subprocess.CompletedProcess]. *)
Record CompletedProcess := {
  returncode : Z;
  stdout : string;
  stderr : string;
}.

(** What the host and the user see happen, oldest first. *)
Inductive event :=
| Message (text : string)                 (* nuke.message *)
| Ask (prompt : string) (answer : bool)   (* nuke.ask *)
| ScriptSave                              (* nuke.scriptSave *)
| Run (command : list string) (result : CompletedProcess).  (* subprocess.run *)

(** A knob of the panel: an object holding a value. *)
Record Knob (A : Type) := { value : A }.
Arguments value {A} _.

(** A knob object defines neither [__bool__] nor [__len__]: as a condition
    it is true whatever value it holds (which is what makes the idiom
    [if node.knob(name):] an existence test). *)
Definition knob_truth {A} (k : Knob A) : bool := true.

(** The panel ([self]): the knobs that [_initialize_knobs] creates. *)
Record SubmitterPanel := {
  frame_range : Knob string;
  department : Knob string;
  comment : Knob string;
  chunk_size : Knob Z;
  priority : Knob Z;
  render_review : Knob bool;
  add_slate : Knob bool;
  add_burn : Knob bool;
}.

(** Everything outside the panel.  The external parties are fields: the
    ShotGrid toolkit ([ctx_*], [tk_render_path], [writenode_app]), the user
    ([dialog_edit], [dialog_ok], [ask_answer]) and the farm tool
    ([run_tool]). *)
Record World := {
  environ : gmap string string;            (* os.environ *)
  platform_system : string;                (* platform.system() *)
  fs : gmap string fs_entry;               (* the file system, by path *)
  root_name : string;                      (* nuke.root().name() *)
  script_text : string;                    (* what the host writes when it saves *)
  root_first : Z;                          (* nuke.root().firstFrame() *)
  root_last : Z;                           (* nuke.root().lastFrame() *)
  nuke_version : Z * Z;                    (* NUKE_VERSION_MAJOR, _MINOR *)
  scene : list Node;                       (* nuke.allNodes() *)
  resources_dir : string;                  (* _get_resources_dir() *)
  ctx_task : option string;                (* ctx.task["name"], if a task *)
  ctx_project : option (option string);    (* ctx.project, and its "name" *)
  tk_render_path : string -> string -> exn + option string;
    (* the toolkit calls of _get_render_template on (script, template name):
       an exception, or the template's path ([None]: no such template) *)
  writenode_app : option WriteNodeApp;     (* engine.apps.get("tk-nuke-writenode") *)
  dialog_edit : SubmitterPanel -> SubmitterPanel;  (* the user's edits *)
  dialog_ok : bool;                        (* showModalDialog() *)
  ask_answer : nat -> bool;                (* the user's n-th answer to nuke.ask *)
  uuid_hex : nat -> string;                (* the n-th uuid.uuid4().hex *)
  uuid_count : nat;
  run_tool : list string -> exn + CompletedProcess;  (* subprocess.run *)
  log : list event;
}.

Definition set_fs (f : gmap string fs_entry) (w : World) : World :=
  {| environ := environ w; platform_system := platform_system w; fs := f;
     root_name := root_name w; script_text := script_text w;
     root_first := root_first w; root_last := root_last w;
     nuke_version := nuke_version w; scene := scene w; resources_dir := resources_dir w;
     ctx_task := ctx_task w; ctx_project := ctx_project w;
     tk_render_path := tk_render_path w; writenode_app := writenode_app w;
     dialog_edit := dialog_edit w; dialog_ok := dialog_ok w; ask_answer := ask_answer w;
     uuid_hex := uuid_hex w; uuid_count := uuid_count w; run_tool := run_tool w;
     log := log w |}.

Definition set_scene (sc : list Node) (w : World) : World :=
  {| environ := environ w; platform_system := platform_system w; fs := fs w;
     root_name := root_name w; script_text := script_text w;
     root_first := root_first w; root_last := root_last w;
     nuke_version := nuke_version w; scene := sc; resources_dir := resources_dir w;
     ctx_task := ctx_task w; ctx_project := ctx_project w;
     tk_render_path := tk_render_path w; writenode_app := writenode_app w;
     dialog_edit := dialog_edit w; dialog_ok := dialog_ok w; ask_answer := ask_answer w;
     uuid_hex := uuid_hex w; uuid_count := uuid_count w; run_tool := run_tool w;
     log := log w |}.

Definition set_uuid_count (n : nat) (w : World) : World :=
  {| environ := environ w; platform_system := platform_system w; fs := fs w;
     root_name := root_name w; script_text := script_text w;
     root_first := root_first w; root_last := root_last w;
     nuke_version := nuke_version w; scene := scene w; resources_dir := resources_dir w;
     ctx_task := ctx_task w; ctx_project := ctx_project w;
     tk_render_path := tk_render_path w; writenode_app := writenode_app w;
     dialog_edit := dialog_edit w; dialog_ok := dialog_ok w; ask_answer := ask_answer w;
     uuid_hex := uuid_hex w; uuid_count := n; run_tool := run_tool w;
     log := log w |}.

Definition add_event (e : event) (w : World) : World :=
  {| environ := environ w; platform_system := platform_system w; fs := fs w;
     root_name := root_name w; script_text := script_text w;
     root_first := root_first w; root_last := root_last w;
     nuke_version := nuke_version w; scene := scene w; resources_dir := resources_dir w;
     ctx_task := ctx_task w; ctx_project := ctx_project w;
     tk_render_path := tk_render_path w; writenode_app := writenode_app w;
     dialog_edit := dialog_edit w; dialog_ok := dialog_ok w; ask_answer := ask_answer w;
     uuid_hex := uuid_hex w; uuid_count := uuid_count w; run_tool := run_tool w;
     log := log w ++ [e] |}.

(** A method: it runs in a world, returns or raises, and leaves a world. *)
Definition M (A : Type) : Type := World -> (exn + A) * World.

Definition ret {A} (a : A) : M A := fun w => (inr a, w).
Definition raise {A} (e : exn) : M A := fun w => (inl e, w).
Definition bind {A B} (m : M A) (k : A -> M B) : M B :=
  fun w => match m w with
           | (inr a, w') => k a w'
           | (inl e, w') => (inl e, w')
           end.
(** [try: m  except ...: h e], for the exceptions that [catches] accepts. *)
Definition try_except {A} (m : M A) (catches : exn -> bool) (h : exn -> M A) : M A :=
  fun w => match m w with
           | (inl e, w') => if catches e then h e w' else (inl e, w')
           | r => r
           end.
Definition get {A} (f : World -> A) : M A := fun w => (inr (f w), w).
Definition modify (f : World -> World) : M unit := fun w => (inr tt, f w).
Definition lift {A} (r : exn + A) : M A := fun w => (r, w).

Declare Scope py_scope.
Delimit Scope py_scope with py.
Notation "x <- m ;; k" := (bind m (fun x => k))
  (at level 100, m at next level, right associativity) : py_scope.
Notation "m ;;; k" := (bind m (fun _ => k))
  (at level 100, right associativity) : py_scope.
Open Scope py_scope.

Import Py.

(** ** The host and the operating system *)

Definition message (text : string) : M unit := modify (add_event (Message text)).

Definition is_Ask (e : event) : bool :=
  match e with Ask _ _ => true | _ => false end.

(** [nuke.ask]: the user's next answer. *)
Definition ask (prompt : string) : M bool :=
  fun w =>
    let a := ask_answer w (List.length (List.filter is_Ask (log w))) in
    (inr a, add_event (Ask prompt a) w).

(** [nuke.scriptSave()]: the host writes the current script to its file. *)
Definition saved (w : World) : World :=
  add_event ScriptSave (set_fs (<[root_name w := File (script_text w)]> (fs w)) w).

Definition scriptSave : M unit := modify saved.

(** [os.getenv(name, default)], also [os.environ.get]. *)
Definition getenv (name dflt : string) : M string :=
  get (fun w => default dflt (environ w !! name)).

(** The root is a directory of every world, and so is the current
    directory, written [""] as the parent of a relative name. *)
Definition isdir_in (f : gmap string fs_entry) (p : string) : bool :=
  match f !! p with
  | Some Dir => true
  | Some (File _) => false
  | None => String.eqb p "/"
  end.

Definition exists_in (f : gmap string fs_entry) (p : string) : bool :=
  match f !! p with
  | Some _ => negb (String.eqb p "")
  | None => String.eqb p "/"
  end.

Definition isfile_in (f : gmap string fs_entry) (p : string) : bool :=
  match f !! p with
  | Some (File _) => true
  | _ => false
  end.

Definition path_exists (p : string) : M bool := get (fun w => exists_in (fs w) p).

(** The check every creation makes on the directory that is to hold [p]. *)
Definition check_parent (p : string) : M unit :=
  fun w =>
    let d := dirname p in
    if String.eqb d "" || isdir_in (fs w) d then (inr tt, w)
    else if exists_in (fs w) d then (inl (NotADirectoryError p), w)
    else (inl (FileNotFoundError p), w).

(** [open(p, "r").read()]. *)
Definition read_file (p : string) : M string :=
  fun w =>
    match fs w !! p with
    | Some (File c) => (inr c, w)
    | Some Dir => (inl (IsADirectoryError p), w)
    | None => (inl (if String.eqb p "/" then IsADirectoryError p else FileNotFoundError p), w)
    end.

(** [open(p, "w")]: the file is created, or emptied, before anything is
    written. *)
Definition open_w (p : string) : M unit :=
  fun w =>
    if isdir_in (fs w) p then (inl (IsADirectoryError p), w)
    else if String.eqb p "" then (inl (FileNotFoundError p), w)
    else bind (check_parent p) (fun _ => modify (fun w => set_fs (<[p := File ""]> (fs w)) w)) w.

(** [f.write(text)] on the file just opened at [p]. *)
Definition write (p text : string) : M unit :=
  modify (fun w => set_fs (<[p := File text]> (fs w)) w).

Definition mkdir (p : string) : M unit :=
  fun w =>
    if String.eqb p "" then (inl (FileNotFoundError p), w)
    else if exists_in (fs w) p then (inl (FileExistsError p), w)
    else bind (check_parent p) (fun _ => modify (fun w => set_fs (<[p := Dir]> (fs w)) w)) w.

Definition is_FileExistsError (e : exn) : bool :=
  match e with FileExistsError _ => true | _ => false end.

Definition is_OSError (e : exn) : bool :=
  match e with
  | FileNotFoundError _ | FileExistsError _ | IsADirectoryError _
  | NotADirectoryError _ => true
  | _ => false
  end.

(** [os.makedirs(name, exist_ok=True)], as the library writes it: the
    missing ancestors first, then the directory, an error of the last
    [mkdir] being dropped when the directory is there.  The recursion is on
    a strictly shorter path; [fuel] bounds it, and the length of the name
    is enough ([makedirs_fuel_enough]). *)
Fixpoint makedirs_fuel (fuel : nat) (name : string) : M unit :=
  let head0 := dirname name in
  let tail0 := basename name in
  let head := if String.eqb tail0 "" then dirname head0 else head0 in
  let tail := if String.eqb tail0 "" then basename head0 else tail0 in
  let last_mkdir :=
    try_except (mkdir name) is_OSError
      (fun e => fun w => if isdir_in (fs w) name then (inr tt, w) else (inl e, w)) in
  if negb (String.eqb head "") && negb (String.eqb tail "") then
    head_exists <- path_exists head ;;
    if (head_exists : bool) then last_mkdir
    else match fuel with
         | O => last_mkdir
         | S fuel' =>
             try_except (makedirs_fuel fuel' head) is_FileExistsError (fun _ => ret tt) ;;;
             if String.eqb tail "." then ret tt else last_mkdir
         end
  else last_mkdir.

Definition makedirs (name : string) : M unit := makedirs_fuel (String.length name) name.

(** [os.listdir(d)]: the names directly under [d]. *)
Definition listdir (d : string) : M (list string) :=
  fun w =>
    if isdir_in (fs w) d then
      (inr (List.map basename
              (List.filter (fun p => String.eqb (dirname p) d && negb (String.eqb p d))
                           (elements (dom (fs w))))), w)
    else if exists_in (fs w) d then (inl (NotADirectoryError d), w)
    else (inl (FileNotFoundError d), w).

Definition isfile (p : string) : M bool := get (fun w => isfile_in (fs w) p).

(** [uuid.uuid4().hex]: the next identifier of the supply. *)
Definition uuid4_hex : M string :=
  fun w => (inr (uuid_hex w (uuid_count w)), set_uuid_count (S (uuid_count w)) w).

(** ** The methods of [SubmitterPanel] *)

(** *** Get methods *)

Definition _get_deadline_command : M string :=
  deadline_path <- getenv "DEADLINE_PATH" "" ;;
  deadline_path <-
    (if String.eqb deadline_path "" then
       let fallback_path := "/Users/Shared/Thinkbox/DEADLINE_PATH" in
       fallback_exists <- path_exists fallback_path ;;
       if (fallback_exists : bool) then
         content <- read_file fallback_path ;;
         ret (strip content)
       else ret deadline_path
     else ret deadline_path) ;;
  ret (path_join deadline_path "deadlinecommand").

Definition _get_ocio_path : M string :=
  ocio_path <- getenv "OCIO" "" ;;
  if String.eqb ocio_path "" then ret ""
  else
    system <- get platform_system ;;
    if negb (String.eqb system "Windows")
    then ret (replace (replace ocio_path "/Volumes/production/" "P:/") "\" "/")
    else ret ocio_path.

(** [None] is Python's [None]. *)
Definition _get_nuke_script_path : M (option string) :=
  script_path <- get root_name ;;
  if String.eqb script_path "" || String.eqb script_path "Root" then
    message "Please save the Nuke script before submitting to Deadline." ;;;
    ret None
  else
    scriptSave ;;;
    ret (Some script_path).

(** The toolkit calls of the [try] block are the world's [tk_render_path];
    every exception, the [ValueError] for a missing template included, ends
    in [None].  (What the method prints is not modelled.) *)
Definition _get_render_template (script_path template_name : string) : M (option string) :=
  r <- get (fun w => tk_render_path w script_path template_name) ;;
  match r with
  | inr (Some render_path) =>
      system <- get platform_system ;;
      ret (Some (if String.eqb system "Windows" then replace render_path "\" "/"
                 else render_path))
  | inr None => ret None
  | inl _ => ret None
  end.

Definition is_write_class (n : Node) : bool :=
  String.eqb (node_class n) "Write" || String.eqb (node_class n) "WriteTank".

Definition _get_write_nodes (selected_only : bool) : M (option (list Node)) :=
  sc <- get scene ;;
  if selected_only then
    let nodes := List.filter node_selected sc in
    match nodes with
    | [] => ret None
    | _ => ret (Some (List.filter is_write_class nodes))
    end
  else ret (Some (List.filter is_write_class sc)).

(** The text of the [ValueError] of [int(s)]. *)
Definition invalid_literal (s : string) : exn :=
  ValueError ("invalid literal for int() with base 10: '" +:+ s +:+ "'").

(** [a, b = map(int, parts)]: the items are converted as the unpacking
    asks for them, a third one included. *)
Definition unpack2_int (parts : list string) : exn + (Z * Z) :=
  match parts with
  | [] => inl (ValueError "not enough values to unpack (expected 2, got 0)")
  | a :: r =>
      match int a with
      | None => inl (invalid_literal a)
      | Some x =>
          match r with
          | [] => inl (ValueError "not enough values to unpack (expected 2, got 1)")
          | b :: r' =>
              match int b with
              | None => inl (invalid_literal b)
              | Some y =>
                  match r' with
                  | [] => inr (x, y)
                  | c :: _ =>
                      match int c with
                      | None => inl (invalid_literal c)
                      | Some _ => inl (ValueError "too many values to unpack (expected 2)")
                      end
                  end
              end
          end
      end
  end.

(** [a, b = parts] for a list of strings. *)
Definition unpack2 (parts : list string) : exn + (string * string) :=
  match parts with
  | [a; b] => inr (a, b)
  | _ :: _ :: _ :: _ => inl (ValueError "too many values to unpack (expected 2)")
  | l => inl (ValueError ("not enough values to unpack (expected 2, got "
                          +:+ str (Z.of_nat (List.length l)) +:+ ")"))
  end.

(** Line 228 tests the knob object [self.add_slate], not its value. *)
Definition get_adjusted_frame_range (self : SubmitterPanel) : exn + string :=
  let frame_range_str := value (frame_range self) in
  match unpack2_int (split frame_range_str "-") with
  | inl e => inl e
  | inr (start_frame, end_frame) =>
      let start_frame :=
        if knob_truth (add_slate self) then (start_frame - 1)%Z else start_frame in
      inr (str start_frame +:+ "-" +:+ str end_frame)
  end.

(** *** Write methods *)

(** The line feed that ends every line written. *)
Definition LF : string := String "010" EmptyString.

(** [os.path.basename(p)] and [os.path.dirname(p)] on a value that may be
    [None]. *)
Definition basename_opt (p : option string) : exn + string :=
  match p with
  | Some p => inr (basename p)
  | None => inl (TypeError "expected str, bytes or os.PathLike object, not NoneType")
  end.

Definition dirname_opt (p : option string) : exn + string :=
  match p with
  | Some p => inr (dirname p)
  | None => inl (TypeError "expected str, bytes or os.PathLike object, not NoneType")
  end.

(** The list literal of [_write_job_info], given the three values it
    computes on the way. *)
Definition job_file_literal (self : SubmitterPanel) (output_type : string) (node : Node)
    (batch_name frames ocio : string) : list string :=
  let render_type := if String.eqb output_type "mov" then "Movie" else "Rendered Image" in
  [ "Plugin=Nuke" +:+ LF;
    "Name=" +:+ node_name node +:+ " - " +:+ render_type +:+ LF;
    "BatchName=" +:+ batch_name +:+ LF;
    "Frames=" +:+ frames +:+ LF;
    "ChunkSize=" +:+ (if negb (String.eqb output_type "mov")
                      then str (value (chunk_size self)) else str 1000000) +:+ LF;
    "Priority=" +:+ str (value (priority self)) +:+ LF;
    "Pool=none" +:+ LF;
    "Department=" +:+ value (department self) +:+ LF;
    "Comment=" +:+ value (comment self) +:+ LF;
    "EnvironmentKeyValue0=OCIO=" +:+ ocio +:+ LF;
    "OutputDirectory0=" +:+ dirname (node_file node) +:+ LF ].

(** The lines of the job info file, in the order [_write_job_info] builds
    them: the list literal first, then the two appends. *)
Definition job_file_lines (self : SubmitterPanel) (output_type : string) (node : Node)
    (output_file : option string) : M (list string) :=
  script_path <- _get_nuke_script_path ;;
  batch_name <- lift (basename_opt script_path) ;;
  frames <- lift (get_adjusted_frame_range self) ;;
  ocio <- _get_ocio_path ;;
  let job_file_lines := job_file_literal self output_type node batch_name frames ocio in
  let job_file_lines :=
    if String.eqb output_type "exr" then
      let output_dir := dirname (node_file node) in
      job_file_lines ++ ["OutputDirectory0=" +:+ output_dir +:+ LF]
    else job_file_lines in
  if String.eqb output_type "mov" then
    movie_dir <- lift (dirname_opt output_file) ;;
    ret (job_file_lines ++ ["OutputDirectory1=" +:+ movie_dir +:+ LF])
  else ret job_file_lines.

(** The key of a [key=value] line, and the lines that are output
    directory entries. *)
Definition entry_key (line : string) : string := List.hd "" (split line "=").

Definition is_output_directory (line : string) : bool := startswith line "OutputDirectory".

(** [f.writelines(lines)] on the file just opened at [p]. *)
Definition writelines (p : string) (lines : list string) : M unit :=
  write p (String.concat "" lines).

Definition _write_job_info (self : SubmitterPanel) (job_info_path output_type : string)
    (node : Node) (output_file : option string) : M unit :=
  lines <- job_file_lines self output_type node output_file ;;
  open_w job_info_path ;;;
  writelines job_info_path lines.

Definition _write_plugin_info (plugin_info_path script_path : string) : M unit :=
  open_w plugin_info_path ;;;
  version <- get nuke_version ;;
  writelines plugin_info_path
    [ "SceneFile=" +:+ script_path +:+ LF;
      "Version=" +:+ str (fst version) +:+ "." +:+ str (snd version) +:+ LF ].

(** A value passed to [str.format]. *)
Inductive pyval :=
| PyStr (s : string)
| PyInt (z : Z).

(** [f.readlines()]: the lines of a text, each with its line feed. *)
Fixpoint readlines (text : string) : list string :=
  match text with
  | EmptyString => []
  | String c rest =>
      if Ascii.eqb c "010" then String c EmptyString :: readlines rest
      else match readlines rest with
           | [] => [String c EmptyString]
           | l :: ls =>
               match rest with
               | EmptyString => [String c EmptyString]
               | _ => String c l :: ls
               end
           end
  end.

(** The [for] loop over the burn-in file: the lines after the first one
    that holds the marker; [None] when no line does, which leaves
    [filtered_lines] unbound. *)
Fixpoint lines_after_marker (lines : list string) : option (list string) :=
  match lines with
  | [] => None
  | line :: rest =>
      if contains line "push $cut_paste_input" then Some rest
      else lines_after_marker rest
  end.

Section Methods.

(** [str.format] with keyword arguments.  The format mini-language is left open:
    the methods below are defined, and their properties proved, for
    whatever the expansion of a template gives or raises. *)
Variable str_format : string -> list (string * pyval) -> exn + string.

(** The body of the [try] block of [_write_script_content]. *)
Definition script_content_body (self : SubmitterPanel)
    (read_file_path output_file_path resources_dir : string) : M string :=
  let root_fr := value (frame_range self) in
  root <- lift (unpack2 (split root_fr "-")) ;;
  read_fr <- lift (get_adjusted_frame_range self) ;;
  read <- lift (unpack2_int (split read_fr "-")) ;;
  ocio_path <- _get_ocio_path ;;
  ctx_project <- get ctx_project ;;
  project <- match ctx_project with
             | Some project => ret project
             | None => raise (AttributeError "'NoneType' object has no attribute 'get'")
             end ;;
  let file := match project with
              | Some (String c name) => "burn_" +:+ String c name +:+ ".nk"
              | _ => "burn.nk"
              end in
  let burn_path := path_join resources_dir file in
  let template_path := path_join resources_dir "nuke_template.txt" in
  burn_content <-
    (if value (add_burn self) then
       text <- read_file burn_path ;;
       match lines_after_marker (readlines text) with
       | Some filtered_lines => ret (String.concat "" filtered_lines)
       | None => raise (UnboundLocalError
                          "local variable 'filtered_lines' referenced before assignment")
       end
     else ret "") ;;
  nuke_script_template <- read_file template_path ;;
  lift (str_format nuke_script_template
          [ ("root_first", PyStr (fst root));
            ("root_last", PyStr (snd root));
            ("read_first", PyInt (fst read));
            ("read_last", PyInt (snd read));
            ("OCIO_PATH", PyStr ocio_path);
            ("read_file_path", PyStr read_file_path);
            ("output_file_path", PyStr output_file_path);
            ("burn_in_file", PyStr (strip burn_content)) ]).

(** [except Exception] catches every exception of the model. *)
Definition _write_script_content (self : SubmitterPanel)
    (read_file_path output_file_path resources_dir : string) : M (option string) :=
  try_except
    (content <- script_content_body self read_file_path output_file_path resources_dir ;;
     ret (Some content))
    (fun _ => true)
    (fun e => message ("Error generating Nuke script: " +:+ exn_str e) ;;; ret None).

(** *** Build methods *)

(** The name the [while] loop tries for a script number. *)
Definition temp_script_path (new_script_dir base_name : string) (script_number : nat) : string :=
  path_join new_script_dir
    (base_name +:+ "_tmp_" +:+ format_02d (N.of_nat script_number) +:+ ".nk").

(** The [while True] loop of [_build_temp_nuke_script]: the first number
    from [script_number] on whose name does not exist.  Each turn of
    [fuel] is one turn of the loop; a file system of [n] entries stops the
    loop within [n] turns ([script_number_loop_first_free]). *)
Fixpoint script_number_loop (fuel : nat) (f : gmap string fs_entry)
    (new_script_dir base_name : string) (script_number : nat) : nat :=
  if exists_in f (temp_script_path new_script_dir base_name script_number) then
    match fuel with
    | O => script_number
    | S fuel' => script_number_loop fuel' f new_script_dir base_name (S script_number)
    end
  else script_number.

(** [re.sub(r"\.\d{4,}\.exr$", "", filename)].  [match_frame_exr s] matches
    the pattern at the start of [s] and gives what follows the match: the
    digits are taken greedily (giving one back cannot help, a dot has to
    follow them), and [$] holds at the end or before a last line feed. *)
Fixpoint skip_digits (s : string) : nat * string :=
  match s with
  | String c s' =>
      if isdigit c then (S (fst (skip_digits s')), snd (skip_digits s')) else (O, s)
  | EmptyString => (O, s)
  end.

Definition startswith_digit (s : string) : bool :=
  match s with
  | String c _ => isdigit c
  | EmptyString => false
  end.

Definition match_frame_exr (s : string) : option string :=
  match s with
  | String "." s1 =>
      let '(n, s2) := skip_digits s1 in
      if 4 <=? n then
        match strip_prefix ".exr" s2 with
        | Some rest =>
            if String.eqb rest "" || String.eqb rest LF then Some rest else None
        | None => None
        end
      else None
  | _ => None
  end.

(** What follows a match is empty or one line feed, where the pattern does
    not match again: the scan of [re.sub] ends with the first match. *)
Fixpoint sub_frame_exr (filename : string) : string :=
  match match_frame_exr filename with
  | Some rest => rest
  | None =>
      match filename with
      | EmptyString => EmptyString
      | String c s' => String c (sub_frame_exr s')
      end
  end.

(** Lines 303 to 317: the review movie next to the read file. *)
Definition fallback_render_path (original_path : string) : string :=
  let original_dir := dirname original_path in
  let review_dir := path_join original_dir "review" in
  let filename := basename original_path in
  let filename := sub_frame_exr filename in
  path_join review_dir (filename +:+ ".mov").

(** Lines 276 to 328 of [_build_temp_nuke_script]: the three paths it
    settles before it writes anything into the script, namely the new
    script, the read file and the output file. *)
Definition temp_script_paths (self : SubmitterPanel) (node : Node)
    : M (string * string * string) :=
  let read_file_path := node_file node in
  current_script_path <- _get_nuke_script_path ;;
  script_dir <- lift (dirname_opt current_script_path) ;;
  let base_name := path_stem (default "" current_script_path) in
  let new_script_dir := path_join script_dir "tmp" in
  dir_exists <- path_exists new_script_dir ;;
  (if (dir_exists : bool) then ret tt else mkdir new_script_dir) ;;;
  script_number <-
    get (fun w => script_number_loop (size (fs w)) (fs w) new_script_dir base_name 1%nat) ;;
  let new_script_path := temp_script_path new_script_dir base_name script_number in
  let read_file_path := replace read_file_path "\" "/" in
  render_path <- _get_render_template (default "" current_script_path)
                                      "nuke_shot_render_movie" ;;
  render_path <-
    match render_path with
    | Some (String c p) => ret (String c p)
    | _ =>
        let original_path := node_file node in
        let review_dir := path_join (dirname original_path) "review" in
        makedirs review_dir ;;;
        ret (fallback_render_path original_path)
    end ;;
  output_file_path <-
    (if negb (String.eqb render_path "") then
       let render_dir := dirname render_path in
       makedirs render_dir ;;;
       ret (replace render_path "\" "/")
     else if negb (String.eqb read_file_path "") then
       let output_dir := dirname read_file_path in
       ret (replace (path_join output_dir "output.mov") "\" "/")
     else ret "/tmp/output.exr") ;;
  ret (new_script_path, read_file_path, output_file_path).

(** Lines 334 and 335: the script is opened, then written; [write] takes a
    [str] only. *)
Definition write_script_file (new_script_path : string)
    (nuke_script_content : option string) : M unit :=
  open_w new_script_path ;;;
  match nuke_script_content with
  | Some content => write new_script_path content
  | None => raise (TypeError "write() argument must be str, not None")
  end.

Definition _build_temp_nuke_script (self : SubmitterPanel) (node : Node)
    : M (string * string) :=
  paths <- temp_script_paths self node ;;
  let '(new_script_path, read_file_path, output_file_path) := paths in
  res <- get resources_dir ;;
  nuke_script_content <- _write_script_content self read_file_path output_file_path res ;;
  write_script_file new_script_path nuke_script_content ;;;
  ret (new_script_path, output_file_path).

Definition _build_submission_files (self : SubmitterPanel) (output_type : string)
    (node : Node) (script_path output_file : option string)
    : M (option (string * string)) :=
  if String.eqb output_type "" then
    raise (ValueError "Output type must be a non-empty string.")
  else
    script_path <- match script_path with
                   | Some (String c p) => ret script_path
                   | _ => _get_nuke_script_path
                   end ;;
    match script_path with
    | Some (String c p) =>
        let script_path := String c p in
        temp_dir <- getenv "TEMP" "/tmp" ;;
        unique_id <- uuid4_hex ;;
        let job_info_path :=
          path_join temp_dir (output_type +:+ "_nuke_deadline_job_" +:+ unique_id +:+ ".txt") in
        let plugin_info_path :=
          path_join temp_dir (output_type +:+ "_nuke_deadline_plugin_" +:+ unique_id +:+ ".txt") in
        _write_job_info self job_info_path output_type node output_file ;;;
        _write_plugin_info plugin_info_path script_path ;;;
        ret (Some (job_info_path, plugin_info_path))
    | _ => ret None
    end.

Definition _get_submission_files (self : SubmitterPanel) (node : Node)
    : M (list (option (string * string))) :=
  exr <- _build_submission_files self "exr" node None None ;;
  if value (render_review self) then
    built <- _build_temp_nuke_script self node ;;
    mov <- _build_submission_files self "mov" node (Some (fst built)) (Some (snd built)) ;;
    ret [exr; mov]
  else ret [exr].

(** The [for] loop unpacks each pair; a [None] in the list does not
    unpack. *)
Fixpoint _build_submission_command (command : list string)
    (submission_files : list (option (string * string))) : exn + list string :=
  match submission_files with
  | [] => inr command
  | Some (job_info, plugin_info) :: rest =>
      _build_submission_command (command ++ ["-job"; job_info; plugin_info]) rest
  | None :: _ => inl (TypeError "cannot unpack non-iterable NoneType object")
  end.

(** *** Execute methods *)

Definition _handle_submission_result (result : CompletedProcess) : M unit :=
  if negb (returncode result =? 0)%Z then
    message ("Failed to submit to Deadline!" +:+ LF +:+ stderr result)
  else
    message ("Successfully submitted to Deadline!" +:+ LF +:+ stdout result).

(** [subprocess.run(command, capture_output=True, text=True)]. *)
Definition subprocess_run (command : list string) : M CompletedProcess :=
  r <- get (fun w => run_tool w command) ;;
  result <- lift r ;;
  modify (add_event (Run command result)) ;;;
  ret result.

Definition _execute_command (submission_files : list (option (string * string))) : M unit :=
  deadline_command <- _get_deadline_command ;;
  command <- lift (_build_submission_command
                     [deadline_command; "-Multi"; "-dependent"] submission_files) ;;
  result <- subprocess_run command ;;
  _handle_submission_result result.

(** *** Utility methods *)

(** [any(os.path.isfile(os.path.join(output_dir, f)) for f in names)]. *)
Definition any_isfile (f : gmap string fs_entry) (output_dir : string)
    (names : list string) : bool :=
  List.existsb (fun name => isfile_in f (path_join output_dir name)) names.

(** The result is [True], the user's answer, or [None] when the method
    falls off its end (the directory is there and holds no file). *)
Definition _check_write_has_files (write_node : Node) : M (option bool) :=
  let file_path := match node_cached_path write_node with
                   | Some cached => cached
                   | None => node_file write_node   (* except NameError *)
                   end in
  let output_dir := dirname file_path in
  dir_exists <- path_exists output_dir ;;
  if negb dir_exists then ret (Some true)
  else
    names <- listdir output_dir ;;
    f <- get fs ;;
    if any_isfile f output_dir names then
      answer <- ask ("Files found in directory:" +:+ LF +:+ output_dir +:+ LF
                     +:+ "Do you want to proceed?") ;;
      ret (Some answer)
    else ret None.

(** The truth of a result of [_check_write_has_files]. *)
Definition truth (r : option bool) : bool := default false r.

(** [any(_check_write_has_files(node) for node in write_nodes)]: the
    generator is consumed up to the first true result. *)
Fixpoint any_check (write_nodes : list Node) : M bool :=
  match write_nodes with
  | [] => ret false
  | node :: rest =>
      r <- _check_write_has_files node ;;
      if truth r then ret true else any_check rest
  end.

Definition same_name (name : string) (n : Node) : bool := String.eqb (node_name n) name.

(** [nuke.toNode(name)]. *)
Definition toNode (name : string) : M (option Node) :=
  get (fun w => List.find (same_name name) (scene w)).

(** [nodes.remove(node)]: the first occurrence goes. *)
Fixpoint list_remove (node : Node) (nodes : list Node) : list Node :=
  match nodes with
  | [] => []
  | n :: rest => if same_name (node_name node) n then rest else n :: list_remove node rest
  end.

Fixpoint append_converted (names : list string) (updated_nodes : list Node)
    : M (list Node) :=
  match names with
  | [] => ret updated_nodes
  | name :: rest =>
      converted_node <- toNode name ;;
      match converted_node with
      | Some n => append_converted rest (updated_nodes ++ [n])
      | None => append_converted rest updated_nodes
      end
  end.

Definition _convert_write_nodes (nodes : list Node) (direction : string) : M (list Node) :=
  app <- get writenode_app ;;
  match app with
  | None => ret nodes
  | Some app =>
      if negb (String.eqb direction "to" || String.eqb direction "from") then
        raise (ValueError ("Invalid direction '" +:+ direction +:+ "'. Use 'to' or 'from'."))
      else
        let updated_nodes := nodes in
        if String.eqb direction "from" then
          modify (fun w => set_scene (convert_from_write_nodes app (scene w)) w) ;;;
          ret updated_nodes
        else
          let write_tank_nodes :=
            List.filter (fun n => String.eqb (node_class n) "WriteTank") nodes in
          match write_tank_nodes with
          | [] => ret updated_nodes
          | _ =>
              let write_tank_names := List.map node_name write_tank_nodes in
              let updated_nodes := List.fold_left (fun l n => list_remove n l)
                                                  write_tank_nodes updated_nodes in
              modify (fun w => set_scene (convert_to_write_nodes app (scene w)) w) ;;;
              append_converted write_tank_names updated_nodes
          end
  end.

(** The setters act on the node of the scene that the reference names. *)
Definition update_node (name : string) (f : Node -> Node) : M unit :=
  modify (fun w => set_scene (List.map (fun n => if same_name name n then f n else n)
                                       (scene w)) w).

Definition setSelected (b : bool) (n : Node) : Node :=
  {| node_name := node_name n; node_class := node_class n; node_file := node_file n;
     node_cached_path := node_cached_path n; node_selected := b;
     node_disable := node_disable n |}.

Definition setDisable (b : bool) (n : Node) : Node :=
  {| node_name := node_name n; node_class := node_class n; node_file := node_file n;
     node_cached_path := node_cached_path n; node_selected := node_selected n;
     node_disable := b |}.

Fixpoint _deselect_and_disable_write_nodes (write_nodes : list Node) : M unit :=
  match write_nodes with
  | [] => ret tt
  | node :: rest =>
      update_node (node_name node) (setSelected false) ;;;
      update_node (node_name node) (setDisable true) ;;;
      _deselect_and_disable_write_nodes rest
  end.

Definition _select_and_enable_write_node (write_node : Node) : M unit :=
  update_node (node_name write_node) (setSelected true) ;;;
  update_node (node_name write_node) (setDisable false).

Definition _deselect_non_write_nodes : M unit :=
  modify (fun w => set_scene
                     (List.map (fun n => if negb (String.eqb (node_class n) "Write")
                                         then setSelected false n else n) (scene w)) w).

(** *** Exposed methods *)

(** [SubmitterPanel()]: the knobs with the values of [_initialize_knobs]
    and [_set_default_values]. *)
Definition default_panel (w : World) : SubmitterPanel :=
  {| frame_range := {| value := str (root_first w) +:+ "-" +:+ str (root_last w) |};
     department := {| value := default "" (ctx_task w) |};
     comment := {| value := "" |};
     chunk_size := {| value := 10%Z |};
     priority := {| value := 33%Z |};
     render_review := {| value := true |};
     add_slate := {| value := true |};
     add_burn := {| value := true |} |}.

Definition new_panel : M SubmitterPanel := get default_panel.

(** One turn of the [for] loop of [show]. *)
Definition submit_node (panel : SubmitterPanel) (write_node : Node) : M unit :=
  _select_and_enable_write_node write_node ;;;
  submission_files <- _get_submission_files panel write_node ;;
  _execute_command submission_files.

(** The [for] loop of [show]. *)
Fixpoint submit_nodes (panel : SubmitterPanel) (write_nodes : list Node) : M unit :=
  match write_nodes with
  | [] => ret tt
  | write_node :: rest =>
      submit_node panel write_node ;;;
      submit_nodes panel rest
  end.

(** Lines 598 to 615: what [show] does once the checks let it go on.  The
    list the last call returns is dropped. *)
Definition submit_batch (panel : SubmitterPanel) (write_nodes : list Node) : M unit :=
  write_nodes <- _convert_write_nodes write_nodes "to" ;;
  _deselect_and_disable_write_nodes write_nodes ;;;
  _deselect_non_write_nodes ;;;
  submit_nodes panel write_nodes ;;;
  _convert_write_nodes write_nodes "from" ;;;
  ret tt.

Definition show (send_selected : bool) : M unit :=
  panel <- new_panel ;;
  panel <- get (fun w => dialog_edit w panel) ;;
  ok <- get dialog_ok ;;
  if negb ok then ret tt
  else
    write_nodes <- _get_write_nodes send_selected ;;
    match write_nodes with
    | None | Some [] =>
        message "No valid Write nodes selected. Please select at least one Write or WriteTank node."
    | Some write_nodes =>
        proceed <- any_check write_nodes ;;
        if negb proceed then ret tt
        else submit_batch panel write_nodes
    end.

End Methods.

(** ** A runnable [str.format] and a small studio

    For running the methods: the fragment of [str.format] with named fields
    and doubled braces (no conversion, no format specification, no
    attribute or index), and a world to run them in. *)

Definition render_pyval (v : pyval) : string :=
  match v with
  | PyStr s => s
  | PyInt z => str z
  end.

Fixpoint lookup_field (name : string) (fields : list (string * pyval)) : exn + string :=
  match fields with
  | [] => inl (KeyError ("'" +:+ name +:+ "'"))
  | (k, v) :: rest => if String.eqb k name then inr (render_pyval v) else lookup_field name rest
  end.

Definition cons_result (pre : string) (r : exn + string) : exn + string :=
  match r with
  | inr s => inr (pre +:+ s)
  | inl e => inl e
  end.

(** [field] is the name read so far when the scan is inside braces. *)
Fixpoint format_scan (fields : list (string * pyval)) (template : string)
    (field : option string) : exn + string :=
  match template with
  | EmptyString =>
      match field with
      | None => inr EmptyString
      | Some _ => inl (ValueError "expected '}' before end of string")
      end
  | String c rest =>
      match field with
      | Some name =>
          if Ascii.eqb c "}" then
            match lookup_field name fields with
            | inr v => cons_result v (format_scan fields rest None)
            | inl e => inl e
            end
          else format_scan fields rest (Some (name +:+ String c EmptyString))
      | None =>
          if Ascii.eqb c "{" then
            match rest with
            | String "{" rest' => cons_result "{" (format_scan fields rest' None)
            | _ => format_scan fields rest (Some EmptyString)
            end
          else if Ascii.eqb c "}" then
            match rest with
            | String "}" rest' => cons_result "}" (format_scan fields rest' None)
            | _ => inl (ValueError "Single '}' encountered in format string")
            end
          else cons_result (String c EmptyString) (format_scan fields rest None)
      end
  end.

Definition format_named (template : string) (fields : list (string * pyval)) : exn + string :=
  format_scan fields template None.

Module Studio.

Definition write_node (name file : string) : Node :=
  {| node_name := name; node_class := "Write"; node_file := file;
     node_cached_path := None; node_selected := true; node_disable := false |}.

Definition tool_ok : CompletedProcess :=
  {| returncode := 0; stdout := "Result=Success"; stderr := "" |}.

Definition tool_failed : CompletedProcess :=
  {| returncode := 1; stdout := ""; stderr := "Error: no connection" |}.

(** A saved shot script on a workstation that sets no [DEADLINE_PATH]:
    the project and resource files plus [more], the write nodes [nodes],
    the user's answers to [nuke.ask], the user's edits in the dialog and
    the result of every run of the farm tool. *)
Definition studio (more : list (string * fs_entry)) (nodes : list Node)
    (answers : nat -> bool) (edit : SubmitterPanel -> SubmitterPanel)
    (tool : CompletedProcess) : World :=
  {| environ := {[ "OCIO" := "/Volumes/production/ocio/config.ocio" ]};
     platform_system := "Darwin";
     fs := list_to_map
             ([ ("/proj", Dir);
                ("/proj/shot010.nk", File "Root { }");
                ("/tmp", Dir);
                ("/res", Dir);
                ("/res/burn.nk", File ("set cut_paste_input [stack 0]" +:+ LF +:+
                                       "push $cut_paste_input" +:+ LF +:+
                                       "Text2 { message burn }" +:+ LF)) ] ++ more);
     root_name := "/proj/shot010.nk";
     script_text := "Root { }";
     root_first := 1001;
     root_last := 1050;
     nuke_version := (14, 0)%Z;
     scene := nodes;
     resources_dir := "/res";
     ctx_task := Some "comp";
     ctx_project := Some None;
     tk_render_path := fun _ _ => inr None;
     writenode_app := None;
     dialog_edit := edit;
     dialog_ok := true;
     ask_answer := answers;
     uuid_hex := fun n => "id" +:+ str (Z.of_nat n);
     uuid_count := 0;
     run_tool := fun _ => inr tool;
     log := [] |}.

Definition template : string * fs_entry :=
  ("/res/nuke_template.txt",
   File "Root {{ first {root_first} last {root_last} }} Read {{ file {read_file_path} first {read_first} last {read_last} }} {burn_in_file} Write {{ file {output_file_path} ocio {OCIO_PATH} }}").

Definition Write1 : Node := write_node "Write1" "/proj/renders/shot010.1001.exr".

(** One write node that has rendered nothing yet. *)
Definition world : World := studio [template] [Write1] (fun _ => true) (fun p => p) tool_ok.

(** Two write nodes, each with its own directory. *)
Definition WriteA : Node := write_node "WriteA" "/proj/a/shotA.1001.exr".
Definition WriteB : Node := write_node "WriteB" "/proj/b/shotB.1001.exr".

(** The studio with the script template missing from the resources. *)
Definition no_template : World :=
  studio [] [Write1] (fun _ => true) (fun p => p) tool_ok.

(** The studio after ninety-nine review submissions of the shot. *)
Definition ninety_nine_scripts : list (string * fs_entry) :=
  ("/proj/tmp", Dir)
  :: List.map (fun k => (temp_script_path "/proj/tmp" "shot010" k, File "Root { }"))
              (List.seq 1 99).

Definition busy : World :=
  studio (template :: ninety_nine_scripts) [Write1] (fun _ => true) (fun p => p) tool_ok.

(** The user unticks "Review file" in the dialog. *)
Definition no_review (p : SubmitterPanel) : SubmitterPanel :=
  {| frame_range := frame_range p; department := department p; comment := comment p;
     chunk_size := chunk_size p; priority := priority p;
     render_review := {| value := false |};
     add_slate := add_slate p; add_burn := add_burn p |}.

(** Both write nodes have rendered before: each directory holds a frame. *)
Definition rendered : list (string * fs_entry) :=
  [ ("/proj/a", Dir); ("/proj/a/shotA.1001.exr", File "exr");
    ("/proj/b", Dir); ("/proj/b/shotB.1001.exr", File "exr") ].

(** The user answers no for the first directory asked about and yes from
    then on ... *)
Definition no_then_yes (n : nat) : bool :=
  match n with O => false | S _ => true end.

Definition rerender : World :=
  studio rendered [WriteA; WriteB] no_then_yes no_review tool_ok.

(** ... or yes at once ... *)
Definition rerender_yes : World :=
  studio rendered [WriteA; WriteB] (fun _ => true) no_review tool_ok.

(** ... and a batch of the first node alone, with the answer [answer]. *)
Definition rerender_one (answer : bool) : World :=
  studio rendered [WriteA] (fun _ => answer) no_review tool_ok.

(** Two nodes that have rendered nothing yet, review movies asked for. *)
Definition two_nodes : World :=
  studio [template] [WriteA; WriteB] (fun _ => true) (fun p => p) tool_ok.


(** The same studio on a day the farm cannot be reached. *)
Definition farm_down : World :=
  studio [template] [WriteA; WriteB] (fun _ => true) (fun p => p) tool_failed.


(** The studio after the frames of an earlier render were cleared out:
    the directory of the write node is there and holds nothing. *)
Definition cleared : World :=
  studio [template; ("/proj/renders", Dir)] [Write1] (fun _ => true) (fun p => p) tool_ok.

(** A scene with a toolkit write node, and the toolkit's app to convert
    it. *)
Definition Tank1 : Node :=
  {| node_name := "Tank1"; node_class := "WriteTank";
     node_file := "/proj/renders/tank.1001.exr";
     node_cached_path := Some "/proj/renders/tank.1001.exr";
     node_selected := true; node_disable := false |}.

Definition set_class (c : string) (n : Node) : Node :=
  {| node_name := node_name n; node_class := c; node_file := node_file n;
     node_cached_path := node_cached_path n; node_selected := node_selected n;
     node_disable := node_disable n |}.

Definition writenode : WriteNodeApp :=
  {| convert_to_write_nodes :=
       List.map (fun n => if String.eqb (node_class n) "WriteTank"
                          then set_class "Write" n else n);
     convert_from_write_nodes :=
       List.map (fun n => if String.eqb (node_name n) "Tank1"
                          then set_class "WriteTank" n else n) |}.

Definition toolkit : World :=
  {| environ := environ world; platform_system := platform_system world; fs := fs world;
     root_name := root_name world; script_text := script_text world;
     root_first := root_first world; root_last := root_last world;
     nuke_version := nuke_version world; scene := [Tank1; Write1];
     resources_dir := resources_dir world;
     ctx_task := ctx_task world; ctx_project := ctx_project world;
     tk_render_path := tk_render_path world; writenode_app := Some writenode;
     dialog_edit := dialog_edit world; dialog_ok := dialog_ok world;
     ask_answer := ask_answer world;
     uuid_hex := uuid_hex world; uuid_count := uuid_count world;
     run_tool := run_tool world;
     log := log world |}.

(** The artist asks for the selected nodes with nothing selected. *)
Definition nothing_selected : World :=
  set_scene [setSelected false Write1] world.

(** A new script that has no file yet. *)
Definition unsaved : World :=
  {| environ := environ world; platform_system := platform_system world; fs := fs world;
     root_name := "Root"; script_text := script_text world;
     root_first := root_first world; root_last := root_last world;
     nuke_version := nuke_version world; scene := scene world;
     resources_dir := resources_dir world;
     ctx_task := ctx_task world; ctx_project := ctx_project world;
     tk_render_path := tk_render_path world; writenode_app := writenode_app world;
     dialog_edit := dialog_edit world; dialog_ok := dialog_ok world;
     ask_answer := ask_answer world;
     uuid_hex := uuid_hex world; uuid_count := uuid_count world;
     run_tool := run_tool world;
     log := log world |}.

(** The panel as the dialog leaves it for a frame range and a slate
    choice. *)
Definition panel (range : string) (slate : bool) : SubmitterPanel :=
  {| frame_range := {| value := range |};
     department := {| value := "comp" |};
     comment := {| value := "" |};
     chunk_size := {| value := 10%Z |};
     priority := {| value := 33%Z |};
     render_review := {| value := true |};
     add_slate := {| value := slate |};
     add_burn := {| value := true |} |}.

End Studio.

(** ** Notions of the specification *)

(** "Every occurrence of [old] replaced by [new]", in the words of the
    specification: reading [s] from the left, an occurrence of [old] gives
    [new], and a character that starts no occurrence is kept. *)
Inductive replaced_all (old new : string) : string -> string -> Prop :=
| replaced_end : replaced_all old new "" ""
| replaced_occurrence s t :
    replaced_all old new s t ->
    replaced_all old new (old +:+ s) (new +:+ t)
| replaced_keep c s t :
    startswith (String c s) old = false ->
    replaced_all old new s t ->
    replaced_all old new (String c s) (String c t).

Definition is_Message (e : event) : bool :=
  match e with Message _ => true | _ => false end.

Definition is_Run (e : event) : bool :=
  match e with Run _ _ => true | _ => false end.

(** The text of the notification for a result of the farm tool. *)
Definition result_text (result : CompletedProcess) : string :=
  if (returncode result =? 0)%Z
  then "Successfully submitted to Deadline!" +:+ LF +:+ stdout result
  else "Failed to submit to Deadline!" +:+ LF +:+ stderr result.

(** The fallback path in the words of the specification: the directory of
    the read file, "/review/", the file name without its trailing frame
    number and extension, ".mov".  A frame suffix is a dot, four digits or
    more, a dot and an extension. *)
Definition is_frame_suffix (s : string) : bool :=
  match s with
  | String "." s1 =>
      let '(n, s2) := skip_digits s1 in
      (4 <=? n) &&
      match s2 with
      | String "." ext => negb (String.eqb ext "") && negb (contains_char "." ext)
      | _ => false
      end
  | _ => false
  end.

Fixpoint strip_frame_suffix (name : string) : string :=
  if is_frame_suffix name then EmptyString
  else match name with
       | EmptyString => EmptyString
       | String c s => String c (strip_frame_suffix s)
       end.

Definition stated_fallback_path (read_path : string) : string :=
  dirname read_path +:+ "/review/" +:+ strip_frame_suffix (basename read_path) +:+ ".mov".

(** The name of the review movie as the code makes it, in words: a file
    name that ends in a dot, four or more decimal digits and ".exr" loses
    that ending; the ending is also looked for before a line feed that
    ends the file name, and the line feed stays; every other file name is
    kept whole. *)
Definition all_decimal (s : string) : Prop :=
  Forall (fun c => In c (list_ascii_of_string "0123456789")) (list_ascii_of_string s).

Inductive review_name (filename : string) : string -> Prop :=
| review_name_stripped stem ds tail :
    filename = stem +:+ "." +:+ ds +:+ ".exr" +:+ tail ->
    all_decimal ds -> 4 <= String.length ds ->
    tail = "" \/ tail = LF ->
    review_name filename (stem +:+ tail)
| review_name_kept :
    (forall stem ds tail,
       all_decimal ds -> 4 <= String.length ds ->
       tail = "" \/ tail = LF ->
       filename <> stem +:+ "." +:+ ds +:+ ".exr" +:+ tail) ->
    review_name filename filename.

(** What a build may do to the world around the script it writes: the
    settings stay; the current script may be saved; every other file stays
    as it is and no other file appears; what exists goes on existing
    (directories may be added). *)
Record dirs_added (w w' : World) : Prop := {
  same_environ : environ w' = environ w;
  same_platform : platform_system w' = platform_system w;
  same_root_name : root_name w' = root_name w;
  same_script_text : script_text w' = script_text w;
  same_resources : resources_dir w' = resources_dir w;
  same_project : ctx_project w' = ctx_project w;
  same_toolkit : tk_render_path w' = tk_render_path w;
  same_files : forall q c, q <> root_name w ->
                 (fs w' !! q = Some (File c) <-> fs w !! q = Some (File c));
  still_exists : forall q, exists_in (fs w) q = true -> exists_in (fs w') q = true;
}.

(** A method that does no more than that, however it ends. *)
Definition adds_dirs {A} (m : M A) : Prop :=
  forall w r w', m w = (r, w') -> dirs_added w w'.

(** The name of a temporary script in the words of the specification: the
    base name, "_tmp_" and a sequence number of two digits (whatever
    follows the number does not go on with a digit). *)
Definition stated_temp_name (base_name name : string) : Prop :=
  exists (d1 d2 : ascii) (rest : string),
    isdigit d1 = true /\ isdigit d2 = true /\ startswith_digit rest = false
    /\ name = base_name +:+ "_tmp_" +:+ String d1 (String d2 rest).

(** What the user was asked and what the farm tool was given, read off a
    world: the questions of [nuke.ask] with their answers, and the [Name]
    line of every job info file of every run. *)
Definition asked (w : World) : list (string * bool) :=
  List.flat_map (fun e => match e with Ask prompt answer => [(prompt, answer)] | _ => [] end)
                (log w).

Fixpoint job_info_paths (command : list string) : list string :=
  match command with
  | [] => []
  | a :: rest =>
      if String.eqb a "-job" then
        match rest with
        | job_info :: _ => job_info :: job_info_paths rest
        | [] => []
        end
      else job_info_paths rest
  end.

(** The lines of a job info file that start with one of [keys]. *)
Definition job_lines (f : gmap string fs_entry) (keys : list string)
    (job_info_path : string) : list string :=
  match f !! job_info_path with
  | Some (File content) =>
      List.filter (fun line => List.existsb (startswith line) keys) (readlines content)
  | _ => []
  end.

Definition job_name (f : gmap string fs_entry) (job_info_path : string) : string :=
  match f !! job_info_path with
  | Some (File content) =>
      List.hd "" (List.filter (fun line => startswith line "Name=") (readlines content))
  | _ => ""
  end.

Definition submitted_jobs (w : World) : list string :=
  List.flat_map (fun e => match e with
                          | Run command _ => List.map (job_name (fs w)) (job_info_paths command)
                          | _ => []
                          end)
                (log w).

(** The question of [_check_write_has_files] for a directory. *)
Definition overwrite_prompt (output_dir : string) : string :=
  "Files found in directory:" +:+ LF +:+ output_dir +:+ LF +:+ "Do you want to proceed?".

(** The directory [_check_write_has_files] looks into for a node. *)
Definition checked_dir (write_node : Node) : string :=
  dirname (default (node_file write_node) (node_cached_path write_node)).

(** The overwrite rule in the words of the specification, for one write
    node whose directory holds files, read off the world a submission has
    left: the user was asked about the node's directory, and the node's
    image job went to the farm exactly when the answer was yes. *)
Definition image_job_name (write_node : Node) : string :=
  "Name=" +:+ node_name write_node +:+ " - Rendered Image" +:+ LF.

Definition stated_overwrite_rule (w' : World) (write_node : Node) : Prop :=
  (exists answer, In (overwrite_prompt (checked_dir write_node), answer) (asked w'))
  /\ forall answer,
       In (overwrite_prompt (checked_dir write_node), answer) (asked w') ->
       (In (image_job_name write_node) (submitted_jobs w') <-> answer = true).

(** What the methods outside [_convert_write_nodes] and the node setters
    leave as it is: everything but the file system, the log and the count
    of identifiers drawn. *)
Record same_host (w w' : World) : Prop := {
  host_environ : environ w' = environ w;
  host_platform : platform_system w' = platform_system w;
  host_root_name : root_name w' = root_name w;
  host_script_text : script_text w' = script_text w;
  host_root_first : root_first w' = root_first w;
  host_root_last : root_last w' = root_last w;
  host_nuke_version : nuke_version w' = nuke_version w;
  host_scene : scene w' = scene w;
  host_resources : resources_dir w' = resources_dir w;
  host_task : ctx_task w' = ctx_task w;
  host_project : ctx_project w' = ctx_project w;
  host_toolkit : tk_render_path w' = tk_render_path w;
  host_app : writenode_app w' = writenode_app w;
  host_dialog_edit : dialog_edit w' = dialog_edit w;
  host_dialog_ok : dialog_ok w' = dialog_ok w;
  host_answers : ask_answer w' = ask_answer w;
  host_uuid_hex : uuid_hex w' = uuid_hex w;
  host_run_tool : run_tool w' = run_tool w;
}.

Definition keeps_host {A} (m : M A) : Prop :=
  forall w r w', m w = (r, w') -> same_host w w'.

(** The message of [_get_nuke_script_path] for a script that has no file
    yet. *)
Definition please_save : string :=
  "Please save the Nuke script before submitting to Deadline.".

(** ** Notions for the node lists *)

Definition is_write_tank (n : Node) : bool := String.eqb (node_class n) "WriteTank".

(** The nodes a scene holds under the names of [nodes], in the order of
    [nodes]. *)
Definition nodes_named (sc : list Node) (nodes : list Node) : list Node :=
  List.flat_map (fun n => match List.find (same_name (node_name n)) sc with
                          | Some m => [m]
                          | None => []
                          end) nodes.

(** A node of the scene goes by the name of one of [nodes]. *)
Definition named_in (nodes : list Node) (n : Node) : bool :=
  List.existsb (fun m => String.eqb (node_name n) (node_name m)) nodes.

(** * Properties *)

(** ** The built-ins *)

Module PyFacts.

Lemma app_nil_l t : "" +:+ t = t.
Proof. reflexivity. Qed.

Lemma app_cons a s t : String a s +:+ t = String a (s +:+ t).
Proof. reflexivity. Qed.

Lemma isdigit_cases c :
  isdigit c = true ->
  isspace c = false /\ Ascii.eqb c "-" = false /\ Ascii.eqb c "+" = false
  /\ Ascii.eqb c "_" = false /\ Ascii.eqb c "/" = false.
Proof.
  destruct c as [[] [] [] [] [] [] [] []]; vm_compute; intros H;
    try discriminate H; repeat split.
Qed.

Lemma uint_digits d : str_forall isdigit (NilEmpty.string_of_uint d) = true.
Proof. induction d; simpl; auto. Qed.

Lemma uint_nonempty d : d <> Nil -> NilEmpty.string_of_uint d <> "".
Proof. destruct d; simpl; congruence. Qed.

Lemma parse_digits_cons c1 c2 s d1 :
  digit_of c1 = Some d1 -> Ascii.eqb c2 "_" = false ->
  parse_digits (String c1 (String c2 s)) = option_map d1 (parse_digits (String c2 s)).
Proof.
  intros H1 H2. cbn [parse_digits]. rewrite H1.
  destruct c2 as [[] [] [] [] [] [] [] []]; try reflexivity; discriminate H2.
Qed.

Lemma parse_digits_of_uint d :
  d <> Nil -> parse_digits (NilEmpty.string_of_uint d) = Some d.
Proof.
  induction d as [|d IH|d IH|d IH|d IH|d IH|d IH|d IH|d IH|d IH|d IH];
    intros Hd; [congruence| ..];
    (destruct d; [reflexivity| ..];
     simpl NilEmpty.string_of_uint; simpl NilEmpty.string_of_uint in IH;
     (erewrite parse_digits_cons; [| reflexivity | reflexivity]);
     rewrite IH by discriminate; reflexivity).
Qed.

Lemma lstrip_digit_first c s : isspace c = false -> lstrip (String c s) = String c s.
Proof. intros H. simpl. now rewrite H. Qed.

Lemma rstrip_no_space s :
  s <> "" -> str_forall (fun c => negb (isspace c)) s = true -> rstrip s = s.
Proof.
  induction s as [|c s IH]; [congruence|]. intros _ H. simpl in H.
  apply andb_prop in H as [Hc Hs]. apply negb_true_iff in Hc.
  destruct s as [|c' s'].
  - simpl. now rewrite Hc.
  - change (rstrip (String c (String c' s')))
      with (match rstrip (String c' s') with
            | EmptyString => if isspace c then EmptyString else String c EmptyString
            | r => String c r
            end).
    rewrite IH by (auto; congruence). reflexivity.
Qed.

Lemma str_forall_impl (P Q : ascii -> bool) s :
  (forall c, P c = true -> Q c = true) -> str_forall P s = true -> str_forall Q s = true.
Proof.
  intros HPQ. induction s as [|c s IH]; simpl; [auto|].
  intros H. apply andb_prop in H as [H1 H2]. rewrite HPQ, IH; auto.
Qed.

Lemma digits_no_space s :
  str_forall isdigit s = true -> str_forall (fun c => negb (isspace c)) s = true.
Proof.
  apply str_forall_impl. intros c Hc. apply isdigit_cases in Hc as [-> _]. reflexivity.
Qed.

Lemma strip_digits s :
  s <> "" -> str_forall isdigit s = true -> strip s = s.
Proof.
  intros Hne Hd. unfold strip. destruct s as [|c s]; [congruence|].
  pose proof Hd as Hd'. simpl in Hd'. apply andb_prop in Hd' as [Hc _].
  apply isdigit_cases in Hc as [Hc _].
  rewrite lstrip_digit_first by assumption.
  apply rstrip_no_space; [congruence | now apply digits_no_space].
Qed.

(** The unsigned decimal numeral of a number. *)
Lemma str_of_N n : str (Z.of_N n) = NilEmpty.string_of_uint (N.to_uint n).
Proof.
  destruct n as [|p]; [reflexivity|]. unfold str. simpl.
  pose proof (DecimalPos.Unsigned.to_uint_nonnil p).
  destruct (Pos.to_uint p); [congruence|reflexivity..].
Qed.

Lemma str_of_N_digits n : str_forall isdigit (str (Z.of_N n)) = true.
Proof. rewrite str_of_N. apply uint_digits. Qed.

Lemma N_to_uint_nonnil n : N.to_uint n <> Nil.
Proof.
  destruct n; simpl; [discriminate|]. apply DecimalPos.Unsigned.to_uint_nonnil.
Qed.

Lemma str_of_N_nonempty n : str (Z.of_N n) <> "".
Proof. rewrite str_of_N. apply uint_nonempty, N_to_uint_nonnil. Qed.

(** [int(str(n)) == n] for a natural number... *)
Lemma int_str_N n : int (str (Z.of_N n)) = Some (Z.of_N n).
Proof.
  unfold int. rewrite strip_digits by (apply str_of_N_nonempty || apply str_of_N_digits).
  pose proof (str_of_N_digits n) as Hd. pose proof (str_of_N_nonempty n) as Hne.
  rewrite str_of_N in *.
  destruct (NilEmpty.string_of_uint (N.to_uint n)) as [|c s] eqn:E; [congruence|].
  simpl in Hd. apply andb_prop in Hd as [Hc _].
  apply isdigit_cases in Hc as (_ & Hm & Hp & _).
  assert (parse_digits (String c s) = Some (N.to_uint n)) as Hparse
    by (rewrite <- E; apply parse_digits_of_uint, N_to_uint_nonnil).
  assert (option_map (fun d => Z.of_N (N.of_uint d)) (parse_digits (String c s))
          = Some (Z.of_N n)) as Hres
    by (rewrite Hparse; simpl; now rewrite DecimalN.Unsigned.of_to).
  destruct c as [[] [] [] [] [] [] [] []]; try exact Hres; discriminate.
Qed.

(** ... and for every integer. *)
Lemma int_str z : int (str z) = Some z.
Proof.
  destruct z as [|p|p].
  - reflexivity.
  - apply (int_str_N (Npos p)).
  - unfold int, str. simpl.
    pose proof (str_of_N (Npos p)) as E. unfold str in E. simpl in E.
    pose proof (str_of_N_digits (Npos p)) as Hd. unfold str in Hd. simpl in Hd.
    pose proof (str_of_N_nonempty (Npos p)) as Hne. unfold str in Hne. simpl in Hne.
    set (s := NilZero.string_of_uint (Pos.to_uint p)) in *.
    assert (strip (String "-" s) = String "-" s) as ->.
    { unfold strip. rewrite lstrip_digit_first by reflexivity.
      apply rstrip_no_space; [congruence|]. simpl. now apply digits_no_space. }
    rewrite E, parse_digits_of_uint by apply DecimalPos.Unsigned.to_uint_nonnil.
    simpl. unfold N.of_uint. now rewrite DecimalPos.Unsigned.of_to.
Qed.

Lemma str_inj z1 z2 : str z1 = str z2 -> z1 = z2.
Proof.
  intros H. apply (f_equal int) in H. rewrite !int_str in H. congruence.
Qed.

Lemma startswith_char c a s : startswith (String a s) (String c "") = Ascii.eqb c a.
Proof. unfold startswith. simpl. now destruct (Ascii.eqb c a). Qed.

Lemma split_char_none c s :
  contains_char c s = false -> split s (String c "") = [s].
Proof.
  unfold split. induction s as [|a s IH]; [reflexivity|].
  simpl contains_char. intros H. apply orb_false_iff in H as [Ha Hs].
  cbn [split_from]. rewrite startswith_char, Ascii.eqb_sym, Ha, IH by assumption.
  reflexivity.
Qed.

Lemma split_char_app c s1 s2 :
  contains_char c s1 = false ->
  split (s1 +:+ String c s2) (String c "") = s1 :: split s2 (String c "").
Proof.
  unfold split. induction s1 as [|a s IH].
  - intros _. rewrite app_nil_l. cbn [split_from].
    rewrite startswith_char, Ascii.eqb_refl. reflexivity.
  - simpl contains_char. intros H. apply orb_false_iff in H as [Ha Hs].
    rewrite app_cons. cbn [split_from].
    rewrite startswith_char, Ascii.eqb_sym, Ha, IH by assumption. reflexivity.
Qed.

Lemma digits_no_char c s :
  isdigit c = false -> str_forall isdigit s = true -> contains_char c s = false.
Proof.
  intros Hc. induction s as [|a s IH]; [reflexivity|]. simpl.
  intros H. apply andb_prop in H as [Ha Hs]. rewrite IH by assumption.
  destruct (Ascii.eqb_spec a c) as [->|]; [congruence|reflexivity].
Qed.

(** A range written from two natural numbers splits into the two. *)
Lemma split_range a b :
  split (str (Z.of_N a) +:+ "-" +:+ str (Z.of_N b)) "-"
  = [str (Z.of_N a); str (Z.of_N b)].
Proof.
  change (str (Z.of_N a) +:+ "-" +:+ str (Z.of_N b))
    with (str (Z.of_N a) +:+ String "-" (str (Z.of_N b))).
  rewrite split_char_app, split_char_none; [reflexivity| |];
    apply digits_no_char; (reflexivity || apply str_of_N_digits).
Qed.

End PyFacts.

(** ** The adjusted frame range *)

Lemma unpack2_int_range a b :
  unpack2_int (split (str (Z.of_N a) +:+ "-" +:+ str (Z.of_N b)) "-")
  = inr (Z.of_N a, Z.of_N b).
Proof.
  rewrite PyFacts.split_range. unfold unpack2_int.
  now rewrite !PyFacts.int_str.
Qed.

(** C1.  For a frame range "A-B" of two natural numbers the method returns
    "(A-1)-B", and it does so whatever the slate knob holds: line 228 tests
    the knob object, which is always true, and never reads its value.  The
    end frame is left as it is. *)
Theorem get_adjusted_frame_range_decrements (self : SubmitterPanel) (a b : N) :
  value (frame_range self) = str (Z.of_N a) +:+ "-" +:+ str (Z.of_N b) ->
  get_adjusted_frame_range self
  = inr (str (Z.of_N a - 1) +:+ "-" +:+ str (Z.of_N b)).
Proof.
  intros Hrange. unfold get_adjusted_frame_range.
  rewrite Hrange, unpack2_int_range. reflexivity.
Qed.

(** With the slate option off and the range 1001-1050 the method still
    answers 1000-1050. *)
Lemma get_adjusted_frame_range_slate_off :
  get_adjusted_frame_range (Studio.panel "1001-1050" false) = inr "1000-1050".
Proof.
  exact (get_adjusted_frame_range_decrements (Studio.panel "1001-1050" false)
           1001 1050 eq_refl).
Defined.

(** ** Running a method: inversion of the monad *)

Lemma bind_inr {A B} (m : M A) (k : A -> M B) w b w' :
  bind m k w = (inr b, w') ->
  exists a w1, m w = (inr a, w1) /\ k a w1 = (inr b, w').
Proof.
  unfold bind. destruct (m w) as [[e|a] w1]; [discriminate|]. eauto.
Qed.

Lemma bind_run {A B} (m : M A) (k : A -> M B) w a w1 :
  m w = (inr a, w1) -> bind m k w = k a w1.
Proof. unfold bind. now intros ->. Qed.

Lemma bind_raise {A B} (m : M A) (k : A -> M B) w e w1 :
  m w = (inl e, w1) -> bind m k w = (inl e, w1).
Proof. unfold bind. now intros ->. Qed.

Lemma bind_assoc_run {A B C} (m : M A) (k : A -> M B) (k2 : B -> M C) w :
  bind (bind m k) k2 w = bind m (fun a => bind (k a) k2) w.
Proof. unfold bind. now destruct (m w) as [[e|a] w1]. Qed.

Lemma ret_inr {A} (a b : A) w w' : ret a w = (inr b, w') -> a = b /\ w = w'.
Proof. unfold ret. intros [= -> ->]. auto. Qed.

Lemma get_inr {A} (f : World -> A) a w w' : get f w = (inr a, w') -> a = f w /\ w' = w.
Proof. unfold get. intros [= <- <-]. auto. Qed.

Lemma lift_inr {A} (r : exn + A) a w w' : lift r w = (inr a, w') -> r = inr a /\ w' = w.
Proof. unfold lift. intros [= -> <-]. auto. Qed.

Lemma modify_inr f u w w' : modify f w = (inr u, w') -> w' = f w.
Proof. unfold modify. intros [= _ <-]. reflexivity. Qed.

(** Take a successful run apart, step by step. *)
Ltac run_inv H :=
  repeat match type of H with
    | bind _ _ _ = (inr _, _) =>
        let a := fresh "a" in let w := fresh "w" in let H1 := fresh "Hrun" in
        apply bind_inr in H as (a & w & H1 & H)
    end.

(** ** The job info file *)

Lemma job_file_lines_inr self output_type node output_file w lines w' :
  job_file_lines self output_type node output_file w = (inr lines, w') ->
  exists batch_name frames ocio movie_dir,
    lines = job_file_literal self output_type node batch_name frames ocio
            ++ (if String.eqb output_type "exr"
                then ["OutputDirectory0=" +:+ dirname (node_file node) +:+ LF] else [])
            ++ (if String.eqb output_type "mov"
                then ["OutputDirectory1=" +:+ movie_dir +:+ LF] else []).
Proof.
  unfold job_file_lines. intros H. run_inv H.
  exists a0, a1, a2.
  destruct (String.eqb output_type "mov") eqn:Emov.
  - run_inv H. apply ret_inr in H as [<- _]. exists a3.
    destruct (String.eqb output_type "exr"); now rewrite <- ?app_assoc.
  - apply ret_inr in H as [<- _]. exists "".
    destruct (String.eqb output_type "exr"); now rewrite ?app_nil_r.
Qed.

Lemma _write_job_info_inr self job_info_path output_type node output_file w w' :
  _write_job_info self job_info_path output_type node output_file w = (inr tt, w') ->
  exists lines w1,
    job_file_lines self output_type node output_file w = (inr lines, w1)
    /\ fs w' !! job_info_path = Some (File (String.concat "" lines)).
Proof.
  unfold _write_job_info. intros H. run_inv H.
  exists a, w0. split; [assumption|].
  unfold writelines, write in H. apply modify_inr in H. subst w'.
  simpl. apply lookup_insert_eq.
Qed.

(** C2.  The job info file that [_write_job_info] has written is the
    concatenation of its lines, and the fifth line is the chunk size: the
    fixed 1000000 for the output type "mov", whatever the chunk size knob
    holds, and the knob's value for every other output type. *)
Theorem job_info_chunk_size self job_info_path output_type node output_file w w' :
  _write_job_info self job_info_path output_type node output_file w = (inr tt, w') ->
  exists lines : list string,
    fs w' !! job_info_path = Some (File (String.concat "" lines))
    /\ lines !! 4%nat
       = Some ("ChunkSize=" +:+ (if String.eqb output_type "mov" then "1000000"
                                 else str (value (chunk_size self))) +:+ LF)
    /\ List.filter (fun line => startswith line "ChunkSize=") lines
       = ["ChunkSize=" +:+ (if String.eqb output_type "mov" then "1000000"
                            else str (value (chunk_size self))) +:+ LF].
Proof.
  intros H. apply _write_job_info_inr in H as (lines & w1 & Hlines & Hfile).
  exists lines. split; [assumption|].
  apply job_file_lines_inr in Hlines as (batch & frames & ocio & movie_dir & ->).
  unfold job_file_literal.
  destruct (String.eqb output_type "mov"), (String.eqb output_type "exr");
    split; reflexivity.
Qed.

(** The two job info files of the studio's node: the movie job with the
    fixed chunk size, the image job with the 10 of the panel. *)
Lemma job_info_chunk_size_studio :
  (let w' := snd (_write_job_info (Studio.panel "1001-1050" true) "/tmp/job.txt" "mov"
                    Studio.Write1 (Some "/proj/renders/review/shot010.mov") Studio.world) in
   exists lines : list string,
     fs w' !! "/tmp/job.txt" = Some (File (String.concat "" lines))
     /\ lines !! 4%nat = Some ("ChunkSize=1000000" +:+ LF)
     /\ List.filter (fun line => startswith line "ChunkSize=") lines
        = ["ChunkSize=1000000" +:+ LF])
  /\
  (let w' := snd (_write_job_info (Studio.panel "1001-1050" true) "/tmp/job.txt" "exr"
                    Studio.Write1 None Studio.world) in
   exists lines : list string,
     fs w' !! "/tmp/job.txt" = Some (File (String.concat "" lines))
     /\ lines !! 4%nat = Some ("ChunkSize=10" +:+ LF)
     /\ List.filter (fun line => startswith line "ChunkSize=") lines
        = ["ChunkSize=10" +:+ LF]).
Proof.
  split; intros w'.
  - apply (job_info_chunk_size (Studio.panel "1001-1050" true) "/tmp/job.txt" "mov"
             Studio.Write1 (Some "/proj/renders/review/shot010.mov") Studio.world w').
    vm_compute. reflexivity.
  - apply (job_info_chunk_size (Studio.panel "1001-1050" true) "/tmp/job.txt" "exr"
             Studio.Write1 None Studio.world w').
    vm_compute. reflexivity.
Defined.

Lemma entry_key_of k v :
  contains_char "=" k = false -> entry_key (k +:+ String "=" v) = k.
Proof.
  intros Hk. unfold entry_key.
  now rewrite (PyFacts.split_char_app "="%char) by assumption.
Qed.

(** C9.  The job info file written for the output type "exr" holds two
    output directory entries, and both have the key [OutputDirectory0]: the
    list literal already ends with that entry and the branch for "exr"
    appends it once more. *)
Theorem exr_job_info_repeats_output_directory self job_info_path node output_file w w' :
  _write_job_info self job_info_path "exr" node output_file w = (inr tt, w') ->
  exists lines : list string,
    fs w' !! job_info_path = Some (File (String.concat "" lines))
    /\ List.map entry_key (List.filter is_output_directory lines)
       = ["OutputDirectory0"; "OutputDirectory0"].
Proof.
  intros H. apply _write_job_info_inr in H as (lines & w1 & Hlines & Hfile).
  exists lines. split; [assumption|].
  apply job_file_lines_inr in Hlines as (batch & frames & ocio & movie_dir & ->).
  cbn [String.eqb Ascii.eqb Bool.eqb]. unfold job_file_literal.
  change (List.map entry_key
            ["OutputDirectory0" +:+ String "=" (dirname (node_file node) +:+ LF);
             "OutputDirectory0" +:+ String "=" (dirname (node_file node) +:+ LF)]
          = ["OutputDirectory0"; "OutputDirectory0"]).
  cbn [List.map]. now rewrite entry_key_of by reflexivity.
Qed.

(** The movie job, for comparison, has one entry for each of its two
    directories. *)
Lemma mov_job_info_output_directories self job_info_path node output_file w w' :
  _write_job_info self job_info_path "mov" node output_file w = (inr tt, w') ->
  exists lines : list string,
    fs w' !! job_info_path = Some (File (String.concat "" lines))
    /\ List.map entry_key (List.filter is_output_directory lines)
       = ["OutputDirectory0"; "OutputDirectory1"].
Proof.
  intros H. apply _write_job_info_inr in H as (lines & w1 & Hlines & Hfile).
  exists lines. split; [assumption|].
  apply job_file_lines_inr in Hlines as (batch & frames & ocio & movie_dir & ->).
  cbn [String.eqb Ascii.eqb Bool.eqb]. unfold job_file_literal.
  change (List.map entry_key
            ["OutputDirectory0" +:+ String "=" (dirname (node_file node) +:+ LF);
             "OutputDirectory1" +:+ String "=" (movie_dir +:+ LF)]
          = ["OutputDirectory0"; "OutputDirectory1"]).
  cbn [List.map]. now rewrite !entry_key_of by reflexivity.
Qed.

(** The image job of the studio's node. *)
Lemma exr_job_info_repeats_output_directory_studio :
  let w' := snd (_write_job_info (Studio.panel "1001-1050" true) "/tmp/job.txt" "exr"
                   Studio.Write1 None Studio.world) in
  exists lines : list string,
    fs w' !! "/tmp/job.txt" = Some (File (String.concat "" lines))
    /\ List.map entry_key (List.filter is_output_directory lines)
       = ["OutputDirectory0"; "OutputDirectory0"].
Proof.
  intros w'.
  apply (exr_job_info_repeats_output_directory (Studio.panel "1001-1050" true)
           "/tmp/job.txt" Studio.Write1 None Studio.world w').
  vm_compute. reflexivity.
Defined.

(** ** [str.replace] against the words of the specification *)

Module ReplaceFacts.
Import PyFacts.

Lemma length_app s t : String.length (s +:+ t) = String.length s + String.length t.
Proof.
  induction s as [|c s IH]; [reflexivity|]. rewrite app_cons. simpl. now rewrite IH.
Qed.

Lemma strip_prefix_app p r : strip_prefix p (p +:+ r) = Some r.
Proof.
  induction p as [|c p IH]; [reflexivity|].
  rewrite app_cons. simpl. now rewrite Ascii.eqb_refl.
Qed.

Lemma strip_prefix_Some p s r : strip_prefix p s = Some r -> s = p +:+ r.
Proof.
  revert s. induction p as [|c p IH]; intros s; simpl.
  - now intros [= ->].
  - destruct s as [|a s]; [discriminate|].
    destruct (Ascii.eqb_spec c a) as [->|]; [|discriminate].
    intros H. rewrite app_cons. f_equal. now apply IH.
Qed.

Lemma startswith_app s p : startswith (p +:+ s) p = true.
Proof. unfold startswith. now rewrite strip_prefix_app. Qed.


(** Dropping the rest of an occurrence. *)
Lemma replace_from_skip old new p s :
  replace_from old new (p +:+ s) (String.length p) = replace_from old new s 0.
Proof.
  induction p as [|c p IH]; [reflexivity|]. rewrite app_cons. simpl. apply IH.
Qed.

Lemma replace_occurrence old new s :
  old <> "" -> replace (old +:+ s) old new = new +:+ replace s old new.
Proof.
  intros Hold. destruct old as [|c old]; [congruence|].
  unfold replace. rewrite app_cons.
  change (replace_from (String c old) new (String c (old +:+ s)) 0)
    with (if startswith (String c (old +:+ s)) (String c old)
          then new +:+ replace_from (String c old) new (old +:+ s)
                         (String.length (String c old) - 1)
          else String c (replace_from (String c old) new (old +:+ s) 0)).
  rewrite <- app_cons, startswith_app.
  replace (String.length (String c old) - 1) with (String.length old) by (simpl; lia).
  now rewrite replace_from_skip.
Qed.

Lemma replace_keep old new c s :
  startswith (String c s) old = false ->
  replace (String c s) old new = String c (replace s old new).
Proof. intros H. unfold replace. simpl. now rewrite H. Qed.

(** The relation of the specification holds of nothing but the result of
    [replace] ... *)
Lemma replaced_all_replace old new s t :
  old <> "" -> replaced_all old new s t -> t = replace s old new.
Proof.
  intros Hold. induction 1 as [|s t _ IH|c s t Hc _ IH].
  - reflexivity.
  - now rewrite replace_occurrence, IH.
  - now rewrite replace_keep, IH.
Qed.


End ReplaceFacts.

(** ** The colour configuration path *)



(** On Windows the value goes through as it is. *)
Lemma ocio_path_windows (w : World) :
  platform_system w = "Windows" ->
  _get_ocio_path w = (inr (default "" (environ w !! "OCIO")), w).
Proof.
  intros Hsys. unfold _get_ocio_path, bind, getenv, get, ret.
  destruct (String.eqb_spec (default "" (environ w !! "OCIO")) "") as [->|Hne];
    [reflexivity|].
  now rewrite Hsys.
Qed.

Example ocio_path_studio :
  _get_ocio_path Studio.world = (inr "P:/ocio/config.ocio", Studio.world).
Proof. reflexivity. Qed.

(** ** The farm tool *)

Lemma _build_submission_command_head command files command' :
  _build_submission_command command files = inr command' ->
  exists more, command' = command ++ more.
Proof.
  revert command. induction files as [|[[j p]|] files IH]; intros command; simpl.
  - intros [= <-]. exists []. now rewrite app_nil_r.
  - intros H. apply IH in H as [more ->]. eexists. now rewrite <- app_assoc.
  - discriminate.
Qed.

(** C10.  With [DEADLINE_PATH] unset and no fallback file the method
    returns the bare name "deadlinecommand": it raises nothing and reports
    nothing (the world is as before), and [_execute_command] hands that
    name to [subprocess.run] as the program to start. *)
Theorem deadline_command_bare (w : World) :
  environ w !! "DEADLINE_PATH" = None ->
  exists_in (fs w) "/Users/Shared/Thinkbox/DEADLINE_PATH" = false ->
  _get_deadline_command w = (inr "deadlinecommand", w)
  /\ forall files command,
       _build_submission_command ["deadlinecommand"; "-Multi"; "-dependent"] files
       = inr command ->
       List.hd "" command = "deadlinecommand"
       /\ _execute_command files w
          = bind (subprocess_run command) _handle_submission_result w.
Proof.
  intros Henv Hfile.
  assert (_get_deadline_command w = (inr "deadlinecommand", w)) as Hcmd.
  { unfold _get_deadline_command, bind, getenv, get, ret, path_exists.
    rewrite Henv. simpl. now rewrite Hfile. }
  split; [assumption|]. intros files command Hbuild. split.
  - apply _build_submission_command_head in Hbuild as [more ->]. reflexivity.
  - unfold _execute_command. rewrite (bind_run _ _ _ _ _ Hcmd).
    unfold lift at 1. unfold bind at 1. now rewrite Hbuild.
Qed.

Lemma deadline_command_bare_studio :
  _get_deadline_command Studio.world = (inr "deadlinecommand", Studio.world)
  /\ forall files command,
       _build_submission_command ["deadlinecommand"; "-Multi"; "-dependent"] files
       = inr command ->
       List.hd "" command = "deadlinecommand"
       /\ _execute_command files Studio.world
          = bind (subprocess_run command) _handle_submission_result Studio.world.
Proof.
  apply (deadline_command_bare Studio.world); vm_compute; reflexivity.
Defined.

(** An empty variable is read like an unset one. *)
Lemma deadline_command_empty_variable (w : World) :
  environ w !! "DEADLINE_PATH" = Some "" ->
  exists_in (fs w) "/Users/Shared/Thinkbox/DEADLINE_PATH" = false ->
  _get_deadline_command w = (inr "deadlinecommand", w).
Proof.
  intros Henv Hfile.
  unfold _get_deadline_command, bind, getenv, get, ret, path_exists.
  rewrite Henv. simpl. now rewrite Hfile.
Qed.

Lemma _handle_submission_result_run result w :
  _handle_submission_result result w
  = (inr tt, add_event (Message (result_text result)) w).
Proof.
  unfold _handle_submission_result, result_text.
  now destruct (returncode result =? 0)%Z.
Qed.

Lemma _execute_command_run files w dc command result :
  _get_deadline_command w = (inr dc, w) ->
  _build_submission_command [dc; "-Multi"; "-dependent"] files = inr command ->
  run_tool w command = inr result ->
  _execute_command files w
  = (inr tt, add_event (Message (result_text result)) (add_event (Run command result) w)).
Proof.
  intros Hdc Hbuild Hrun. unfold _execute_command.
  rewrite (bind_run _ _ _ _ _ Hdc).
  unfold lift at 1. unfold bind at 1. rewrite Hbuild.
  unfold subprocess_run, bind, get, lift, modify, ret. rewrite Hrun.
  apply _handle_submission_result_run.
Qed.

Section Batch.

Variable str_format : string -> list (string * pyval) -> exn + string.

(** C8.  When the farm tool has run for a node, the user gets one
    notification: "Failed to submit to Deadline!" with the captured stderr
    for an exit status other than zero, "Successfully submitted to
    Deadline!" with the captured stdout for zero.  In both cases the turn of
    the node returns without an exception, so the loop goes on with the
    nodes that follow. *)
Theorem tool_result_reported_and_loop_goes_on
    (panel : SubmitterPanel) (node : Node) (rest : list Node) (w w1 : World)
    (files : list (option (string * string))) (dc : string)
    (command : list string) (result : CompletedProcess) :
  _get_submission_files str_format panel node
    (snd (_select_and_enable_write_node node w)) = (inr files, w1) ->
  _get_deadline_command w1 = (inr dc, w1) ->
  _build_submission_command [dc; "-Multi"; "-dependent"] files = inr command ->
  run_tool w1 command = inr result ->
  let text :=
    if (returncode result =? 0)%Z
    then "Successfully submitted to Deadline!" +:+ LF +:+ stdout result
    else "Failed to submit to Deadline!" +:+ LF +:+ stderr result in
  let w2 := add_event (Message text) (add_event (Run command result) w1) in
  submit_node str_format panel node w = (inr tt, w2)
  /\ submit_nodes str_format panel (node :: rest) w
     = submit_nodes str_format panel rest w2.
Proof.
  intros Hfiles Hdc Hbuild Hrun text w2.
  assert (submit_node str_format panel node w = (inr tt, w2)) as Hnode.
  { unfold submit_node.
    assert (_select_and_enable_write_node node w
            = (inr tt, snd (_select_and_enable_write_node node w))) as Hsel
      by reflexivity.
    rewrite (bind_run _ _ _ _ _ Hsel), (bind_run _ _ _ _ _ Hfiles).
    now apply (_execute_command_run files w1 dc command result). }
  split; [assumption|].
  cbn [submit_nodes]. now rewrite (bind_run _ _ _ _ _ Hnode).
Qed.

End Batch.

(** The farm is down: the tool fails for the first of two nodes, the user
    is told, and the loop goes on with the second. *)
Lemma tool_failure_studio :
  let w := Studio.farm_down in
  let panel := Studio.panel "1001-1050" true in
  let w1 := snd (_get_submission_files format_named panel Studio.WriteA
                   (snd (_select_and_enable_write_node Studio.WriteA w))) in
  let command :=
    ["deadlinecommand"; "-Multi"; "-dependent";
     "-job"; "/tmp/exr_nuke_deadline_job_id0.txt"; "/tmp/exr_nuke_deadline_plugin_id0.txt";
     "-job"; "/tmp/mov_nuke_deadline_job_id1.txt"; "/tmp/mov_nuke_deadline_plugin_id1.txt"] in
  let w2 :=
    add_event (Message ("Failed to submit to Deadline!" +:+ LF +:+ "Error: no connection"))
              (add_event (Run command Studio.tool_failed) w1) in
  submit_node format_named panel Studio.WriteA w = (inr tt, w2)
  /\ submit_nodes format_named panel [Studio.WriteA; Studio.WriteB] w
     = submit_nodes format_named panel [Studio.WriteB] w2.
Proof.
  intros w panel w1 command w2.
  apply (tool_result_reported_and_loop_goes_on format_named panel Studio.WriteA
           [Studio.WriteB] w w1
           [Some ("/tmp/exr_nuke_deadline_job_id0.txt", "/tmp/exr_nuke_deadline_plugin_id0.txt");
            Some ("/tmp/mov_nuke_deadline_job_id1.txt", "/tmp/mov_nuke_deadline_plugin_id1.txt")]
           "deadlinecommand" command Studio.tool_failed);
    vm_compute; reflexivity.
Defined.

(** The whole batch on that day: two runs of the tool, two notifications
    of failure, no exception. *)
Example farm_down_batch :
  let r := show format_named true Studio.farm_down in
  fst r = inr tt
  /\ List.length (List.filter is_Run (log (snd r))) = 2%nat
  /\ List.filter is_Message (log (snd r))
     = [Message ("Failed to submit to Deadline!" +:+ LF +:+ "Error: no connection");
        Message ("Failed to submit to Deadline!" +:+ LF +:+ "Error: no connection")].
Proof. vm_compute. repeat split. Qed.

(** ** The temporary script when its content cannot be made *)

Lemma open_w_cases p w :
  (exists e, open_w p w = (inl e, w) /\ is_OSError e = true)
  \/ open_w p w = (inr tt, set_fs (<[p := File ""]> (fs w)) w).
Proof.
  unfold open_w. destruct (isdir_in (fs w) p); [left; eauto|].
  destruct (String.eqb p ""); [left; eauto|].
  unfold bind, check_parent, modify.
  destruct (String.eqb (dirname p) "" || isdir_in (fs w) (dirname p)); [right; reflexivity|].
  destruct (exists_in (fs w) (dirname p)); left; eauto.
Qed.

(** Writing [None] never goes well: the file may be there, empty, and the
    exception is on its way. *)
Lemma write_script_file_None p w :
  exists e w',
    write_script_file p None w = (inl e, w')
    /\ log w' = log w
    /\ (e = TypeError "write() argument must be str, not None" \/ is_OSError e = true).
Proof.
  unfold write_script_file.
  destruct (open_w_cases p w) as [(e & Hopen & He) | Hopen].
  - exists e, w. rewrite (bind_raise _ _ _ _ _ Hopen). auto.
  - eexists _, _. rewrite (bind_run _ _ _ _ _ Hopen). unfold raise. auto.
Qed.

Section ScriptContent.

Variable str_format : string -> list (string * pyval) -> exn + string.

(** [_write_script_content] itself never raises: an exception of its body
    becomes one message and the result [None]. *)
Lemma _write_script_content_caught self rd out res w e w1 :
  script_content_body str_format self rd out res w = (inl e, w1) ->
  _write_script_content str_format self rd out res w
  = (inr None, add_event (Message ("Error generating Nuke script: " +:+ exn_str e)) w1).
Proof.
  intros Hbody. unfold _write_script_content, try_except.
  now rewrite (bind_raise _ _ _ _ _ Hbody).
Qed.

Lemma _write_script_content_returns self rd out res w content w1 :
  script_content_body str_format self rd out res w = (inr content, w1) ->
  _write_script_content str_format self rd out res w = (inr (Some content), w1).
Proof.
  intros Hbody. unfold _write_script_content, try_except.
  now rewrite (bind_run _ _ _ _ _ Hbody).
Qed.

Lemma _write_script_content_total self rd out res w :
  exists r w', _write_script_content str_format self rd out res w = (inr r, w').
Proof.
  destruct (script_content_body str_format self rd out res w) as [[e|c] w1] eqn:E.
  - rewrite (_write_script_content_caught _ _ _ _ _ _ _ E). eauto.
  - rewrite (_write_script_content_returns _ _ _ _ _ _ _ E). eauto.
Qed.

(** C3.  When the body of [_write_script_content] raises, the method shows
    one modal message and returns [None], as the specification asks, but
    [_build_temp_nuke_script] then hands that [None] to [write]: the build
    ends in an exception of its own, which nothing in the build sequence
    catches. *)
Theorem script_error_escapes_the_build
    (self : SubmitterPanel) (node : Node) (w w1 w2 : World)
    (new_script_path read_file_path output_file_path : string) (e : exn) :
  temp_script_paths self node w
  = (inr (new_script_path, read_file_path, output_file_path), w1) ->
  script_content_body str_format self read_file_path output_file_path
    (resources_dir w1) w1 = (inl e, w2) ->
  _write_script_content str_format self read_file_path output_file_path
    (resources_dir w1) w1
  = (inr None, add_event (Message ("Error generating Nuke script: " +:+ exn_str e)) w2)
  /\ exists e' w3,
       _build_temp_nuke_script str_format self node w = (inl e', w3)
       /\ log w3 = log w2 ++ [Message ("Error generating Nuke script: " +:+ exn_str e)]
       /\ (e' = TypeError "write() argument must be str, not None"
           \/ is_OSError e' = true).
Proof.
  intros Hpaths Hbody.
  pose proof (_write_script_content_caught _ _ _ _ _ _ _ Hbody) as Hcontent.
  split; [assumption|].
  destruct (write_script_file_None new_script_path
              (add_event (Message ("Error generating Nuke script: " +:+ exn_str e)) w2))
    as (e' & w3 & Hwrite & Hlog & He').
  exists e', w3. split; [|split; [exact Hlog | exact He']].
  unfold _build_temp_nuke_script.
  rewrite (bind_run _ _ _ _ _ Hpaths). cbn beta iota.
  unfold get at 1. unfold bind at 1.
  rewrite (bind_run _ _ _ _ _ Hcontent).
  now rewrite (bind_raise _ _ _ _ _ Hwrite).
Qed.

End ScriptContent.

(** The template is missing from the resources: the message is shown, the
    content is [None], and the build raises [TypeError]. *)
Lemma script_error_escapes_the_build_studio :
  let self := Studio.panel "1001-1050" true in
  let w1 := snd (temp_script_paths self Studio.Write1 Studio.no_template) in
  let text := "Error generating Nuke script: [Errno 2] No such file or directory: '/res/nuke_template.txt'" in
  _write_script_content format_named self "/proj/renders/shot010.1001.exr"
    "/proj/renders/review/shot010.mov" "/res" w1
  = (inr None, add_event (Message text) w1)
  /\ exists e' w3,
       _build_temp_nuke_script format_named self Studio.Write1 Studio.no_template
       = (inl e', w3)
       /\ log w3 = log w1 ++ [Message text]
       /\ (e' = TypeError "write() argument must be str, not None"
           \/ is_OSError e' = true).
Proof.
  intros self w1 text.
  apply (script_error_escapes_the_build format_named self Studio.Write1
           Studio.no_template w1 w1
           "/proj/tmp/shot010_tmp_01.nk" "/proj/renders/shot010.1001.exr"
           "/proj/renders/review/shot010.mov"
           (FileNotFoundError "/res/nuke_template.txt"));
    vm_compute; reflexivity.
Defined.

(** Seen from the menu command: [show] ends in the [TypeError], after the
    message, and leaves an empty script behind. *)
Example show_without_template :
  let r := show format_named true Studio.no_template in
  fst r = inl (TypeError "write() argument must be str, not None")
  /\ List.filter is_Message (log (snd r))
     = [Message "Error generating Nuke script: [Errno 2] No such file or directory: '/res/nuke_template.txt'"]
  /\ List.filter is_Run (log (snd r)) = []
  /\ fs (snd r) !! "/proj/tmp/shot010_tmp_01.nk" = Some (File "").
Proof. vm_compute. repeat split. Qed.

(** ** The review movie next to the read file *)

Module PathFacts.
Import PyFacts ReplaceFacts.

Lemma app_assoc s t u : (s +:+ t) +:+ u = s +:+ t +:+ u.
Proof.
  induction s as [|c s IH]; [reflexivity|]. rewrite !app_cons. now rewrite IH.
Qed.

Lemma app_nil_r s : s +:+ "" = s.
Proof. induction s as [|c s IH]; [reflexivity|]. rewrite app_cons. now rewrite IH. Qed.

Lemma count_char_app c s t : count_char c (s +:+ t) = count_char c s + count_char c t.
Proof.
  induction s as [|a s IH]; [reflexivity|]. rewrite app_cons. simpl. rewrite IH. lia.
Qed.

Lemma count_char_none c s : contains_char c s = false -> count_char c s = 0.
Proof.
  induction s as [|a s IH]; [reflexivity|]. simpl. intros H.
  apply orb_false_iff in H as [-> Hs]. now rewrite IH.
Qed.

Lemma endswith_char_app a b c :
  b <> "" -> endswith_char (a +:+ b) c = endswith_char b c.
Proof.
  intros Hb. induction a as [|x a IH]; [reflexivity|].
  rewrite app_cons. simpl. rewrite IH.
  destruct (a +:+ b) eqn:E; [|reflexivity].
  destruct a, b; try discriminate E. congruence.
Qed.

Lemma endswith_app s t : endswith (s +:+ t) t = true.
Proof.
  induction s as [|c s IH].
  - rewrite app_nil_l. destruct t; simpl; [reflexivity|].
    now rewrite String.eqb_refl, Ascii.eqb_refl.
  - rewrite app_cons. simpl. rewrite IH. apply orb_true_r.
Qed.

Lemma endswith_tail c s t : endswith (String c s) t = false -> endswith s t = false.
Proof. simpl. intros H. now apply orb_false_iff in H as [_ H]. Qed.

(** The second half of [cut_last] holds no separator: a [basename] has no
    slash. *)
Lemma cut_last_snd c s : contains_char c (snd (cut_last c s)) = false.
Proof.
  induction s as [|a s IH]; [reflexivity|]. simpl.
  destruct (contains_char c s) eqn:E; [exact IH|].
  destruct (Ascii.eqb a c) eqn:Ea; simpl; [exact E|]. now rewrite Ea, E.
Qed.

Lemma basename_no_slash p : contains_char "/" (basename p) = false.
Proof. apply cut_last_snd. Qed.

Lemma path_join_plain a b :
  a <> "" -> endswith_char a "/" = false -> startswith b "/" = false ->
  path_join a b = a +:+ "/" +:+ b.
Proof.
  intros Ha Hend Hb. unfold path_join. rewrite Hb.
  destruct a; [congruence|]. fold sep. unfold sep. now rewrite Hend.
Qed.

(** *** The pattern *)

Lemma skip_digits_app ds rest :
  str_forall isdigit ds = true -> startswith_digit rest = false ->
  skip_digits (ds +:+ rest) = (String.length ds, rest).
Proof.
  intros Hds Hrest. induction ds as [|c ds IH].
  - rewrite app_nil_l. destruct rest as [|a rest]; [reflexivity|].
    simpl in *. now rewrite Hrest.
  - simpl in Hds. apply andb_prop in Hds as [Hc Hds].
    rewrite app_cons. simpl. rewrite Hc, (IH Hds). reflexivity.
Qed.

(** What [skip_digits] takes is digits, and what it leaves is the rest. *)
Lemma skip_digits_split s :
  exists ds, s = ds +:+ snd (skip_digits s)
             /\ str_forall isdigit ds = true
             /\ String.length ds = fst (skip_digits s).
Proof.
  induction s as [|c s (ds & Hs & Hds & Hlen)].
  - exists "". auto.
  - simpl. destruct (isdigit c) eqn:Ec.
    + exists (String c ds). simpl. rewrite Ec, Hds, Hlen, app_cons.
      now rewrite <- Hs.
    + exists "". auto.
Qed.

Lemma match_frame_exr_shape s rest :
  match_frame_exr s = Some rest ->
  exists ds, s = "." +:+ ds +:+ ".exr" +:+ rest
             /\ str_forall isdigit ds = true
             /\ (rest = "" \/ rest = LF).
Proof.
  unfold match_frame_exr. destruct s as [|c s]; [discriminate|].
  destruct (Ascii.eqb_spec c ".") as [->|Hc].
  2:{ destruct c as [[] [] [] [] [] [] [] []]; try discriminate; congruence. }
  destruct (skip_digits_split s) as (ds & Hs & Hds & Hlen).
  destruct (skip_digits s) as [n s2]. cbn [fst snd] in *. cbv beta iota.
  destruct (4 <=? n); [|discriminate].
  destruct (strip_prefix ".exr" s2) as [r|] eqn:Er; [|discriminate].
  apply strip_prefix_Some in Er. subst s2.
  destruct (String.eqb_spec r "") as [->|Hr1].
  - intros [= <-]. exists ds. rewrite Hs at 1. auto.
  - destruct (String.eqb_spec r LF) as [->|Hr2]; [|discriminate].
    intros [= <-]. exists ds. rewrite Hs at 1. auto.
Qed.

Lemma digits_no_dot ds : str_forall isdigit ds = true -> count_char "." ds = 0.
Proof. intros H. apply count_char_none. now apply digits_no_char. Qed.

(** A match takes the one dot before the digits and the one of ".exr":
    it cannot start before a name that still has both to come. *)
Lemma match_frame_exr_early c stem ds :
  str_forall isdigit ds = true ->
  match_frame_exr (String c stem +:+ "." +:+ ds +:+ ".exr") = None.
Proof.
  intros Hds.
  destruct (match_frame_exr _) as [rest|] eqn:E; [|reflexivity]. exfalso.
  apply match_frame_exr_shape in E as (ds' & Hs & Hds' & Hrest).
  assert (c = "."%char) as -> by (rewrite !app_cons in Hs; now injection Hs).
  apply (f_equal (count_char ".")) in Hs.
  rewrite !count_char_app, (digits_no_dot ds), (digits_no_dot ds') in Hs by assumption.
  destruct Hrest as [-> | ->]; simpl in Hs; lia.
Qed.

Lemma match_frame_exr_here ds :
  str_forall isdigit ds = true -> 4 <= String.length ds ->
  match_frame_exr ("." +:+ ds +:+ ".exr") = Some "".
Proof.
  intros Hds Hlen. rewrite app_cons, app_nil_l. unfold match_frame_exr.
  rewrite skip_digits_app by (assumption || reflexivity).
  destruct (Nat.leb_spec 4 (String.length ds)); [reflexivity|lia].
Qed.

(** The name of a frame of an EXR sequence loses the frame number and the
    extension. *)
Lemma sub_frame_exr_frame stem ds :
  str_forall isdigit ds = true -> 4 <= String.length ds ->
  sub_frame_exr (stem +:+ "." +:+ ds +:+ ".exr") = stem.
Proof.
  intros Hds Hlen. induction stem as [|c stem IH].
  - rewrite app_nil_l.
    change (sub_frame_exr ("." +:+ ds +:+ ".exr"))
      with (match match_frame_exr ("." +:+ ds +:+ ".exr") with
            | Some rest => rest
            | None => String "." (sub_frame_exr (ds +:+ ".exr"))
            end).
    now rewrite match_frame_exr_here.
  - pose proof (match_frame_exr_early c stem ds Hds) as Hnone.
    rewrite (app_cons c stem) in Hnone. rewrite (app_cons c stem).
    cbn [sub_frame_exr]. rewrite Hnone. now rewrite IH.
Qed.

Lemma match_frame_exr_ends s rest :
  match_frame_exr s = Some rest ->
  endswith s ".exr" = true \/ endswith s (".exr" +:+ LF) = true.
Proof.
  intros H. apply match_frame_exr_shape in H as (ds & -> & _ & [-> | ->]).
  - left. rewrite app_nil_r, <- !app_assoc. apply endswith_app.
  - right. rewrite <- !app_assoc. rewrite (app_assoc _ ".exr" LF). apply endswith_app.
Qed.

(** Any other name is kept whole. *)
Lemma sub_frame_exr_other s :
  endswith s ".exr" = false -> endswith s (".exr" +:+ LF) = false ->
  sub_frame_exr s = s.
Proof.
  induction s as [|c s IH]; intros H1 H2; [reflexivity|].
  cbn [sub_frame_exr].
  destruct (match_frame_exr (String c s)) as [rest|] eqn:E.
  - apply match_frame_exr_ends in E as [E|E]; congruence.
  - f_equal. apply IH; eapply endswith_tail; eassumption.
Qed.

(** *** The pattern against the rule in words *)

Lemma match_frame_exr_digits s rest :
  match_frame_exr s = Some rest ->
  exists ds, s = "." +:+ ds +:+ ".exr" +:+ rest
             /\ str_forall isdigit ds = true
             /\ 4 <= String.length ds
             /\ (rest = "" \/ rest = LF).
Proof.
  unfold match_frame_exr. destruct s as [|c s]; [discriminate|].
  destruct (Ascii.eqb_spec c ".") as [->|Hc].
  2:{ destruct c as [[] [] [] [] [] [] [] []]; try discriminate; congruence. }
  destruct (skip_digits_split s) as (ds & Hs & Hds & Hlen).
  destruct (skip_digits s) as [n s2]. cbn [fst snd] in *. cbv beta iota.
  destruct (Nat.leb_spec 4 n) as [Hn|]; [|discriminate].
  destruct (strip_prefix ".exr" s2) as [r|] eqn:Er; [|discriminate].
  apply strip_prefix_Some in Er. subst s2.
  destruct (String.eqb_spec r "") as [->|Hr1].
  - intros [= <-]. exists ds. rewrite Hs at 1. repeat split; auto; lia.
  - destruct (String.eqb_spec r LF) as [->|Hr2]; [|discriminate].
    intros [= <-]. exists ds. rewrite Hs at 1. repeat split; auto; lia.
Qed.

Lemma match_frame_exr_at ds tail :
  str_forall isdigit ds = true -> 4 <= String.length ds ->
  tail = "" \/ tail = LF ->
  match_frame_exr ("." +:+ ds +:+ ".exr" +:+ tail) = Some tail.
Proof.
  intros Hds Hlen Htail. rewrite app_cons, app_nil_l. unfold match_frame_exr.
  rewrite skip_digits_app by (assumption || (destruct Htail as [-> | ->]; reflexivity)).
  destruct (Nat.leb_spec 4 (String.length ds)); [|lia].
  rewrite strip_prefix_app. destruct Htail as [-> | ->]; reflexivity.
Qed.

Lemma match_frame_exr_before c stem ds tail :
  str_forall isdigit ds = true -> tail = "" \/ tail = LF ->
  match_frame_exr (String c stem +:+ "." +:+ ds +:+ ".exr" +:+ tail) = None.
Proof.
  intros Hds Htail.
  destruct (match_frame_exr _) as [rest|] eqn:E; [|reflexivity]. exfalso.
  apply match_frame_exr_shape in E as (ds' & Hs & Hds' & Hrest).
  assert (c = "."%char) as -> by (rewrite !app_cons in Hs; now injection Hs).
  apply (f_equal (count_char ".")) in Hs.
  rewrite !count_char_app, (digits_no_dot ds), (digits_no_dot ds') in Hs by assumption.
  destruct Hrest as [-> | ->]; destruct Htail as [-> | ->]; simpl in Hs; lia.
Qed.

Lemma sub_frame_exr_stripped stem ds tail :
  str_forall isdigit ds = true -> 4 <= String.length ds ->
  tail = "" \/ tail = LF ->
  sub_frame_exr (stem +:+ "." +:+ ds +:+ ".exr" +:+ tail) = stem +:+ tail.
Proof.
  intros Hds Hlen Htail. induction stem as [|c stem IH].
  - rewrite !app_nil_l.
    pose proof (match_frame_exr_at ds tail Hds Hlen Htail) as Hat.
    destruct ("." +:+ ds +:+ ".exr" +:+ tail) as [|a s] eqn:E.
    + rewrite app_cons in E. discriminate E.
    + cbn [sub_frame_exr]. now rewrite Hat.
  - pose proof (match_frame_exr_before c stem ds tail Hds Htail) as Hnone.
    rewrite (app_cons c stem) in Hnone. rewrite !(app_cons c stem).
    cbn [sub_frame_exr]. rewrite Hnone. now rewrite IH.
Qed.

(** A file name ends the way the rule says, or it does not and the
    substitution leaves it as it is. *)
Lemma sub_frame_exr_cases filename :
  (exists stem ds tail,
     filename = stem +:+ "." +:+ ds +:+ ".exr" +:+ tail
     /\ str_forall isdigit ds = true /\ 4 <= String.length ds
     /\ (tail = "" \/ tail = LF))
  \/ ((forall stem ds tail,
         str_forall isdigit ds = true -> 4 <= String.length ds ->
         tail = "" \/ tail = LF ->
         filename <> stem +:+ "." +:+ ds +:+ ".exr" +:+ tail)
      /\ sub_frame_exr filename = filename).
Proof.
  induction filename as [|c s IH].
  - right. split; [|reflexivity]. intros stem ds tail _ _ _ H.
    destruct stem; [rewrite app_nil_l, app_cons in H | rewrite app_cons in H];
      discriminate H.
  - destruct (match_frame_exr (String c s)) as [rest|] eqn:E.
    + left. apply match_frame_exr_digits in E as (ds & Hs & Hds & Hlen & Hrest).
      exists "", ds, rest. rewrite app_nil_l. auto.
    + destruct IH as [(stem & ds & tail & -> & Hds & Hlen & Htail) | [Hnone Hsame]].
      * left. exists (String c stem), ds, tail. rewrite app_cons. auto.
      * right. split.
        -- intros stem ds tail Hds Hlen Htail H.
           destruct stem as [|c' stem].
           ++ rewrite app_nil_l in H. rewrite H in E.
              rewrite (match_frame_exr_at ds tail Hds Hlen Htail) in E. discriminate E.
           ++ rewrite app_cons in H. injection H as _ H.
              now apply (Hnone stem ds tail).
        -- cbn [sub_frame_exr]. now rewrite E, Hsame.
Qed.

(** The digits of the pattern are the ten decimal digits. *)
Lemma isdigit_decimal c :
  isdigit c = true <-> In c (list_ascii_of_string "0123456789").
Proof.
  split.
  - destruct c as [[] [] [] [] [] [] [] []]; vm_compute; intros H;
      try discriminate H; tauto.
  - cbn [list_ascii_of_string In]. intros H.
    repeat (destruct H as [<-|H]; [reflexivity|]). destruct H.
Qed.

Lemma all_decimal_digits s : all_decimal s <-> str_forall isdigit s = true.
Proof.
  unfold all_decimal. induction s as [|c s IH]; cbn [list_ascii_of_string str_forall].
  - split; [reflexivity | constructor].
  - rewrite Forall_cons_iff, IH, <- isdigit_decimal, andb_true_iff. reflexivity.
Qed.

(** The rule in words has one answer, the one of the substitution. *)
Lemma review_name_sub filename name :
  review_name filename name -> name = sub_frame_exr filename.
Proof.
  intros [stem ds tail -> Hds Hlen Htail | Hnone].
  - apply all_decimal_digits in Hds. now rewrite sub_frame_exr_stripped.
  - destruct (sub_frame_exr_cases filename)
      as [(stem & ds & tail & H & Hds & Hlen & Htail) | [_ Hsame]].
    + apply all_decimal_digits in Hds. now apply Hnone in H.
    + now rewrite Hsame.
Qed.

Lemma sub_review_name filename : review_name filename (sub_frame_exr filename).
Proof.
  destruct (sub_frame_exr_cases filename)
    as [(stem & ds & tail & H & Hds & Hlen & Htail) | [Hnone Hsame]].
  - rewrite H at 2. rewrite sub_frame_exr_stripped by assumption.
    apply (review_name_stripped filename stem ds tail); auto.
    now apply all_decimal_digits.
  - rewrite Hsame. apply review_name_kept.
    intros stem ds tail Hds. apply all_decimal_digits in Hds. now apply Hnone.
Qed.

Lemma sub_frame_exr_no_slash s :
  contains_char "/" s = false -> startswith (sub_frame_exr s +:+ ".mov") "/" = false.
Proof.
  intros Hs. destruct s as [|c s]; [reflexivity|].
  cbn [sub_frame_exr].
  destruct (match_frame_exr (String c s)) as [rest|] eqn:E.
  - apply match_frame_exr_shape in E as (_ & _ & _ & [-> | ->]); reflexivity.
  - rewrite app_cons, startswith_char. simpl in Hs.
    apply orb_false_iff in Hs as [Hc _]. now rewrite Ascii.eqb_sym.
Qed.

End PathFacts.

Lemma fallback_render_path_joined p :
  dirname p <> "" -> endswith_char (dirname p) "/" = false ->
  fallback_render_path p
  = dirname p +:+ "/review/" +:+ sub_frame_exr (basename p) +:+ ".mov".
Proof.
  intros Hdir Hend. unfold fallback_render_path.
  rewrite (PathFacts.path_join_plain (dirname p) "review") by (assumption || reflexivity).
  rewrite PathFacts.path_join_plain.
  - rewrite !PathFacts.app_assoc. reflexivity.
  - destruct (dirname p); discriminate.
  - rewrite <- PathFacts.app_assoc.
    now rewrite PathFacts.endswith_char_app by discriminate.
  - apply PathFacts.sub_frame_exr_no_slash, PathFacts.basename_no_slash.
Qed.

(** C6, as the code has it.  For every read path the fallback path is a
    prefix, a name and ".mov".  The prefix is the directory of the read
    file and "/review/"; it is "review/" alone when the path has no
    directory part, and the directory and "review/" when the directory
    ends in a slash already, as the root does.  The name is the file name
    without a trailing dot, four or more decimal digits and ".exr" (looked
    for before a line feed that ends the file name, if there is one, and
    the line feed stays); every other file name is kept whole, its frame
    number and extension included.  The rule gives one name, no other. *)
Theorem fallback_render_path_shape (p : string) :
  exists name,
    review_name (basename p) name
    /\ (forall other, review_name (basename p) other -> other = name)
    /\ fallback_render_path p
       = (if String.eqb (dirname p) "" then "review/"
          else if endswith_char (dirname p) "/" then dirname p +:+ "review/"
               else dirname p +:+ "/review/")
         +:+ name +:+ ".mov".
Proof.
  exists (sub_frame_exr (basename p)).
  split; [apply PathFacts.sub_review_name|].
  split; [intros other; apply PathFacts.review_name_sub|].
  assert (startswith (sub_frame_exr (basename p) +:+ ".mov") "/" = false) as Hname
    by apply PathFacts.sub_frame_exr_no_slash, PathFacts.basename_no_slash.
  destruct (String.eqb_spec (dirname p) "") as [Hnil|Hdir].
  - unfold fallback_render_path. rewrite Hnil. unfold path_join at 2. cbn [startswith strip_prefix Ascii.eqb Bool.eqb].
    rewrite (PathFacts.path_join_plain "review") by (discriminate || reflexivity || assumption).
    now rewrite <- PathFacts.app_assoc.
  - destruct (endswith_char (dirname p) "/") eqn:Hend.
    + unfold fallback_render_path.
      assert (path_join (dirname p) "review" = dirname p +:+ "review") as ->.
      { unfold path_join. cbn [startswith strip_prefix Ascii.eqb Bool.eqb].
        destruct (dirname p); [congruence|]. fold sep. unfold sep. now rewrite Hend. }
      rewrite PathFacts.path_join_plain.
      * now rewrite !PathFacts.app_assoc.
      * destruct (dirname p); discriminate.
      * now rewrite PathFacts.endswith_char_app by discriminate.
      * assumption.
    + now rewrite (fallback_render_path_joined p Hdir Hend), PathFacts.app_assoc.
Qed.

(** A frame of the studio's sequence, and the name the rule gives it. *)
Lemma fallback_render_path_shape_studio :
  review_name "shot010.1001.exr" "shot010"
  /\ fallback_render_path "/proj/renders/shot010.1001.exr"
     = "/proj/renders/review/shot010.mov".
Proof.
  destruct (fallback_render_path_shape "/proj/renders/shot010.1001.exr")
    as (name & Hname & Hone & Hpath).
  assert (review_name "shot010.1001.exr" "shot010") as Hrule
    by (apply (review_name_stripped "shot010.1001.exr" "shot010" "1001" "");
        [reflexivity | now apply PathFacts.all_decimal_digits | cbn; lia | now left]).
  split; [exact Hrule|].
  rewrite Hpath, <- (Hone "shot010" Hrule). reflexivity.
Defined.

(** Three digits are no frame number for the rule, and a name that is all
    extension has none: both names are kept. *)
Example fallback_render_path_short_number :
  fallback_render_path "/proj/renders/shot010.101.exr"
  = "/proj/renders/review/shot010.101.exr.mov"
  /\ fallback_render_path "/proj/renders/shot010.exr"
     = "/proj/renders/review/shot010.exr.mov".
Proof. split; reflexivity. Qed.

(** A line feed that ends the file name stays where it is. *)
Example fallback_render_path_line_feed :
  fallback_render_path ("/proj/renders/shot010.1001.exr" +:+ LF)
  = "/proj/renders/review/shot010" +:+ LF +:+ ".mov".
Proof. reflexivity. Qed.

Example fallback_render_path_exr :
  fallback_render_path "/proj/renders/shot010.1001.exr" = "/proj/renders/review/shot010.mov".
Proof. reflexivity. Qed.

(** A read path without a directory part gives a relative path. *)
Lemma fallback_render_path_relative p :
  dirname p = "" ->
  fallback_render_path p = path_join "review" (sub_frame_exr (basename p) +:+ ".mov").
Proof. intros H. unfold fallback_render_path. now rewrite H. Qed.

(** C6, as the specification states it, fails on a PNG sequence, whose
    frame number and extension stay in the name, and on a read path
    without a directory, where no slash comes first. *)
Lemma fallback_render_path_not_as_stated :
  fallback_render_path "/proj/renders/shot010.1001.png"
  <> stated_fallback_path "/proj/renders/shot010.1001.png"
  /\ fallback_render_path "shot010.1001.exr" <> stated_fallback_path "shot010.1001.exr".
Proof. split; vm_compute; discriminate. Qed.

(** ** What a build leaves as it is *)

Module Invariant.

Lemma dirs_added_refl w : dirs_added w w.
Proof. split; auto; reflexivity. Qed.

Lemma dirs_added_trans w1 w2 w3 : dirs_added w1 w2 -> dirs_added w2 w3 -> dirs_added w1 w3.
Proof.
  intros H12 H23. split.
  1-7: destruct H12, H23; congruence.
  - intros q c Hq. rewrite (same_files _ _ H23), (same_files _ _ H12); [reflexivity|assumption|].
    now rewrite (same_root_name _ _ H12).
  - intros q Hq. now apply (still_exists _ _ H23), (still_exists _ _ H12).
Qed.

Lemma dirs_added_event e w : dirs_added w (add_event e w).
Proof. split; auto; reflexivity. Qed.

Lemma adds_dirs_ret {A} (a : A) : adds_dirs (ret a).
Proof. intros w r w' [= _ <-]. apply dirs_added_refl. Qed.

Lemma adds_dirs_raise {A} e : adds_dirs (@raise A e).
Proof. intros w r w' [= _ <-]. apply dirs_added_refl. Qed.

Lemma adds_dirs_get {A} (f : World -> A) : adds_dirs (get f).
Proof. intros w r w' [= _ <-]. apply dirs_added_refl. Qed.

Lemma adds_dirs_lift {A} (x : exn + A) : adds_dirs (lift x).
Proof. intros w r w' [= _ <-]. apply dirs_added_refl. Qed.

Lemma adds_dirs_bind {A B} (m : M A) (k : A -> M B) :
  adds_dirs m -> (forall a, adds_dirs (k a)) -> adds_dirs (bind m k).
Proof.
  intros Hm Hk w r w'. unfold bind.
  destruct (m w) as [[e|a] w1] eqn:E.
  - intros [= _ <-]. eapply Hm, E.
  - intros H. eapply dirs_added_trans; [eapply Hm, E | eapply Hk, H].
Qed.

Lemma adds_dirs_try_except {A} (m : M A) catches h :
  adds_dirs m -> (forall e, adds_dirs (h e)) -> adds_dirs (try_except m catches h).
Proof.
  intros Hm Hh w r w'. unfold try_except.
  destruct (m w) as [[e|a] w1] eqn:E.
  - destruct (catches e).
    + intros H. eapply dirs_added_trans; [eapply Hm, E | eapply Hh, H].
    + intros [= _ <-]. eapply Hm, E.
  - intros [= _ <-]. eapply Hm, E.
Qed.

Lemma adds_dirs_message text : adds_dirs (message text).
Proof. intros w r w' [= _ <-]. apply dirs_added_event. Qed.

Lemma dirs_added_saved w : dirs_added w (saved w).
Proof.
  split; auto; simpl.
  - intros q c Hq. now rewrite lookup_insert_ne by congruence.
  - intros q. unfold exists_in. destruct (decide (root_name w = q)) as [<-|Hq].
    + rewrite lookup_insert_eq. destruct (fs w !! root_name w); [auto|].
      intros H. apply String.eqb_eq in H. now rewrite H.
    + now rewrite lookup_insert_ne.
Qed.

Lemma adds_dirs_scriptSave : adds_dirs scriptSave.
Proof. intros w r w' [= _ <-]. apply dirs_added_saved. Qed.

Lemma adds_dirs_getenv name dflt : adds_dirs (getenv name dflt).
Proof. apply adds_dirs_get. Qed.

Lemma adds_dirs_path_exists p : adds_dirs (path_exists p).
Proof. apply adds_dirs_get. Qed.

Lemma adds_dirs_read_file p : adds_dirs (read_file p).
Proof.
  intros w r w'. unfold read_file.
  destruct (fs w !! p) as [[c|]|]; intros [= _ <-]; apply dirs_added_refl.
Qed.

Lemma adds_dirs_check_parent p : adds_dirs (check_parent p).
Proof.
  intros w r w'. unfold check_parent.
  destruct (_ || _); [|destruct (exists_in _ _)]; intros [= _ <-]; apply dirs_added_refl.
Qed.

(** A new directory at a path that did not exist. *)
Lemma dirs_added_insert_dir p w :
  exists_in (fs w) p = false -> String.eqb p "" = false ->
  dirs_added w (set_fs (<[p := Dir]> (fs w)) w).
Proof.
  intros Hex Hne. assert (fs w !! p = None) as Hnone.
  { unfold exists_in in Hex. destruct (fs w !! p); [|reflexivity].
    rewrite Hne in Hex. discriminate. }
  split; auto; simpl.
  - intros q c _. destruct (decide (p = q)) as [->|Hq].
    + rewrite lookup_insert_eq, Hnone. split; discriminate.
    + now rewrite lookup_insert_ne.
  - intros q. unfold exists_in. destruct (decide (p = q)) as [->|Hq].
    + rewrite lookup_insert_eq, Hne. reflexivity.
    + now rewrite lookup_insert_ne.
Qed.

Lemma adds_dirs_mkdir p : adds_dirs (mkdir p).
Proof.
  intros w r w'. unfold mkdir.
  destruct (String.eqb p "") eqn:Hne; [intros [= _ <-]; apply dirs_added_refl|].
  destruct (exists_in (fs w) p) eqn:Hex; [intros [= _ <-]; apply dirs_added_refl|].
  unfold bind.
  destruct (check_parent p w) as [[e|[]] w1] eqn:E.
  - intros [= _ <-]. eapply adds_dirs_check_parent, E.
  - assert (w1 = w) as ->.
    { unfold check_parent in E.
      destruct (_ || _); [|destruct (exists_in _ (dirname p))]; now inversion E. }
    unfold modify. intros [= _ <-]. now apply dirs_added_insert_dir.
Qed.

Lemma adds_dirs_makedirs_fuel fuel name : adds_dirs (makedirs_fuel fuel name).
Proof.
  revert name. induction fuel as [|fuel IH]; intros name; cbn [makedirs_fuel];
    cbv zeta.
  - destruct (_ && _).
    + apply adds_dirs_bind; [apply adds_dirs_path_exists|]. intros [].
      all: apply adds_dirs_try_except; [apply adds_dirs_mkdir|].
      all: intros e w r w'; destruct (isdir_in _ _); intros [= _ <-];
        apply dirs_added_refl.
    + apply adds_dirs_try_except; [apply adds_dirs_mkdir|].
      intros e w r w'; destruct (isdir_in _ _); intros [= _ <-]; apply dirs_added_refl.
  - assert (adds_dirs
              (try_except (mkdir name) is_OSError
                 (fun e w => if isdir_in (fs w) name then (inr tt, w) else (inl e, w))))
      as Hlast.
    { apply adds_dirs_try_except; [apply adds_dirs_mkdir|].
      intros e w r w'; destruct (isdir_in _ _); intros [= _ <-]; apply dirs_added_refl. }
    destruct (_ && _); [|exact Hlast].
    apply adds_dirs_bind; [apply adds_dirs_path_exists|]. intros []; [exact Hlast|].
    apply adds_dirs_bind.
    + apply adds_dirs_try_except; [apply IH|]. intros e. apply adds_dirs_ret.
    + intros _. destruct (String.eqb _ "."); [apply adds_dirs_ret|exact Hlast].
Qed.

Lemma adds_dirs_makedirs name : adds_dirs (makedirs name).
Proof. apply adds_dirs_makedirs_fuel. Qed.

(** One step of a proof that a method only adds directories. *)
Ltac adds_dirs_step :=
  first
    [ apply adds_dirs_ret | apply adds_dirs_raise | apply adds_dirs_get
    | apply adds_dirs_lift | apply adds_dirs_message | apply adds_dirs_scriptSave
    | apply adds_dirs_getenv | apply adds_dirs_path_exists | apply adds_dirs_read_file
    | apply adds_dirs_mkdir | apply adds_dirs_makedirs
    | apply adds_dirs_bind; [|intros ?]
    | apply adds_dirs_try_except; [|intros ?]
    | match goal with
      | |- adds_dirs (match ?x with _ => _ end) => destruct x
      | |- adds_dirs (if ?b then _ else _) => destruct b
      end ].

Lemma adds_dirs__get_ocio_path : adds_dirs _get_ocio_path.
Proof. unfold _get_ocio_path. repeat adds_dirs_step. Qed.

Lemma adds_dirs__get_nuke_script_path : adds_dirs _get_nuke_script_path.
Proof. unfold _get_nuke_script_path. repeat adds_dirs_step. Qed.

Lemma adds_dirs__get_render_template script_path name :
  adds_dirs (_get_render_template script_path name).
Proof. unfold _get_render_template. repeat adds_dirs_step. Qed.

Lemma adds_dirs_temp_script_paths self node : adds_dirs (temp_script_paths self node).
Proof.
  unfold temp_script_paths.
  repeat first [ apply adds_dirs__get_nuke_script_path
               | apply adds_dirs__get_render_template
               | adds_dirs_step ].
Qed.

Section WithFormat.

Variable str_format : string -> list (string * pyval) -> exn + string.

Lemma adds_dirs_script_content_body self rd out res :
  adds_dirs (script_content_body str_format self rd out res).
Proof.
  unfold script_content_body.
  repeat first [ apply adds_dirs__get_ocio_path | adds_dirs_step ].
Qed.

Lemma adds_dirs__write_script_content self rd out res :
  adds_dirs (_write_script_content str_format self rd out res).
Proof.
  unfold _write_script_content.
  repeat first [ apply adds_dirs_script_content_body | adds_dirs_step ].
Qed.

End WithFormat.

End Invariant.

(** ** [os.makedirs]: the bound on the recursion is enough *)

Module MakedirsFacts.
Import PyFacts ReplaceFacts PathFacts.

Lemma cut_last_app c s : s = fst (cut_last c s) +:+ snd (cut_last c s).
Proof.
  induction s as [|a s IH]; [reflexivity|]. simpl.
  destruct (contains_char c s); simpl; [now rewrite app_cons, <- IH|].
  now destruct (Ascii.eqb a c).
Qed.

Lemma rstrip_char_length c s : String.length (rstrip_char c s) <= String.length s.
Proof.
  induction s as [|a s IH]; [reflexivity|]. simpl.
  destruct (rstrip_char c s); [destruct (Ascii.eqb a c)|]; simpl in *; lia.
Qed.

Lemma dirname_length p :
  String.length (dirname p) + String.length (basename p) <= String.length p.
Proof.
  rewrite (cut_last_app sep p) at 3. rewrite length_app.
  unfold dirname, basename.
  destruct (fst (cut_last sep p)) as [|a h] eqn:E; [simpl; lia|].
  destruct (all_char sep (String a h)); [lia|].
  pose proof (rstrip_char_length sep (String a h)). lia.
Qed.

(** The path [makedirs] recurses on is shorter than the one it was given. *)
Lemma makedirs_head_shorter name :
  let head0 := dirname name in
  let tail0 := basename name in
  let head := if String.eqb tail0 "" then dirname head0 else head0 in
  let tail := if String.eqb tail0 "" then basename head0 else tail0 in
  tail <> "" -> String.length head < String.length name.
Proof.
  cbv zeta. pose proof (dirname_length name) as H1.
  pose proof (dirname_length (dirname name)) as H2.
  destruct (String.eqb_spec (basename name) "") as [E|E]; intros Htail.
  - destruct (basename (dirname name)); [congruence|]. simpl in H2. lia.
  - destruct (basename name); [congruence|]. simpl in H1. lia.
Qed.

(** Any two bounds of at least the length of the name give the same run. *)
Lemma makedirs_fuel_any fuel1 : forall fuel2 name w,
  String.length name <= fuel1 -> String.length name <= fuel2 ->
  makedirs_fuel fuel1 name w = makedirs_fuel fuel2 name w.
Proof.
  induction fuel1 as [|fuel1 IH]; intros fuel2 name w H1 H2.
  - destruct name; [|simpl in H1; lia]. now destruct fuel2.
  - destruct fuel2 as [|fuel2].
    { destruct name; [reflexivity|simpl in H2; lia]. }
    pose proof (makedirs_head_shorter name) as Hshort. cbv zeta in Hshort.
    cbn [makedirs_fuel]. cbv zeta.
    destruct (String.eqb_spec
                (if String.eqb (basename name) "" then basename (dirname name)
                 else basename name) "") as [E|E].
    { now rewrite andb_false_r. }
    specialize (Hshort E).
    destruct (negb _ && negb false); [|reflexivity].
    unfold bind at 1 3. unfold path_exists, get.
    destruct (exists_in (fs w) _); [reflexivity|].
    unfold bind, try_except. rewrite (IH fuel2) by lia. reflexivity.
Qed.

Lemma makedirs_fuel_enough fuel name w :
  String.length name <= fuel -> makedirs_fuel fuel name w = makedirs name w.
Proof. intros H. now apply makedirs_fuel_any. Qed.

End MakedirsFacts.

(** ** The name of the temporary script *)

Module NamingFacts.
Import PyFacts ReplaceFacts PathFacts.

Lemma app_inv_head s t u : s +:+ t = s +:+ u -> t = u.
Proof.
  induction s as [|c s IH]; [now rewrite !app_nil_l|].
  rewrite !app_cons. intros [= H]. auto.
Qed.

Lemma app_inv_tail s t u : t +:+ s = u +:+ s -> t = u.
Proof.
  revert u. induction t as [|c t IH]; intros u H.
  - destruct u as [|d u]; [reflexivity|]. exfalso.
    apply (f_equal String.length) in H. rewrite app_nil_l, length_app in H.
    simpl in H. lia.
  - destruct u as [|d u].
    + exfalso. apply (f_equal String.length) in H.
      rewrite app_nil_l, length_app in H. simpl in H. lia.
    + rewrite !app_cons in H. injection H as -> H. f_equal. now apply IH.
Qed.

(** [int] reads a padded number as the number. *)
Lemma int_format_02d n : int (format_02d n) = Some (Z.of_N n).
Proof.
  unfold format_02d. cbv zeta.
  destruct (String.length (str (Z.of_N n)) <? 2); [|apply int_str_N].
  pose proof (str_of_N_digits n) as Hd. pose proof (str_of_N_nonempty n) as Hne.
  rewrite str_of_N in *. rewrite app_cons, app_nil_l.
  unfold int. rewrite strip_digits by (discriminate || (simpl; now rewrite Hd)).
  destruct (NilEmpty.string_of_uint (N.to_uint n)) as [|c s] eqn:E; [congruence|].
  assert (Ascii.eqb c "_" = false) as Hc.
  { simpl in Hd. apply andb_prop in Hd as [Hc _]. now apply isdigit_cases in Hc. }
  rewrite (parse_digits_cons "0" c s D0) by (reflexivity || assumption).
  rewrite <- E, parse_digits_of_uint by apply N_to_uint_nonnil.
  simpl. change (N.of_uint (D0 (N.to_uint n))) with (N.of_uint (N.to_uint n)).
  now rewrite DecimalN.Unsigned.of_to.
Qed.

Lemma format_02d_inj n m : format_02d n = format_02d m -> n = m.
Proof.
  intros H. apply (f_equal int) in H. rewrite !int_format_02d in H.
  injection H. lia.
Qed.

Lemma format_02d_length n : 2 <= String.length (format_02d n).
Proof.
  unfold format_02d. cbv zeta.
  destruct (Nat.ltb_spec (String.length (str (Z.of_N n))) 2) as [Hlt|]; [|lia].
  pose proof (str_of_N_nonempty n).
  destruct (str (Z.of_N n)); [congruence|]. rewrite app_cons. simpl. lia.
Qed.

(** Two digits up to 99. *)
Lemma format_02d_two_digits n :
  n < 100 -> String.length (format_02d (N.of_nat n)) = 2.
Proof.
  intros Hn.
  assert (forallb (fun k => String.length (format_02d (N.of_nat k)) =? 2) (List.seq 0 100)
          = true) as Hall by (vm_compute; reflexivity).
  rewrite forallb_forall in Hall.
  apply Nat.eqb_eq, Hall, in_seq. lia.
Qed.

Lemma endswith_char_path_join a b c :
  b <> "" -> endswith_char (path_join a b) c = endswith_char b c.
Proof.
  intros Hb. unfold path_join.
  destruct (startswith b "/"); [reflexivity|].
  destruct a as [|x a]; [reflexivity|].
  destruct (endswith_char (String x a) sep).
  - now apply endswith_char_app.
  - rewrite endswith_char_app by discriminate.
    now rewrite (endswith_char_app "/" b) by assumption.
Qed.

Lemma temp_script_path_ends dir base n :
  endswith_char (temp_script_path dir base n) "k" = true.
Proof.
  unfold temp_script_path.
  rewrite endswith_char_path_join.
  - rewrite <- !app_assoc. now rewrite endswith_char_app by discriminate.
  - intros H. apply (f_equal String.length) in H. rewrite !length_app in H.
    simpl in H. lia.
Qed.

Lemma path_join_inj d x y :
  startswith x "/" = startswith y "/" -> path_join d x = path_join d y -> x = y.
Proof.
  unfold path_join. intros <-. destruct (startswith x "/"); [auto|].
  destruct d as [|c d]; [auto|].
  destruct (endswith_char (String c d) sep); intros H.
  - now apply app_inv_head in H.
  - apply app_inv_head in H. now apply (app_inv_head "/") in H.
Qed.

Lemma startswith_head base r1 r2 c :
  startswith (base +:+ String c r1) "/" = startswith (base +:+ String c r2) "/".
Proof.
  destruct base as [|b base].
  - rewrite !app_nil_l, !startswith_char. reflexivity.
  - rewrite !app_cons, !startswith_char. reflexivity.
Qed.

(** Different numbers give different names. *)
Lemma temp_script_path_inj dir base n m :
  temp_script_path dir base n = temp_script_path dir base m -> n = m.
Proof.
  unfold temp_script_path. intros H.
  apply path_join_inj in H; [|apply (startswith_head base _ _ "_")].
  apply app_inv_head in H. apply (app_inv_head "_tmp_") in H.
  apply app_inv_tail in H. apply format_02d_inj in H. lia.
Qed.

Lemma exists_in_dom f p :
  exists_in f p = true -> endswith_char p "k" = true -> p ∈ dom f.
Proof.
  unfold exists_in. intros H Hk. apply elem_of_dom.
  destruct (f !! p); [eauto|].
  apply String.eqb_eq in H. subst p. discriminate.
Qed.

(** As many names as the file system has entries cannot all be taken
    together with one more. *)
Lemma taken_names_bound f dir base s :
  (forall k, 1 <= k <= s -> exists_in f (temp_script_path dir base k) = true) ->
  s <= size f.
Proof.
  intros Htaken.
  set (names := temp_script_path dir base <$> List.seq 1 s).
  assert (NoDup names) as Hnodup.
  { apply NoDup_fmap_2_strong; [|apply NoDup_seq].
    intros a b _ _. apply temp_script_path_inj. }
  assert (list_to_set names ⊆ dom f) as Hsub.
  { intros p Hp. apply elem_of_list_to_set, list_elem_of_fmap in Hp as (k & -> & Hk).
    apply elem_of_seq in Hk. apply exists_in_dom; [|apply temp_script_path_ends].
    apply Htaken. lia. }
  apply subseteq_size in Hsub.
  rewrite size_list_to_set, size_dom in Hsub by assumption.
  unfold names in Hsub. now rewrite length_fmap, length_seq in Hsub.
Qed.

Lemma script_number_loop_spec f dir base fuel s :
  (forall k, 1 <= k < s -> exists_in f (temp_script_path dir base k) = true) ->
  size f < fuel + s -> 1 <= s ->
  s <= script_number_loop fuel f dir base s
  /\ exists_in f (temp_script_path dir base (script_number_loop fuel f dir base s)) = false
  /\ forall k, 1 <= k < script_number_loop fuel f dir base s ->
               exists_in f (temp_script_path dir base k) = true.
Proof.
  revert s. induction fuel as [|fuel IH]; intros s Htaken Hsize Hs; cbn [script_number_loop];
    destruct (exists_in f (temp_script_path dir base s)) eqn:E; auto.
  - exfalso. assert (s <= size f); [|lia].
    apply (taken_names_bound f dir base). intros k Hk.
    destruct (decide (k = s)) as [->|]; [assumption|]. apply Htaken. lia.
  - destruct (IH (S s)) as (H1 & H2 & H3); [|lia|lia|].
    + intros k Hk. destruct (decide (k = s)) as [->|]; [assumption|]. apply Htaken. lia.
    + split; [lia|]. split; assumption.
Qed.

(** The loop stops, and where it stops is the first free number: with as
    many turns as the file system has entries, the name it returns does
    not exist and every name of a smaller number does. *)
Lemma script_number_loop_first_free f dir base :
  let n := script_number_loop (size f) f dir base 1 in
  1 <= n
  /\ exists_in f (temp_script_path dir base n) = false
  /\ forall k, 1 <= k < n -> exists_in f (temp_script_path dir base k) = true.
Proof. apply script_number_loop_spec; [intros; lia | lia | lia]. Qed.

End NamingFacts.

Lemma _get_nuke_script_path_inr w p w' :
  _get_nuke_script_path w = (inr (Some p), w') ->
  p = root_name w /\ w' = saved w /\ root_name w <> "".
Proof.
  unfold _get_nuke_script_path, bind, get, message, scriptSave, modify, ret.
  destruct (String.eqb_spec (root_name w) ""); [discriminate|].
  destruct (String.eqb (root_name w) "Root"); [discriminate|]. now intros [= <- <-].
Qed.

(** What [temp_script_paths] has settled when it returns: the new script
    is the name of the first free number in the file system [f1] the loop
    ran on, which is the one the save has left, with the "tmp" directory
    made if it was missing. *)
Lemma temp_script_paths_inr self node w new_script_path read_file_path output_file_path w1 :
  temp_script_paths self node w
  = (inr (new_script_path, read_file_path, output_file_path), w1) ->
  let new_script_dir := path_join (dirname (root_name w)) "tmp" in
  let base_name := path_stem (root_name w) in
  exists f1,
    (f1 = fs (saved w) \/ f1 = <[new_script_dir := Dir]> (fs (saved w)))
    /\ (forall q, exists_in (fs (saved w)) q = true -> exists_in f1 q = true)
    /\ new_script_path
       = temp_script_path new_script_dir base_name
           (script_number_loop (size f1) f1 new_script_dir base_name 1).
Proof.
  intros H new_script_dir base_name. unfold temp_script_paths in H.
  apply bind_inr in H as (script & wa & Hscript & H).
  apply bind_inr in H as (script_dir & wb & Hdir & H).
  apply lift_inr in Hdir as [Hdir ->].
  destruct script as [script|]; [|discriminate Hdir].
  apply _get_nuke_script_path_inr in Hscript as (-> & -> & _).
  injection Hdir as <-. cbn [default] in H.
  apply bind_inr in H as (dir_exists & wc & Hex & H).
  apply get_inr in Hex as [-> ->].
  apply bind_inr in H as ([] & wd & Hmk & H).
  apply bind_inr in H as (n & we & Hn & H).
  apply get_inr in Hn as [-> ->].
  apply bind_inr in H as (rp & wf & _ & H).
  apply bind_inr in H as (rp' & wg & _ & H).
  apply bind_inr in H as (out & wh & _ & H).
  apply ret_inr in H as [[= <- _ _] _].
  exists (fs wd). fold new_script_dir base_name.
  split; [|split; [|reflexivity]].
  - destruct (exists_in _ _) eqn:E.
    + apply ret_inr in Hmk as [_ <-]. now left.
    + unfold mkdir in Hmk.
      destruct (String.eqb _ ""); [discriminate|].
      rewrite E in Hmk. unfold bind, check_parent, modify in Hmk.
      destruct (_ || _); [|destruct (exists_in _ (dirname _)); discriminate].
      injection Hmk as <-. now right.
  - intros q Hq.
    assert (dirs_added (saved w) wd) as Hadd.
    { destruct (exists_in _ _).
      - eapply Invariant.adds_dirs_ret, Hmk.
      - eapply Invariant.adds_dirs_mkdir, Hmk. }
    now apply (still_exists _ _ Hadd).
Qed.

Lemma write_script_file_other p content w r w' q :
  write_script_file p content w = (r, w') -> q <> p -> fs w' !! q = fs w !! q.
Proof.
  unfold write_script_file. intros H Hq.
  destruct (open_w_cases p w) as [(e & Hopen & _) | Hopen].
  - rewrite (bind_raise _ _ _ _ _ Hopen) in H. now injection H as _ <-.
  - rewrite (bind_run _ _ _ _ _ Hopen) in H.
    destruct content; injection H as _ <-; simpl; now rewrite ?lookup_insert_ne by congruence.
Qed.

Lemma exists_in_file f q c : f !! q = Some (File c) -> q <> "" -> exists_in f q = true.
Proof.
  intros H Hq. unfold exists_in. rewrite H.
  destruct (String.eqb_spec q ""); [congruence|reflexivity].
Qed.

Lemma exists_in_insert_dir f d q :
  q <> d -> exists_in (<[d := Dir]> f) q = exists_in f q.
Proof. intros H. unfold exists_in. now rewrite lookup_insert_ne by congruence. Qed.

Section Naming.

Variable str_format : string -> list (string * pyval) -> exn + string.

(** C5, as the code has it.  The script that [_build_temp_nuke_script]
    returns is named with the stem of the current script, "_tmp_", a
    sequence number and ".nk", in the "tmp" directory next to the current
    script.  The number is written in decimal, padded with a zero to two
    digits and longer from 100 on; it is the first number from 1 whose name
    does not exist, every smaller number being taken when the loop runs
    (the host has saved the current script by then).  However the build
    ends, every file that was there before it, the current script apart,
    is there after it with the same content. *)
Theorem temp_script_is_first_free_name (self : SubmitterPanel) (node : Node)
    (w w' : World) (r : exn + string * string) :
  _build_temp_nuke_script str_format self node w = (r, w') ->
  (forall q c, q <> root_name w ->
               fs w !! q = Some (File c) -> fs w' !! q = Some (File c))
  /\ forall script out, r = inr (script, out) ->
       let new_script_dir := path_join (dirname (root_name w)) "tmp" in
       let base_name := path_stem (root_name w) in
       exists n,
         script = path_join new_script_dir
                    (base_name +:+ "_tmp_" +:+ format_02d (N.of_nat n) +:+ ".nk")
         /\ 1 <= n
         /\ int (format_02d (N.of_nat n)) = Some (Z.of_nat n)
         /\ 2 <= String.length (format_02d (N.of_nat n))
         /\ (n < 100 -> String.length (format_02d (N.of_nat n)) = 2)
         /\ exists_in (fs w) script = false
         /\ forall k, 1 <= k < n ->
              exists_in (fs (saved w)) (temp_script_path new_script_dir base_name k) = true.
Proof.
  intros H. unfold _build_temp_nuke_script in H.
  destruct (temp_script_paths self node w) as [[e|[[p rd] out]] w1] eqn:Epaths.
  { rewrite (bind_raise _ _ _ _ _ Epaths) in H. injection H as <- <-. split.
    - intros q c Hq.
      now apply (same_files _ _ (Invariant.adds_dirs_temp_script_paths _ _ _ _ _ Epaths)).
    - discriminate. }
  rewrite (bind_run _ _ _ _ _ Epaths) in H. cbn beta iota in H.
  pose proof (Invariant.adds_dirs_temp_script_paths _ _ _ _ _ Epaths) as Hadd1.
  apply temp_script_paths_inr in Epaths as (f1 & Hf1 & Hkeep & ->). cbv zeta in *.
  set (new_script_dir := path_join (dirname (root_name w)) "tmp") in *.
  set (base_name := path_stem (root_name w)) in *.
  destruct (NamingFacts.script_number_loop_first_free f1 new_script_dir base_name)
    as (Hn1 & Hfree & Htaken).
  set (n := script_number_loop (size f1) f1 new_script_dir base_name 1) in *.
  assert (exists_in (fs w) (temp_script_path new_script_dir base_name n) = false) as Hfree0.
  { destruct (exists_in (fs w) _) eqn:E; [|reflexivity].
    apply (still_exists _ _ (Invariant.dirs_added_saved w)), Hkeep in E. congruence. }
  assert (forall k, 1 <= k < n ->
            exists_in (fs (saved w)) (temp_script_path new_script_dir base_name k) = true)
    as Htaken0.
  { intros k Hk. specialize (Htaken k Hk).
    destruct Hf1 as [-> | ->]; [assumption|].
    rewrite exists_in_insert_dir in Htaken; [assumption|].
    intros Heq. pose proof (NamingFacts.temp_script_path_ends new_script_dir base_name k) as Hk'.
    rewrite Heq in Hk'. unfold new_script_dir in Hk'.
    now rewrite NamingFacts.endswith_char_path_join in Hk' by discriminate. }
  assert (forall q c, q <> root_name w -> fs w !! q = Some (File c) ->
            q <> temp_script_path new_script_dir base_name n) as Hother.
  { intros q c _ Hq ->. rewrite (exists_in_file _ _ _ Hq) in Hfree0; [discriminate|].
    intros Hnil. rewrite Hnil in Hq.
    pose proof (NamingFacts.temp_script_path_ends new_script_dir base_name n) as Hk.
    rewrite Hnil in Hk. discriminate. }
  unfold get at 1 in H. unfold bind at 1 in H.
  destruct (_write_script_content_total str_format self rd out (resources_dir w1) w1)
    as (content & w2 & Econtent).
  pose proof (Invariant.adds_dirs__write_script_content _ _ _ _ _ _ _ _ Econtent) as Hadd2.
  pose proof (Invariant.dirs_added_trans _ _ _ Hadd1 Hadd2) as Hadd.
  rewrite (bind_run _ _ _ _ _ Econtent) in H.
  destruct (write_script_file (temp_script_path new_script_dir base_name n) content w2)
    as [[e|[]] w3] eqn:Ewrite.
  - rewrite (bind_raise _ _ _ _ _ Ewrite) in H. injection H as <- <-. split; [|discriminate].
    intros q c Hroot Hq.
    rewrite (write_script_file_other _ _ _ _ _ q Ewrite) by eauto.
    now apply (same_files _ _ Hadd).
  - rewrite (bind_run _ _ _ _ _ Ewrite) in H. injection H as <- <-. split.
    + intros q c Hroot Hq.
      rewrite (write_script_file_other _ _ _ _ _ q Ewrite) by eauto.
      now apply (same_files _ _ Hadd).
    + intros script out' [= <- <-]. exists n.
      split; [reflexivity|]. split; [assumption|].
      split; [rewrite NamingFacts.int_format_02d; f_equal; lia|].
      split; [apply NamingFacts.format_02d_length|].
      split; [apply NamingFacts.format_02d_two_digits|].
      split; assumption.
Qed.

End Naming.

(** The first review submission of the studio's shot. *)
Lemma temp_script_is_first_free_name_studio :
  let w := Studio.world in
  let run := _build_temp_nuke_script format_named (Studio.panel "1001-1050" true)
               Studio.Write1 w in
  (forall q c, q <> root_name w ->
               fs w !! q = Some (File c) -> fs (snd run) !! q = Some (File c))
  /\ forall script out, fst run = inr (script, out) ->
       let new_script_dir := path_join (dirname (root_name w)) "tmp" in
       let base_name := path_stem (root_name w) in
       exists n,
         script = path_join new_script_dir
                    (base_name +:+ "_tmp_" +:+ format_02d (N.of_nat n) +:+ ".nk")
         /\ 1 <= n
         /\ int (format_02d (N.of_nat n)) = Some (Z.of_nat n)
         /\ 2 <= String.length (format_02d (N.of_nat n))
         /\ (n < 100 -> String.length (format_02d (N.of_nat n)) = 2)
         /\ exists_in (fs w) script = false
         /\ forall k, 1 <= k < n ->
              exists_in (fs (saved w)) (temp_script_path new_script_dir base_name k) = true.
Proof.
  intros w run.
  apply (temp_script_is_first_free_name format_named (Studio.panel "1001-1050" true)
           Studio.Write1 w (snd run) (fst run)).
  vm_compute. reflexivity.
Defined.

(** Two review submissions in a row: 01, then 02. *)
Example two_builds_in_a_row :
  let panel := Studio.panel "1001-1050" true in
  let first := _build_temp_nuke_script format_named panel Studio.Write1 Studio.world in
  let second := _build_temp_nuke_script format_named panel Studio.Write1 (snd first) in
  fst first = inr ("/proj/tmp/shot010_tmp_01.nk", "/proj/renders/review/shot010.mov")
  /\ fst second = inr ("/proj/tmp/shot010_tmp_02.nk", "/proj/renders/review/shot010.mov").
Proof. vm_compute. split; reflexivity. Qed.

(** C5, as the specification states it, fails at the hundredth script: its
    number has three digits. *)
Lemma hundredth_script_has_three_digits :
  fst (_build_temp_nuke_script format_named (Studio.panel "1001-1050" true)
         Studio.Write1 Studio.busy)
  = inr ("/proj/tmp/shot010_tmp_100.nk", "/proj/renders/review/shot010.mov")
  /\ ~ stated_temp_name "shot010" (basename "/proj/tmp/shot010_tmp_100.nk").
Proof.
  split; [vm_compute; reflexivity|].
  intros (d1 & d2 & rest & _ & _ & Hrest & Hname).
  vm_compute in Hname. injection Hname as <- <- <-. discriminate Hrest.
Qed.

(** ** The overwrite check *)

(** A directory that is there and holds a file: the user is asked, and the
    answer is the result. *)
Lemma _check_write_has_files_asks node w names :
  exists_in (fs w) (checked_dir node) = true ->
  listdir (checked_dir node) w = (inr names, w) ->
  any_isfile (fs w) (checked_dir node) names = true ->
  let answer := ask_answer w (List.length (List.filter is_Ask (log w))) in
  _check_write_has_files node w
  = (inr (Some answer), add_event (Ask (overwrite_prompt (checked_dir node)) answer) w).
Proof.
  intros Hex Hlist Hany answer. unfold _check_write_has_files.
  change (dirname match node_cached_path node with
                  | Some cached => cached
                  | None => node_file node
                  end) with (checked_dir node).
  unfold path_exists, get at 1. unfold bind at 1. rewrite Hex. cbn [negb].
  rewrite (bind_run _ _ _ _ _ Hlist).
  unfold get at 1. unfold bind at 1. rewrite Hany. reflexivity.
Qed.

Lemma _deselect_and_disable_write_nodes_returns nodes w :
  exists w', _deselect_and_disable_write_nodes nodes w = (inr tt, w').
Proof.
  revert w. induction nodes as [|node nodes IH]; intros w; [now exists w|].
  cbn [_deselect_and_disable_write_nodes].
  unfold update_node at 1. unfold modify at 1. unfold bind at 1.
  unfold update_node at 1. unfold modify at 1. unfold bind at 1.
  apply IH.
Qed.

(** A batch of plain Write nodes needs no conversion: the list comes back
    as it is and the scene is not touched, with the toolkit's app or
    without it. *)
Lemma _convert_write_nodes_plain nodes w :
  (forall n, In n nodes -> node_class n = "Write") ->
  _convert_write_nodes nodes "to" w = (inr nodes, w).
Proof.
  intros Hplain. unfold _convert_write_nodes.
  unfold get at 1. unfold bind at 1.
  destruct (writenode_app w) as [app|]; [|reflexivity].
  change (String.eqb "to" "to") with true. change (String.eqb "to" "from") with false.
  cbn [orb negb].
  assert (List.filter (fun n => String.eqb (node_class n) "WriteTank") nodes = []) as ->;
    [|reflexivity].
  induction nodes as [|n nodes IH]; [reflexivity|].
  cbn [List.filter]. rewrite (Hplain n) by now left.
  change (String.eqb "Write" "WriteTank") with false.
  apply IH. intros m Hm. apply Hplain. now right.
Qed.

Section Overwrite.

Variable str_format : string -> list (string * pyval) -> exn + string.

(** C4, against the code.  The answers are combined with [any]: the batch
    goes on as soon as one check is true.  So when the directory of a
    write node holds a file and the user answers no, and the check of the
    node that follows is true (its directory is missing, or the user
    answers yes for it), the checks of the batch end in true, the nodes
    after those two are not even asked about, and [show] goes on to submit
    the batch, the declined node first: its files are made, the farm tool
    is run on them and its result is reported, and then the loop turns to
    the other nodes. *)
Theorem declined_node_is_submitted
    (send_selected : bool) (w w1 w4 : World) (node other : Node) (rest : list Node)
    (names : list string) (files : list (option (string * string))) (dc : string)
    (command : list string) (result : CompletedProcess) :
  let batch := node :: other :: rest in
  let panel := dialog_edit w (default_panel w) in
  let declined := add_event (Ask (overwrite_prompt (checked_dir node)) false) w in
  let w2 := snd ((_deselect_and_disable_write_nodes batch ;;; _deselect_non_write_nodes) w1) in
  let w3 := snd (_select_and_enable_write_node node w2) in
  dialog_ok w = true ->
  _get_write_nodes send_selected w = (inr (Some batch), w) ->
  (forall n, In n batch -> node_class n = "Write") ->
  exists_in (fs w) (checked_dir node) = true ->
  listdir (checked_dir node) w = (inr names, w) ->
  any_isfile (fs w) (checked_dir node) names = true ->
  ask_answer w (List.length (List.filter is_Ask (log w))) = false ->
  _check_write_has_files other declined = (inr (Some true), w1) ->
  _get_submission_files str_format panel node w3 = (inr files, w4) ->
  _get_deadline_command w4 = (inr dc, w4) ->
  _build_submission_command [dc; "-Multi"; "-dependent"] files = inr command ->
  run_tool w4 command = inr result ->
  _check_write_has_files node w = (inr (Some false), declined)
  /\ any_check batch w = (inr true, w1)
  /\ show str_format send_selected w
     = (submit_nodes str_format panel (other :: rest) ;;;
        _convert_write_nodes batch "from" ;;;
        ret tt)
         (add_event (Message (result_text result)) (add_event (Run command result) w4)).
Proof.
  intros batch panel declined w2 w3 Hok Hnodes Hplain Hex Hlist Hfile Hno Hother
         Hfiles Hdc Hbuild Hrun.
  assert (_check_write_has_files node w = (inr (Some false), declined)) as Hask.
  { pose proof (_check_write_has_files_asks node w names Hex Hlist Hfile) as H.
    cbv zeta in H. now rewrite Hno in H. }
  assert (any_check batch w = (inr true, w1)) as Hany.
  { unfold batch. cbn [any_check].
    rewrite (bind_run _ _ _ _ _ Hask).
    change (truth (Some false)) with false. cbv iota. cbn [any_check].
    now rewrite (bind_run _ _ _ _ _ Hother). }
  split; [assumption|]. split; [assumption|].
  unfold show, new_panel.
  unfold get at 1. unfold bind at 1.
  unfold get at 1. unfold bind at 1.
  unfold get at 1. unfold bind at 1.
  rewrite Hok. cbn [negb].
  rewrite (bind_run _ _ _ _ _ Hnodes). fold batch. unfold batch at 1.
  rewrite (bind_run _ _ _ _ _ Hany). cbn [negb]. fold batch. fold panel.
  unfold submit_batch.
  rewrite (bind_run _ _ _ _ _ (_convert_write_nodes_plain batch w1 Hplain)).
  assert ((_deselect_and_disable_write_nodes batch ;;; _deselect_non_write_nodes) w1
          = (inr tt, w2)) as Hprepare.
  { unfold w2. destruct (_deselect_and_disable_write_nodes_returns batch w1) as [wa Hwa].
    now rewrite (bind_run _ _ _ _ _ Hwa). }
  rewrite <- (bind_assoc_run (_deselect_and_disable_write_nodes batch)
                (fun _ => _deselect_non_write_nodes)).
  rewrite (bind_run _ _ _ _ _ Hprepare).
  assert (submit_node str_format panel node w2
          = (inr tt, add_event (Message (result_text result))
                       (add_event (Run command result) w4))) as Hnode.
  { unfold submit_node.
    assert (_select_and_enable_write_node node w2 = (inr tt, w3)) as Hsel by reflexivity.
    rewrite (bind_run _ _ _ _ _ Hsel), (bind_run _ _ _ _ _ Hfiles).
    now apply (_execute_command_run files w4 dc command result). }
  unfold batch at 1. cbn [submit_nodes].
  rewrite bind_assoc_run, (bind_run _ _ _ _ _ Hnode). reflexivity.
Qed.

End Overwrite.

(** Both nodes have rendered before; the user answers no for the
    directory of WriteA and yes for the one of WriteB: the farm tool is
    run on the job of WriteA all the same. *)
Lemma declined_node_is_submitted_studio :
  let w := Studio.rerender in
  let batch := [Studio.WriteA; Studio.WriteB] in
  let panel := dialog_edit w (default_panel w) in
  let declined := add_event (Ask (overwrite_prompt "/proj/a") false) w in
  let w1 := add_event (Ask (overwrite_prompt "/proj/b") true) declined in
  let w2 := snd ((_deselect_and_disable_write_nodes batch ;;; _deselect_non_write_nodes) w1) in
  let w3 := snd (_select_and_enable_write_node Studio.WriteA w2) in
  let w4 := snd (_get_submission_files format_named panel Studio.WriteA w3) in
  let command :=
    ["deadlinecommand"; "-Multi"; "-dependent";
     "-job"; "/tmp/exr_nuke_deadline_job_id0.txt"; "/tmp/exr_nuke_deadline_plugin_id0.txt"] in
  _check_write_has_files Studio.WriteA w = (inr (Some false), declined)
  /\ any_check batch w = (inr true, w1)
  /\ show format_named true w
     = (submit_nodes format_named panel [Studio.WriteB] ;;;
        _convert_write_nodes batch "from" ;;;
        ret tt)
         (add_event (Message (result_text Studio.tool_ok))
                    (add_event (Run command Studio.tool_ok) w4)).
Proof.
  intros w batch panel declined w1 w2 w3 w4 command.
  apply (declined_node_is_submitted format_named true w w1 w4 Studio.WriteA Studio.WriteB []
           ["shotA.1001.exr"]
           [Some ("/tmp/exr_nuke_deadline_job_id0.txt",
                  "/tmp/exr_nuke_deadline_plugin_id0.txt")]
           "deadlinecommand" command Studio.tool_ok).
  - reflexivity.
  - reflexivity.
  - intros n [<-|[<-|[]]]; reflexivity.
  - reflexivity.
  - vm_compute. reflexivity.
  - vm_compute. reflexivity.
  - reflexivity.
  - vm_compute. reflexivity.
  - vm_compute. reflexivity.
  - vm_compute. reflexivity.
  - reflexivity.
  - reflexivity.
Defined.

(** A batch of one node: the answer decides. *)
Example overwrite_check_one_node :
  submitted_jobs (snd (show format_named true (Studio.rerender_one false))) = []
  /\ submitted_jobs (snd (show format_named true (Studio.rerender_one true)))
     = ["Name=WriteA - Rendered Image" +:+ LF].
Proof. vm_compute. split; reflexivity. Qed.

(** What the two batches leave: the questions asked and the jobs handed
    to the farm. *)
Example rerender_answers_and_jobs :
  (let w' := snd (show format_named true Studio.rerender) in
   asked w' = [(overwrite_prompt "/proj/a", false); (overwrite_prompt "/proj/b", true)]
   /\ submitted_jobs w' = ["Name=WriteA - Rendered Image" +:+ LF;
                           "Name=WriteB - Rendered Image" +:+ LF])
  /\
  (let w' := snd (show format_named true Studio.rerender_yes) in
   asked w' = [(overwrite_prompt "/proj/a", true)]
   /\ submitted_jobs w' = ["Name=WriteA - Rendered Image" +:+ LF;
                           "Name=WriteB - Rendered Image" +:+ LF]).
Proof. vm_compute. repeat split. Qed.

(** The same two batches against the overwrite rule in the words of the
    specification.  When the user answers no for the directory of WriteA
    and yes for the one of WriteB, WriteA is submitted all the same.  When
    the user answers yes for WriteA, the directory of WriteB is never
    asked about. *)
Lemma node_answered_no_is_submitted :
  ~ stated_overwrite_rule (snd (show format_named true Studio.rerender)) Studio.WriteA
  /\ ~ stated_overwrite_rule (snd (show format_named true Studio.rerender_yes)) Studio.WriteB.
Proof.
  split.
  - intros [_ Hrule].
    destruct (Hrule false) as [Hsubmitted _]; [vm_compute; auto|].
    discriminate Hsubmitted. vm_compute. auto.
  - intros [[answer Hasked] _]. vm_compute in Hasked.
    destruct Hasked as [Heq | []]. discriminate Heq.
Qed.

(** ** The fallback inside the build *)

Lemma fallback_render_path_nonempty p : fallback_render_path p <> "".
Proof.
  intros H.
  assert (endswith_char (fallback_render_path p) "v" = true) as Hv.
  { unfold fallback_render_path. rewrite NamingFacts.endswith_char_path_join.
    - now rewrite PathFacts.endswith_char_app by discriminate.
    - destruct (sub_frame_exr _); discriminate. }
  rewrite H in Hv. discriminate.
Qed.

(** When the toolkit gives no path for the template (an exception, no
    template, or an empty path), the output file of the build is the
    fallback path of the node's file, with slashes for backslashes. *)
Lemma temp_script_paths_fallback self node w new_script_path read_file_path output_file_path w1 :
  temp_script_paths self node w
  = (inr (new_script_path, read_file_path, output_file_path), w1) ->
  match tk_render_path w (root_name w) "nuke_shot_render_movie" with
  | inr (Some (String _ _)) => False
  | _ => True
  end ->
  output_file_path = replace (fallback_render_path (node_file node)) "\" "/".
Proof.
  intros H Htk. unfold temp_script_paths in H.
  apply bind_inr in H as (script & wa & Hscript & H).
  pose proof (Invariant.adds_dirs__get_nuke_script_path _ _ _ Hscript) as Ha.
  apply bind_inr in H as (script_dir & wb & Hdir & H).
  apply lift_inr in Hdir as [Hdir ->].
  destruct script as [script|]; [|discriminate Hdir].
  apply _get_nuke_script_path_inr in Hscript as (-> & Hwa & _).
  change (default "" (Some (root_name w))) with (root_name w) in H.
  apply bind_inr in H as (dir_exists & wc & Hex & H).
  apply get_inr in Hex as [-> ->].
  apply bind_inr in H as ([] & wd & Hmk & H).
  assert (dirs_added wa wd) as Hd.
  { destruct (exists_in _ _).
    - eapply Invariant.adds_dirs_ret, Hmk.
    - eapply Invariant.adds_dirs_mkdir, Hmk. }
  pose proof (Invariant.dirs_added_trans _ _ _ Ha Hd) as Hwd.
  apply bind_inr in H as (n & we & Hn & H).
  apply get_inr in Hn as [-> ->].
  apply bind_inr in H as (rp & wf & Hrp & H).
  assert (rp = None \/ rp = Some "") as Hnone.
  { unfold _get_render_template in Hrp.
    unfold get at 1 in Hrp. unfold bind at 1 in Hrp.
    rewrite (same_toolkit _ _ Hwd) in Hrp.
    destruct (tk_render_path w (root_name w) "nuke_shot_render_movie") as [e|[[|c p]|]];
      [ | | contradiction | ].
    - apply ret_inr in Hrp as [<- _]. now left.
    - unfold bind, get, ret in Hrp. injection Hrp as <- _.
      right. now destruct (String.eqb _ "Windows").
    - apply ret_inr in Hrp as [<- _]. now left. }
  apply bind_inr in H as (rp' & wg & Hrp' & H).
  assert (rp' = fallback_render_path (node_file node)) as ->.
  { destruct Hnone as [-> | ->];
      apply bind_inr in Hrp' as (u & wu & _ & Hrp');
      now apply ret_inr in Hrp' as [<- _]. }
  apply bind_inr in H as (out & wh & Hout & H).
  apply ret_inr in H as [[= _ _ <-] _].
  destruct (String.eqb_spec (fallback_render_path (node_file node)) "") as [Hnil|_].
  - now apply fallback_render_path_nonempty in Hnil.
  - cbn [negb] in Hout.
    apply bind_inr in Hout as (u & wu & _ & Hout). now apply ret_inr in Hout as [<- _].
Qed.

Example studio_review_movie :
  fst (temp_script_paths (Studio.panel "1001-1050" true) Studio.Write1 Studio.world)
  = inr ("/proj/tmp/shot010_tmp_01.nk", "/proj/renders/shot010.1001.exr",
         "/proj/renders/review/shot010.mov").
Proof. vm_compute. reflexivity. Qed.

(** ** A batch from end to end *)

(** Two write nodes, review and slate on, frames 1001 to 1050: the farm
    tool runs twice, each time with an image job and a movie job; the
    image jobs carry the chunk size of the panel, the movie jobs the fixed
    one, and all of them the adjusted frame list. *)
Example two_nodes_with_review :
  let r := show format_named true Studio.two_nodes in
  fst r = inr tt
  /\ List.map (fun e => match e with
                        | Run command _ =>
                            List.map (job_lines (fs (snd r)) ["Name="; "Frames="; "ChunkSize="])
                                     (job_info_paths command)
                        | _ => []
                        end)
              (List.filter is_Run (log (snd r)))
     = [ [ ["Name=WriteA - Rendered Image" +:+ LF; "Frames=1000-1050" +:+ LF;
            "ChunkSize=10" +:+ LF];
           ["Name=WriteA - Movie" +:+ LF; "Frames=1000-1050" +:+ LF;
            "ChunkSize=1000000" +:+ LF] ];
         [ ["Name=WriteB - Rendered Image" +:+ LF; "Frames=1000-1050" +:+ LF;
            "ChunkSize=10" +:+ LF];
           ["Name=WriteB - Movie" +:+ LF; "Frames=1000-1050" +:+ LF;
            "ChunkSize=1000000" +:+ LF] ] ].
Proof. vm_compute. split; reflexivity. Qed.

(** * Further properties of the panel's methods *)

(** ** The frame range, its errors and its way into the review script *)


(** A range that starts with a dash, as every range with a negative start
    frame does, is not accepted: the first piece of the split is empty. *)
Theorem negative_start_frame_is_rejected (self : SubmitterPanel) (rest : string) :
  value (frame_range self) = String "-" rest ->
  get_adjusted_frame_range self
  = inl (ValueError "invalid literal for int() with base 10: ''").
Proof.
  intros Hrange. unfold get_adjusted_frame_range. rewrite Hrange.
  change (String "-" rest) with ("" +:+ String "-" rest).
  rewrite (PyFacts.split_char_app "-"%char "" rest) by reflexivity.
  reflexivity.
Qed.

Lemma negative_start_frame_is_rejected_studio :
  get_adjusted_frame_range (Studio.panel "-5-10" true)
  = inl (ValueError "invalid literal for int() with base 10: ''").
Proof.
  exact (negative_start_frame_is_rejected (Studio.panel "-5-10" true) "5-10" eq_refl).
Defined.

Section ScriptFields.

Variable str_format : string -> list (string * pyval) -> exn + string.

(** A range that starts at frame 0 gives no review script: the adjusted
    range is "-1-B", which [_write_script_content] cannot split back into
    two numbers.  Nothing is read and the only effect is the message. *)
Theorem zero_start_frame_yields_no_script
    (self : SubmitterPanel) (rd out res : string) (w : World) (b : N) :
  value (frame_range self) = "0-" +:+ str (Z.of_N b) ->
  _write_script_content str_format self rd out res w
  = (inr None,
     add_event (Message "Error generating Nuke script: invalid literal for int() with base 10: ''") w).
Proof.
  intros Hrange.
  apply (_write_script_content_caught str_format self rd out res w
           (ValueError "invalid literal for int() with base 10: ''") w).
  unfold script_content_body. rewrite Hrange.
  change ("0-" +:+ str (Z.of_N b)) with (str (Z.of_N 0) +:+ "-" +:+ str (Z.of_N b)).
  rewrite PyFacts.split_range. cbn [unpack2].
  unfold lift at 1. unfold bind at 1.
  unfold get_adjusted_frame_range. rewrite Hrange.
  change ("0-" +:+ str (Z.of_N b)) with (str (Z.of_N 0) +:+ "-" +:+ str (Z.of_N b)).
  rewrite unpack2_int_range.
  unfold lift at 1. unfold bind at 1. cbv beta iota. cbn [knob_truth].
  change (str (Z.of_N 0 - 1) +:+ "-" +:+ str (Z.of_N b))
    with ("" +:+ String "-" ("1-" +:+ str (Z.of_N b))).
  rewrite (PyFacts.split_char_app "-"%char "") by reflexivity.
  reflexivity.
Qed.


End ScriptFields.

Lemma zero_start_frame_yields_no_script_studio :
  _write_script_content format_named (Studio.panel "0-10" true)
    "/proj/renders/shot010.1001.exr" "/proj/renders/review/shot010.mov" "/res" Studio.world
  = (inr None,
     add_event (Message "Error generating Nuke script: invalid literal for int() with base 10: ''")
               Studio.world).
Proof.
  exact (zero_start_frame_yields_no_script format_named (Studio.panel "0-10" true)
           "/proj/renders/shot010.1001.exr" "/proj/renders/review/shot010.mov" "/res"
           Studio.world 10 eq_refl).
Defined.


(** ** The burn-in file *)

(** The loop over the lines of the burn-in file stops at the first line
    that holds the marker and keeps what follows it; it finds nothing
    exactly when no line holds the marker. *)
Theorem lines_after_marker_first (lines : list string) :
  match lines_after_marker lines with
  | Some rest =>
      exists before line,
        lines = before ++ line :: rest
        /\ contains line "push $cut_paste_input" = true
        /\ Forall (fun l => contains l "push $cut_paste_input" = false) before
  | None => Forall (fun l => contains l "push $cut_paste_input" = false) lines
  end.
Proof.
  induction lines as [|line lines IH]; cbn [lines_after_marker]; [constructor|].
  destruct (contains line "push $cut_paste_input") eqn:E.
  - exists [], line. auto.
  - destruct (lines_after_marker lines) as [rest|].
    + destruct IH as (before & l & -> & Hl & Hbefore).
      exists (line :: before), l. auto.
    + auto.
Qed.


Section BurnIn.

Variable str_format : string -> list (string * pyval) -> exn + string.


End BurnIn.


(** ** What the methods leave of the host *)

Module HostFacts.

Lemma same_host_refl w : same_host w w.
Proof. split; reflexivity. Qed.

Lemma same_host_trans w1 w2 w3 : same_host w1 w2 -> same_host w2 w3 -> same_host w1 w3.
Proof. intros [] []. split; congruence. Qed.

Lemma same_host_event e w : same_host w (add_event e w).
Proof. split; reflexivity. Qed.

Lemma same_host_set_fs f w : same_host w (set_fs f w).
Proof. split; reflexivity. Qed.

Lemma same_host_set_uuid_count n w : same_host w (set_uuid_count n w).
Proof. split; reflexivity. Qed.

Lemma keeps_host_ret {A} (a : A) : keeps_host (ret a).
Proof. intros w r w' [= _ <-]. apply same_host_refl. Qed.

Lemma keeps_host_raise {A} e : keeps_host (@raise A e).
Proof. intros w r w' [= _ <-]. apply same_host_refl. Qed.

Lemma keeps_host_get {A} (f : World -> A) : keeps_host (get f).
Proof. intros w r w' [= _ <-]. apply same_host_refl. Qed.

Lemma keeps_host_lift {A} (x : exn + A) : keeps_host (lift x).
Proof. intros w r w' [= _ <-]. apply same_host_refl. Qed.

Lemma keeps_host_bind {A B} (m : M A) (k : A -> M B) :
  keeps_host m -> (forall a, keeps_host (k a)) -> keeps_host (bind m k).
Proof.
  intros Hm Hk w r w'. unfold bind.
  destruct (m w) as [[e|a] w1] eqn:E.
  - intros [= _ <-]. eapply Hm, E.
  - intros H. eapply same_host_trans; [eapply Hm, E | eapply Hk, H].
Qed.

Lemma keeps_host_try_except {A} (m : M A) catches h :
  keeps_host m -> (forall e, keeps_host (h e)) -> keeps_host (try_except m catches h).
Proof.
  intros Hm Hh w r w'. unfold try_except.
  destruct (m w) as [[e|a] w1] eqn:E.
  - destruct (catches e).
    + intros H. eapply same_host_trans; [eapply Hm, E | eapply Hh, H].
    + intros [= _ <-]. eapply Hm, E.
  - intros [= _ <-]. eapply Hm, E.
Qed.

Lemma keeps_host_message text : keeps_host (message text).
Proof. intros w r w' [= _ <-]. apply same_host_event. Qed.

Lemma keeps_host_ask prompt : keeps_host (ask prompt).
Proof. intros w r w' [= _ <-]. apply same_host_event. Qed.

Lemma keeps_host_scriptSave : keeps_host scriptSave.
Proof. intros w r w' [= _ <-]. split; reflexivity. Qed.

Lemma keeps_host_read_file p : keeps_host (read_file p).
Proof.
  intros w r w'. unfold read_file.
  destruct (fs w !! p) as [[c|]|]; intros [= _ <-]; apply same_host_refl.
Qed.

Lemma keeps_host_check_parent p : keeps_host (check_parent p).
Proof.
  intros w r w'. unfold check_parent.
  destruct (_ || _); [|destruct (exists_in _ _)]; intros [= _ <-]; apply same_host_refl.
Qed.

Lemma keeps_host_modify_fs (f : World -> gmap string fs_entry) :
  keeps_host (modify (fun w => set_fs (f w) w)).
Proof. intros w r w' [= _ <-]. apply same_host_set_fs. Qed.

Lemma keeps_host_open_w p : keeps_host (open_w p).
Proof.
  intros w r w'. unfold open_w.
  destruct (isdir_in _ _); [intros [= _ <-]; apply same_host_refl|].
  destruct (String.eqb p ""); [intros [= _ <-]; apply same_host_refl|].
  apply keeps_host_bind; [apply keeps_host_check_parent|].
  intros _. apply keeps_host_modify_fs.
Qed.

Lemma keeps_host_write p text : keeps_host (write p text).
Proof. apply keeps_host_modify_fs. Qed.

Lemma keeps_host_writelines p lines : keeps_host (writelines p lines).
Proof. apply keeps_host_write. Qed.

Lemma keeps_host_mkdir p : keeps_host (mkdir p).
Proof.
  intros w r w'. unfold mkdir.
  destruct (String.eqb p ""); [intros [= _ <-]; apply same_host_refl|].
  destruct (exists_in _ _); [intros [= _ <-]; apply same_host_refl|].
  apply keeps_host_bind; [apply keeps_host_check_parent|].
  intros _. apply keeps_host_modify_fs.
Qed.

Lemma keeps_host_makedirs_fuel fuel name : keeps_host (makedirs_fuel fuel name).
Proof.
  revert name.
  assert (forall name, keeps_host
            (try_except (mkdir name) is_OSError
               (fun e w => if isdir_in (fs w) name then (inr tt, w) else (inl e, w))))
    as Hlast.
  { intros name. apply keeps_host_try_except; [apply keeps_host_mkdir|].
    intros e w r w'; destruct (isdir_in _ _); intros [= _ <-]; apply same_host_refl. }
  induction fuel as [|fuel IH]; intros name; cbn [makedirs_fuel]; cbv zeta.
  - destruct (_ && _); [|apply Hlast].
    apply keeps_host_bind; [apply keeps_host_get|]. intros []; apply Hlast.
  - destruct (_ && _); [|apply Hlast].
    apply keeps_host_bind; [apply keeps_host_get|]. intros []; [apply Hlast|].
    apply keeps_host_bind.
    + apply keeps_host_try_except; [apply IH|]. intros e. apply keeps_host_ret.
    + intros _. destruct (String.eqb _ "."); [apply keeps_host_ret|apply Hlast].
Qed.

Lemma keeps_host_makedirs name : keeps_host (makedirs name).
Proof. apply keeps_host_makedirs_fuel. Qed.

Lemma keeps_host_listdir d : keeps_host (listdir d).
Proof.
  intros w r w'. unfold listdir.
  destruct (isdir_in _ _); [|destruct (exists_in _ _)]; intros [= _ <-];
    apply same_host_refl.
Qed.

Lemma keeps_host_uuid4_hex : keeps_host uuid4_hex.
Proof. intros w r w' [= _ <-]. apply same_host_set_uuid_count. Qed.

Lemma keeps_host_subprocess_run command : keeps_host (subprocess_run command).
Proof.
  unfold subprocess_run.
  apply keeps_host_bind; [apply keeps_host_get|]. intros r.
  apply keeps_host_bind; [apply keeps_host_lift|]. intros result.
  apply keeps_host_bind; [|intros _; apply keeps_host_ret].
  intros w x w' [= _ <-]. apply same_host_event.
Qed.

(** One step of a proof that a method keeps the host. *)
Ltac keeps_host_step :=
  first
    [ apply keeps_host_ret | apply keeps_host_raise | apply keeps_host_get
    | apply keeps_host_lift | apply keeps_host_message | apply keeps_host_ask
    | apply keeps_host_scriptSave | apply keeps_host_read_file
    | apply keeps_host_open_w | apply keeps_host_write | apply keeps_host_writelines
    | apply keeps_host_mkdir | apply keeps_host_makedirs | apply keeps_host_listdir
    | apply keeps_host_uuid4_hex | apply keeps_host_subprocess_run
    | apply keeps_host_bind; [|intros ?]
    | apply keeps_host_try_except; [|intros ?]
    | match goal with
      | |- keeps_host (match ?x with _ => _ end) => destruct x
      | |- keeps_host (if ?b then _ else _) => destruct b
      | |- keeps_host (let '(_, _) := ?x in _) => destruct x
      end ].

Lemma keeps_host__get_deadline_command : keeps_host _get_deadline_command.
Proof. unfold _get_deadline_command, getenv, path_exists. repeat keeps_host_step. Qed.

Lemma keeps_host__get_ocio_path : keeps_host _get_ocio_path.
Proof. unfold _get_ocio_path, getenv. repeat keeps_host_step. Qed.

Lemma keeps_host__get_nuke_script_path : keeps_host _get_nuke_script_path.
Proof. unfold _get_nuke_script_path. repeat keeps_host_step. Qed.

Lemma keeps_host__get_render_template script_path name :
  keeps_host (_get_render_template script_path name).
Proof. unfold _get_render_template. repeat keeps_host_step. Qed.

Lemma keeps_host_job_file_lines self output_type node output_file :
  keeps_host (job_file_lines self output_type node output_file).
Proof.
  unfold job_file_lines.
  repeat first [ apply keeps_host__get_nuke_script_path | apply keeps_host__get_ocio_path
               | keeps_host_step ].
Qed.

Lemma keeps_host__write_job_info self path output_type node output_file :
  keeps_host (_write_job_info self path output_type node output_file).
Proof.
  unfold _write_job_info.
  repeat first [ apply keeps_host_job_file_lines | keeps_host_step ].
Qed.

Lemma keeps_host__write_plugin_info path script_path :
  keeps_host (_write_plugin_info path script_path).
Proof. unfold _write_plugin_info. repeat keeps_host_step. Qed.

Lemma keeps_host__build_submission_files self output_type node script_path output_file :
  keeps_host (_build_submission_files self output_type node script_path output_file).
Proof.
  unfold _build_submission_files, getenv.
  repeat first [ apply keeps_host__get_nuke_script_path | apply keeps_host__write_job_info
               | apply keeps_host__write_plugin_info | keeps_host_step ].
Qed.

Lemma keeps_host_temp_script_paths self node : keeps_host (temp_script_paths self node).
Proof.
  unfold temp_script_paths, path_exists.
  repeat first [ apply keeps_host__get_nuke_script_path
               | apply keeps_host__get_render_template | keeps_host_step ].
Qed.

Lemma keeps_host_write_script_file p content : keeps_host (write_script_file p content).
Proof. unfold write_script_file. repeat keeps_host_step. Qed.

Lemma keeps_host__handle_submission_result result :
  keeps_host (_handle_submission_result result).
Proof. unfold _handle_submission_result. repeat keeps_host_step. Qed.

Lemma keeps_host__execute_command files : keeps_host (_execute_command files).
Proof.
  unfold _execute_command.
  repeat first [ apply keeps_host__get_deadline_command
               | apply keeps_host__handle_submission_result | keeps_host_step ].
Qed.

Lemma keeps_host__check_write_has_files node : keeps_host (_check_write_has_files node).
Proof. unfold _check_write_has_files, path_exists. repeat keeps_host_step. Qed.

Lemma keeps_host_any_check nodes : keeps_host (any_check nodes).
Proof.
  induction nodes as [|node nodes IH]; cbn [any_check]; [apply keeps_host_ret|].
  apply keeps_host_bind; [apply keeps_host__check_write_has_files|].
  intros r. destruct (truth r); [apply keeps_host_ret|apply IH].
Qed.

Section WithFormat.

Variable str_format : string -> list (string * pyval) -> exn + string.

Lemma keeps_host_script_content_body self rd out res :
  keeps_host (script_content_body str_format self rd out res).
Proof.
  unfold script_content_body.
  repeat first [ apply keeps_host__get_ocio_path | keeps_host_step ].
Qed.

Lemma keeps_host__write_script_content self rd out res :
  keeps_host (_write_script_content str_format self rd out res).
Proof.
  unfold _write_script_content.
  repeat first [ apply keeps_host_script_content_body | keeps_host_step ].
Qed.

Lemma keeps_host__build_temp_nuke_script self node :
  keeps_host (_build_temp_nuke_script str_format self node).
Proof.
  unfold _build_temp_nuke_script.
  repeat first [ apply keeps_host_temp_script_paths
               | apply keeps_host__write_script_content
               | apply keeps_host_write_script_file | keeps_host_step ].
Qed.

Lemma keeps_host__get_submission_files self node :
  keeps_host (_get_submission_files str_format self node).
Proof.
  unfold _get_submission_files.
  repeat first [ apply keeps_host__build_submission_files
               | apply keeps_host__build_temp_nuke_script | keeps_host_step ].
Qed.

End WithFormat.

End HostFacts.

(** ** The descriptor files and the command line *)

(** The command line grows by "-job", the job info file and the plugin
    info file for each pair, in the order of the list; a [None] among the
    pairs (a submission unit that had no script path) makes the loop raise
    a [TypeError]. *)
Theorem _build_submission_command_shape
    (command : list string) (submission_files : list (option (string * string))) :
  (forall pairs,
     submission_files = List.map Some pairs ->
     _build_submission_command command submission_files
     = inr (command ++ List.flat_map (fun pair => ["-job"; fst pair; snd pair]) pairs))
  /\ (In None submission_files ->
      _build_submission_command command submission_files
      = inl (TypeError "cannot unpack non-iterable NoneType object")).
Proof.
  split.
  - intros pairs ->. revert command.
    induction pairs as [|[j p] pairs IH]; intros command; cbn [List.map _build_submission_command].
    + now rewrite app_nil_r.
    + rewrite IH. cbn [List.flat_map fst snd]. now rewrite <- app_assoc.
  - revert command. induction submission_files as [|[[j p]|] files IH]; intros command Hin.
    + destruct Hin.
    + destruct Hin as [Hin|Hin]; [discriminate Hin|]. cbn [_build_submission_command]. auto.
    + reflexivity.
Qed.






(** ** A script that was never saved *)

Lemma _get_nuke_script_path_unsaved w :
  root_name w = "" \/ root_name w = "Root" ->
  _get_nuke_script_path w = (inr None, add_event (Message please_save) w).
Proof.
  intros Hroot. unfold _get_nuke_script_path, bind, get, message, modify, ret.
  destruct Hroot as [-> | ->]; reflexivity.
Qed.

Lemma _get_deadline_command_world w r w' : _get_deadline_command w = (r, w') -> w' = w.
Proof.
  unfold _get_deadline_command, getenv, path_exists.
  unfold bind, get, ret, read_file.
  destruct (String.eqb (default "" (environ w !! "DEADLINE_PATH")) "");
    [|now intros [= _ <-]].
  destruct (exists_in (fs w) "/Users/Shared/Thinkbox/DEADLINE_PATH");
    [|now intros [= _ <-]].
  destruct (fs w !! "/Users/Shared/Thinkbox/DEADLINE_PATH") as [[c|]|];
    now intros [= _ <-].
Qed.

Section Unsaved.

Variable str_format : string -> list (string * pyval) -> exn + string.

(** With a script that has no file yet (its name is empty or "Root"), the
    turn of a node asks the user to save and then ends in an exception, a
    [TypeError] unless looking for the farm tool fails first: the missing
    path is passed on as [None] instead of stopping the submission.
    Nothing is written and the farm tool is not run. *)
Theorem unsaved_script_is_not_submitted (panel : SubmitterPanel) (node : Node) (w : World) :
  root_name w = "" \/ root_name w = "Root" ->
  exists e w',
    submit_node str_format panel node w = (inl e, w')
    /\ ((exists msg, e = TypeError msg) \/ is_OSError e = true)
    /\ fs w' = fs w
    /\ List.filter is_Run (log w') = List.filter is_Run (log w)
    /\ In (Message please_save) (log w').
Proof.
  intros Hroot. unfold submit_node.
  set (ws := snd (_select_and_enable_write_node node w)).
  assert (_select_and_enable_write_node node w = (inr tt, ws)) as Hsel by reflexivity.
  assert (root_name ws = root_name w /\ fs ws = fs w /\ log ws = log w)
    as (Hroot_s & Hfs_s & Hlog_s) by (repeat split; reflexivity).
  rewrite (bind_run _ _ _ _ _ Hsel).
  set (wm := add_event (Message please_save) ws).
  assert (_build_submission_files panel "exr" node None None ws = (inr None, wm)) as Hexr.
  { unfold _build_submission_files. cbn [String.eqb Ascii.eqb Bool.eqb].
    rewrite (bind_run _ _ _ _ _ (_get_nuke_script_path_unsaved ws Hroot)).
    reflexivity. }
  assert (log wm = log w ++ [Message please_save]) as Hlog_m
    by reflexivity.
  unfold _get_submission_files. rewrite bind_assoc_run, (bind_run _ _ _ _ _ Hexr).
  destruct (value (render_review panel)).
  - (* the review script is asked for: the directory of [None] *)
    exists (TypeError "expected str, bytes or os.PathLike object, not NoneType"),
           (add_event (Message please_save) wm).
    split.
    + unfold _build_temp_nuke_script, temp_script_paths.
      rewrite !bind_assoc_run.
      rewrite (bind_run _ _ _ _ _ (_get_nuke_script_path_unsaved wm Hroot)).
      reflexivity.
    + split; [eauto|]. split; [exact Hfs_s|].
      assert (log (add_event (Message please_save) wm)
              = log w ++ [Message please_save; Message please_save]) as ->
        by (change (log (add_event (Message please_save) wm))
              with ((log w ++ [Message please_save]) ++ [Message please_save]);
            now rewrite <- app_assoc).
      split.
      * rewrite List.filter_app. simpl. now rewrite app_nil_r.
      * apply in_or_app. right. now left.
  - (* the image job alone: its pair is [None] *)
    unfold ret at 1. unfold bind at 1. unfold _execute_command.
    destruct (_get_deadline_command wm) as [[e|dc] wd] eqn:Edc;
      pose proof (_get_deadline_command_world _ _ _ Edc) as ->.
    + exists e, wm. rewrite (bind_raise _ _ _ _ _ Edc).
      split; [reflexivity|]. split.
      { right. unfold _get_deadline_command, getenv, path_exists in Edc.
        unfold bind, get, ret, read_file in Edc.
        destruct (String.eqb (default "" (environ wm !! "DEADLINE_PATH")) "");
          [|cbv beta iota in Edc; discriminate Edc].
        destruct (exists_in (fs wm) "/Users/Shared/Thinkbox/DEADLINE_PATH");
          [|cbv beta iota in Edc; discriminate Edc].
        destruct (fs wm !! "/Users/Shared/Thinkbox/DEADLINE_PATH") as [[c|]|];
          cbv beta iota in Edc; [discriminate Edc| |]; injection Edc as <-; reflexivity. }
      split; [exact Hfs_s|]. rewrite Hlog_m.
      split; [rewrite List.filter_app; simpl; now rewrite app_nil_r|].
      apply in_or_app. right. now left.
    + exists (TypeError "cannot unpack non-iterable NoneType object"), wm.
      rewrite (bind_run _ _ _ _ _ Edc).
      split; [reflexivity|]. split; [eauto|].
      split; [exact Hfs_s|]. rewrite Hlog_m.
      split; [rewrite List.filter_app; simpl; now rewrite app_nil_r|].
      apply in_or_app. right. now left.
Qed.

End Unsaved.

Lemma unsaved_script_is_not_submitted_studio :
  exists e w',
    submit_node format_named (Studio.panel "1001-1050" true) Studio.Write1 Studio.unsaved
    = (inl e, w')
    /\ ((exists msg, e = TypeError msg) \/ is_OSError e = true)
    /\ fs w' = fs Studio.unsaved
    /\ List.filter is_Run (log w') = List.filter is_Run (log Studio.unsaved)
    /\ In (Message please_save) (log w').
Proof.
  apply (unsaved_script_is_not_submitted format_named (Studio.panel "1001-1050" true)
           Studio.Write1 Studio.unsaved).
  right. reflexivity.
Defined.

(** ** The panel as it opens *)

Lemma str_negative z : (z < 0)%Z -> exists s, str z = String "-" s.
Proof.
  destruct z as [|p|p]; try lia. intros _. eexists. reflexivity.
Qed.

(** The frame range a new panel proposes is made of the first and the last
    frame of the script.  Left as it is, it is accepted exactly when
    neither frame is negative, and adjusted to one frame before the first;
    a negative frame writes a second dash into the range, whose split has
    an empty piece that is no number. *)
Theorem untouched_frame_range (w : World) :
  get_adjusted_frame_range (default_panel w)
  = if ((0 <=? root_first w) && (0 <=? root_last w))%Z
    then inr (str (root_first w - 1) +:+ "-" +:+ str (root_last w))
    else inl (ValueError "invalid literal for int() with base 10: ''").
Proof.
  unfold get_adjusted_frame_range, default_panel. cbn [frame_range value].
  destruct (Z.leb_spec 0 (root_first w)) as [Hf|Hf].
  - destruct (Z.leb_spec 0 (root_last w)) as [Hl|Hl]; cbn [andb].
    + rewrite <- (Z2N.id _ Hf), <- (Z2N.id _ Hl) at 1.
      rewrite unpack2_int_range. cbn [knob_truth add_slate].
      now rewrite !Z2N.id by assumption.
    + destruct (str_negative _ Hl) as [s ->].
      rewrite <- (Z2N.id _ Hf).
      change (str (Z.of_N (Z.to_N (root_first w))) +:+ "-" +:+ String "-" s)
        with (str (Z.of_N (Z.to_N (root_first w))) +:+ String "-" ("" +:+ String "-" s)).
      rewrite PyFacts.split_char_app
        by (apply PyFacts.digits_no_char; [reflexivity | apply PyFacts.str_of_N_digits]).
      rewrite (PyFacts.split_char_app "-"%char "" s) by reflexivity.
      unfold unpack2_int. rewrite PyFacts.int_str. reflexivity.
  - cbn [andb]. destruct (str_negative _ Hf) as [s ->].
    change (String "-" s +:+ "-" +:+ str (root_last w))
      with ("" +:+ String "-" (s +:+ "-" +:+ str (root_last w))).
    rewrite (PyFacts.split_char_app "-"%char "") by reflexivity.
    reflexivity.
Qed.

(** ** Output directories that hold no file *)

Lemma _check_write_has_files_nothing node w names :
  exists_in (fs w) (checked_dir node) = true ->
  listdir (checked_dir node) w = (inr names, w) ->
  any_isfile (fs w) (checked_dir node) names = false ->
  _check_write_has_files node w = (inr None, w).
Proof.
  intros Hex Hlist Hany. unfold _check_write_has_files.
  change (dirname match node_cached_path node with
                  | Some cached => cached
                  | None => node_file node
                  end) with (checked_dir node).
  unfold path_exists, get at 1. unfold bind at 1. rewrite Hex. cbn [negb].
  rewrite (bind_run _ _ _ _ _ Hlist).
  unfold get at 1. unfold bind at 1. rewrite Hany. reflexivity.
Qed.

Section EmptyDirectories.

Variable str_format : string -> list (string * pyval) -> exn + string.

(** When the output directory of every write node of the batch is there
    and holds no file, the check of each node falls off its end and gives
    [None]; no check is true, and [show] returns as if the user had
    declined: nothing is asked, nothing is reported, nothing is submitted,
    and the world is as it was. *)
Theorem empty_output_directories_stop_the_batch
    (send_selected : bool) (w : World) (write_nodes : list Node) :
  dialog_ok w = true ->
  _get_write_nodes send_selected w = (inr (Some write_nodes), w) ->
  write_nodes <> [] ->
  (forall node, In node write_nodes ->
     exists names,
       exists_in (fs w) (checked_dir node) = true
       /\ listdir (checked_dir node) w = (inr names, w)
       /\ any_isfile (fs w) (checked_dir node) names = false) ->
  show str_format send_selected w = (inr tt, w).
Proof.
  intros Hok Hnodes Hne Hdirs.
  assert (any_check write_nodes w = (inr false, w)) as Hcheck.
  { clear Hnodes Hne. induction write_nodes as [|node rest IH]; [reflexivity|].
    cbn [any_check].
    destruct (Hdirs node (or_introl eq_refl)) as (names & Hex & Hlist & Hany).
    rewrite (bind_run _ _ _ _ _ (_check_write_has_files_nothing node w names Hex Hlist Hany)).
    cbn [truth default]. apply IH. intros n Hn. apply Hdirs. now right. }
  unfold show, new_panel.
  unfold get at 1. unfold bind at 1.
  unfold get at 1. unfold bind at 1.
  unfold get at 1. unfold bind at 1.
  rewrite Hok. cbn [negb].
  rewrite (bind_run _ _ _ _ _ Hnodes).
  destruct write_nodes as [|node rest]; [congruence|].
  rewrite (bind_run _ _ _ _ _ Hcheck). reflexivity.
Qed.

End EmptyDirectories.

Lemma empty_output_directories_stop_the_batch_studio :
  show format_named true Studio.cleared = (inr tt, Studio.cleared).
Proof.
  apply (empty_output_directories_stop_the_batch format_named true Studio.cleared
           [Studio.Write1]).
  - reflexivity.
  - reflexivity.
  - discriminate.
  - intros node [<-|[]]. exists []. repeat split; vm_compute; reflexivity.
Defined.

(** ** Converting toolkit write nodes *)

Lemma append_converted_run names acc w :
  append_converted names acc w
  = (inr (acc ++ List.flat_map (fun name => match List.find (same_name name) (scene w) with
                                            | Some m => [m]
                                            | None => []
                                            end) names), w).
Proof.
  revert acc. induction names as [|name names IH]; intros acc; cbn [append_converted flat_map].
  - unfold ret. now rewrite app_nil_r.
  - unfold toNode, get at 1. unfold bind at 1.
    destruct (List.find (same_name name) (scene w)) as [m|]; rewrite IH.
    + now rewrite <- app_assoc.
    + reflexivity.
Qed.

Lemma list_remove_app x kept l :
  (forall k, In k kept -> same_name (node_name x) k = false) ->
  list_remove x (kept ++ x :: l) = kept ++ l.
Proof.
  intros Hkept. induction kept as [|k kept IH]; cbn [list_remove app].
  - unfold same_name. now rewrite String.eqb_refl.
  - rewrite (Hkept k) by now left. f_equal. apply IH. intros k' Hk'. apply Hkept. now right.
Qed.

Lemma remove_all_filter l kept :
  (forall k, In k kept -> is_write_tank k = false) ->
  (forall a b, In a (kept ++ l) -> In b (kept ++ l) -> node_name a = node_name b -> a = b) ->
  List.fold_left (fun acc n => list_remove n acc) (List.filter is_write_tank l) (kept ++ l)
  = kept ++ List.filter (fun n => negb (is_write_tank n)) l.
Proof.
  revert kept. induction l as [|x l IH]; intros kept Hkept Hnames; [reflexivity|].
  cbn [List.filter]. destruct (is_write_tank x) eqn:Hx; cbn [negb fold_left].
  - rewrite list_remove_app.
    + apply IH; [assumption|]. intros a b Ha Hb. apply Hnames.
      * apply in_app_iff in Ha as [Ha|Ha]; apply in_app_iff; [now left | right; now right].
      * apply in_app_iff in Hb as [Hb|Hb]; apply in_app_iff; [now left | right; now right].
    + intros k Hk. unfold same_name. destruct (String.eqb_spec (node_name k) (node_name x)) as [E|]; [|reflexivity].
      assert (k = x) as ->.
      { apply Hnames; [apply in_app_iff; now left | apply in_app_iff; right; now left | assumption]. }
      apply Hkept in Hk. congruence.
  - change (kept ++ x :: l) with (kept ++ [x] ++ l). rewrite app_assoc.
    rewrite IH.
    + now rewrite <- app_assoc.
    + intros k Hk. apply in_app_iff in Hk as [Hk|[<-|[]]]; [now apply Hkept | assumption].
    + now rewrite <- app_assoc.
Qed.

(** With the toolkit's app there, [_convert_write_nodes] in the direction
    "to" leaves a list without toolkit write nodes as it is and does not
    call the app.  Otherwise the app converts the scene, and the list that
    comes back holds the other nodes first, in their order, and after them
    the nodes the converted scene has under the names of the toolkit write
    nodes: the converted nodes move to the end of the batch.  (The names
    tell the nodes of the list apart, as they do in a scene.) *)
Theorem convert_to_moves_converted_nodes_last
    (nodes : list Node) (w : World) (app : WriteNodeApp) :
  writenode_app w = Some app ->
  (forall a b, In a nodes -> In b nodes -> node_name a = node_name b -> a = b) ->
  _convert_write_nodes nodes "to" w
  = match List.filter is_write_tank nodes with
    | [] => (inr nodes, w)
    | tanks =>
        let w' := set_scene (convert_to_write_nodes app (scene w)) w in
        (inr (List.filter (fun n => negb (is_write_tank n)) nodes
              ++ nodes_named (scene w') tanks), w')
    end.
Proof.
  intros Happ Hnames. unfold _convert_write_nodes.
  unfold get at 1. unfold bind at 1. rewrite Happ.
  change (String.eqb "to" "to") with true. change (String.eqb "to" "from") with false.
  cbn [orb negb].
  change (fun n : Node => String.eqb (node_class n) "WriteTank") with is_write_tank.
  destruct (List.filter is_write_tank nodes) as [|tank tanks] eqn:Htanks; [reflexivity|].
  unfold modify at 1. unfold bind at 1. rewrite append_converted_run.
  rewrite <- Htanks.
  pose proof (remove_all_filter nodes [] (fun k H => match H with end) Hnames) as Hrem.
  change ([] ++ nodes) with nodes in Hrem. rewrite Hrem. unfold nodes_named. rewrite flat_map_concat_map, map_map, <- flat_map_concat_map.
  reflexivity.
Qed.

Lemma convert_to_moves_converted_nodes_last_studio :
  _convert_write_nodes [Studio.Tank1; Studio.Write1] "to" Studio.toolkit
  = (inr [Studio.Write1; Studio.set_class "Write" Studio.Tank1],
     set_scene [Studio.set_class "Write" Studio.Tank1; Studio.Write1] Studio.toolkit).
Proof.
  apply (convert_to_moves_converted_nodes_last [Studio.Tank1; Studio.Write1]
           Studio.toolkit Studio.writenode).
  - reflexivity.
  - intros a b [<-|[<-|[]]] [<-|[<-|[]]]; (reflexivity || (vm_compute; discriminate)).
Defined.

(** ** The scene during a batch *)

Lemma set_scene_same w : set_scene (scene w) w = w.
Proof. now destruct w. Qed.

Lemma update_node_run name f w :
  update_node name f w
  = (inr tt, set_scene (List.map (fun n => if same_name name n then f n else n) (scene w)) w).
Proof. reflexivity. Qed.

Lemma set_scene_set_scene a b w : set_scene a (set_scene b w) = set_scene a w.
Proof. reflexivity. Qed.

Lemma scene_set_scene a w : scene (set_scene a w) = a.
Proof. reflexivity. Qed.

(** Two setters in a row on the node of a name, then a pass over more
    names: one pass over all the names, for setters that keep the name and
    do nothing new when repeated. *)
Lemma mark_compose (f1 f2 : Node -> Node) (node : Node) (nodes : list Node) (n : Node) :
  (forall m, node_name (f1 m) = node_name m) ->
  (forall m, node_name (f2 m) = node_name m) ->
  (forall m, f2 (f1 (f2 (f1 m))) = f2 (f1 m)) ->
  (let n1 := if same_name (node_name node) n then f1 n else n in
   let n2 := if same_name (node_name node) n1 then f2 n1 else n1 in
   if named_in nodes n2 then f2 (f1 n2) else n2)
  = if named_in (node :: nodes) n then f2 (f1 n) else n.
Proof.
  intros H1 H2 Hidem. unfold same_name, named_in. cbn [existsb].
  destruct (String.eqb (node_name n) (node_name node)) eqn:E; cbv zeta.
  - rewrite H1, E, H2, H1. cbn [orb]. rewrite Hidem.
    now destruct (existsb _ nodes).
  - rewrite E. reflexivity.
Qed.

Lemma _deselect_and_disable_write_nodes_run nodes w :
  _deselect_and_disable_write_nodes nodes w
  = (inr tt,
     set_scene (List.map (fun n => if named_in nodes n
                                   then setDisable true (setSelected false n) else n)
                         (scene w)) w).
Proof.
  revert w. induction nodes as [|node nodes IH]; intros w.
  - cbn [_deselect_and_disable_write_nodes named_in existsb]. unfold ret.
    now rewrite map_id, set_scene_same.
  - cbn [_deselect_and_disable_write_nodes].
    rewrite (bind_run _ _ _ _ _ (update_node_run _ _ _)).
    rewrite (bind_run _ _ _ _ _ (update_node_run _ _ _)).
    rewrite IH, !set_scene_set_scene, !scene_set_scene. do 2 f_equal.
    rewrite !map_map. apply map_ext. intros n.
    apply (mark_compose (setSelected false) (setDisable true) node nodes n); reflexivity.
Qed.

(** What [show] does to the scene before it submits, when the batch is
    the list [_get_write_nodes] gave (no toolkit node had to be
    converted): it leaves no node selected, and it disables the nodes that
    go by the name of a node of the batch.  Nothing else changes, in the
    scene or outside it. *)
Theorem preparation_deselects_the_scene
    (send_selected : bool) (w : World) (write_nodes : list Node) :
  _get_write_nodes send_selected w = (inr (Some write_nodes), w) ->
  (_deselect_and_disable_write_nodes write_nodes ;;; _deselect_non_write_nodes) w
  = (inr tt,
     set_scene (List.map (fun n => setSelected false
                                     (if named_in write_nodes n then setDisable true n else n))
                         (scene w)) w).
Proof.
  intros Hnodes.
  rewrite (bind_run _ _ _ _ _ (_deselect_and_disable_write_nodes_run write_nodes w)).
  unfold _deselect_non_write_nodes, modify.
  rewrite set_scene_set_scene, scene_set_scene. do 2 f_equal.
  rewrite map_map. apply map_ext_in. intros n Hn.
  destruct (named_in write_nodes n) eqn:Hin.
  - cbn [node_class setSelected setDisable].
    now destruct (negb (String.eqb (node_class n) "Write")).
  - destruct (String.eqb (node_class n) "Write") eqn:Hclass; cbn [negb]; [|reflexivity].
    assert (is_write_class n = true) as Hwrite by (unfold is_write_class; now rewrite Hclass).
    assert (In n write_nodes -> False) as Hout.
    { intros Hmem. apply Bool.not_true_iff_false in Hin. apply Hin.
      unfold named_in. apply existsb_exists. exists n. split; [assumption|].
      apply String.eqb_refl. }
    assert (node_selected n = false) as Hsel.
    { unfold _get_write_nodes in Hnodes. unfold get at 1 in Hnodes. unfold bind at 1 in Hnodes.
      destruct send_selected.
      - destruct (node_selected n) eqn:Hs; [|reflexivity]. exfalso.
        assert (In n (List.filter node_selected (scene w))) as Hf
          by (apply filter_In; now split).
        destruct (List.filter node_selected (scene w)) as [|s sel] eqn:Hsel;
          [destruct Hf|].
        assert (write_nodes = List.filter is_write_class (s :: sel)) as Heq
          by (unfold ret in Hnodes; congruence).
        apply Hout. rewrite Heq. apply filter_In. now split.
      - exfalso.
        assert (write_nodes = List.filter is_write_class (scene w)) as Heq
          by (unfold ret in Hnodes; congruence).
        apply Hout. rewrite Heq. apply filter_In. now split. }
    destruct n as [name class file cached selected disable]. cbn in Hsel. subst selected.
    reflexivity.
Qed.

Lemma preparation_deselects_the_scene_studio :
  (_deselect_and_disable_write_nodes [Studio.WriteA; Studio.WriteB] ;;;
   _deselect_non_write_nodes) Studio.two_nodes
  = (inr tt,
     set_scene (List.map (fun n => setSelected false
                                     (if named_in [Studio.WriteA; Studio.WriteB] n
                                      then setDisable true n else n))
                         (scene Studio.two_nodes)) Studio.two_nodes).
Proof.
  apply (preparation_deselects_the_scene true Studio.two_nodes
           [Studio.WriteA; Studio.WriteB]).
  reflexivity.
Defined.

Lemma _select_and_enable_write_node_run node w :
  _select_and_enable_write_node node w
  = (inr tt,
     set_scene (List.map (fun n => if named_in [node] n
                                   then setDisable false (setSelected true n) else n)
                         (scene w)) w).
Proof.
  unfold _select_and_enable_write_node.
  rewrite (bind_run _ _ _ _ _ (update_node_run _ _ _)).
  rewrite update_node_run, set_scene_set_scene, scene_set_scene. do 2 f_equal.
  rewrite map_map. apply map_ext. intros n.
  rewrite <- (mark_compose (setSelected true) (setDisable false) node [] n) by reflexivity.
  reflexivity.
Qed.

Section BatchScene.

Variable str_format : string -> list (string * pyval) -> exn + string.

Lemma submit_node_scene panel node w :
  scene (snd (submit_node str_format panel node w))
  = List.map (fun n => if named_in [node] n
                       then setDisable false (setSelected true n) else n) (scene w).
Proof.
  unfold submit_node.
  rewrite (bind_run _ _ _ _ _ (_select_and_enable_write_node_run node w)).
  set (w1 := set_scene _ w).
  change (List.map _ (scene w)) with (scene w1).
  unfold bind at 1.
  destruct (_get_submission_files str_format panel node w1) as [[e|files] w2] eqn:Hfiles;
    pose proof (host_scene _ _
                  (HostFacts.keeps_host__get_submission_files str_format panel node
                     _ _ _ Hfiles)) as Hscene2; [exact Hscene2|].
  destruct (_execute_command files w2) as [r w3] eqn:Hrun.
  pose proof (host_scene _ _
                (HostFacts.keeps_host__execute_command files _ _ _ Hrun)) as Hscene3.
  cbn [snd]. congruence.
Qed.

(** The loop of [show] only ever selects and enables.  Whatever happens in
    it, the scene afterwards is the scene before with the nodes of the
    batch it got to selected and enabled; it got to all of them when it
    returned, and at least to the first one when it raised.  So a batch
    that breaks off leaves its remaining nodes as the preparation left
    them. *)
Theorem submit_nodes_only_enables (panel : SubmitterPanel) (write_nodes : list Node)
    (w : World) :
  exists done rest,
    write_nodes = done ++ rest
    /\ scene (snd (submit_nodes str_format panel write_nodes w))
       = List.map (fun n => if named_in done n
                            then setDisable false (setSelected true n) else n) (scene w)
    /\ match fst (submit_nodes str_format panel write_nodes w) with
       | inr _ => rest = []
       | inl _ => done <> []
       end.
Proof.
  revert w. induction write_nodes as [|node nodes IH]; intros w.
  - exists [], []. cbn [submit_nodes ret fst snd named_in existsb].
    now rewrite map_id.
  - cbn [submit_nodes].
    pose proof (submit_node_scene panel node w) as Hnode.
    destruct (submit_node str_format panel node w) as [[e|[]] w1] eqn:Hsub;
      cbn [snd] in Hnode.
    + exists [node], nodes. rewrite (bind_raise _ _ _ _ _ Hsub). cbn [fst snd].
      split; [reflexivity|]. split; [assumption|]. intros H. discriminate H.
    + rewrite (bind_run _ _ _ _ _ Hsub). destruct (IH w1) as (done & rest & -> & Hscene & Hresult).
      exists (node :: done), rest. split; [reflexivity|]. split.
      * rewrite Hscene, Hnode, map_map. apply map_ext. intros n.
        rewrite <- (mark_compose (setSelected true) (setDisable false) node done n)
          by reflexivity.
        cbv zeta.
        rewrite <- (mark_compose (setSelected true) (setDisable false) node [] n)
          by reflexivity.
        cbv zeta. cbn [named_in existsb].
        unfold same_name.
        destruct (String.eqb (node_name n) (node_name node)) eqn:E;
          cbn [node_name setSelected setDisable]; rewrite ?E;
          cbn [node_name setSelected setDisable]; reflexivity.
      * destruct (fst (submit_nodes str_format panel (done ++ rest) w1));
          [discriminate | assumption].
Qed.

End BatchScene.

(** ** A scene without a write node to submit *)

Lemma filter_none {A} (f : A -> bool) (l : list A) :
  Forall (fun x => f x = false) l -> List.filter f l = [].
Proof.
  induction 1 as [|x l Hx _ IH]; [reflexivity|]. cbn [List.filter]. now rewrite Hx.
Qed.

Section NoWriteNode.

Variable str_format : string -> list (string * pyval) -> exn + string.

(** When none of the nodes [show] is to look at (the selected ones, or all
    of them) is a Write or a WriteTank, and so also when nothing is
    selected, the confirmed dialog leads to one message and to nothing
    else: no question, no file, no run of the farm tool, no change to the
    scene. *)
Theorem no_write_node_no_submission (send_selected : bool) (w : World) :
  dialog_ok w = true ->
  Forall (fun n => is_write_class n = false)
         (if send_selected then List.filter node_selected (scene w) else scene w) ->
  show str_format send_selected w
  = (inr tt,
     add_event (Message "No valid Write nodes selected. Please select at least one Write or WriteTank node.") w).
Proof.
  intros Hok Hnone. apply filter_none in Hnone.
  unfold show, new_panel.
  unfold get at 1. unfold bind at 1.
  unfold get at 1. unfold bind at 1.
  unfold get at 1. unfold bind at 1.
  rewrite Hok. cbn [negb].
  assert (_get_write_nodes send_selected w = (inr None, w)
          \/ _get_write_nodes send_selected w = (inr (Some []), w)) as [Hnodes|Hnodes].
  { unfold _get_write_nodes. unfold get at 1. unfold bind at 1. unfold get at 1.
    unfold bind at 1.
    destruct send_selected.
    - destruct (List.filter node_selected (scene w)) as [|s sel]; [now left|].
      rewrite Hnone. now right.
    - rewrite Hnone. now right. }
  - now rewrite (bind_run _ _ _ _ _ Hnodes).
  - now rewrite (bind_run _ _ _ _ _ Hnodes).
Qed.

End NoWriteNode.

Lemma no_write_node_no_submission_studio :
  show format_named true Studio.nothing_selected
  = (inr tt,
     add_event (Message "No valid Write nodes selected. Please select at least one Write or WriteTank node.")
               Studio.nothing_selected).
Proof.
  apply (no_write_node_no_submission format_named true Studio.nothing_selected).
  - reflexivity.
  - constructor.
Defined.

(** ** Where the farm tool is looked for *)




(** ** The paths of the review script *)

Lemma replace_char_gone (a b : ascii) (s : string) :
  Ascii.eqb b a = false ->
  contains_char a (replace s (String a "") (String b "")) = false.
Proof.
  intros Hab. unfold replace. induction s as [|c s IH]; [reflexivity|].
  cbn [replace_from]. rewrite PyFacts.startswith_char.
  cbn [String.length Nat.sub].
  destruct (Ascii.eqb a c) eqn:E.
  - rewrite PyFacts.app_cons, PyFacts.app_nil_l. cbn [contains_char]. now rewrite Hab.
  - cbn [contains_char]. rewrite Ascii.eqb_sym, E. exact IH.
Qed.

Lemma replace_char_nonempty (a b c : ascii) (s : string) :
  replace (String c s) (String a "") (String b "") <> "".
Proof.
  unfold replace. cbn [replace_from]. rewrite PyFacts.startswith_char.
  destruct (Ascii.eqb a c); [|discriminate].
  rewrite PyFacts.app_cons. discriminate.
Qed.

(** The two paths [_build_temp_nuke_script] hands to the review script are
    written with slashes only.  The read path is the node's file with its
    backslashes replaced.  The output path is a render path with its
    backslashes replaced, and the render path is never empty: it is the
    toolkit's path when the toolkit gives one that is not empty, and the
    fallback path of the node's file otherwise.  So the two later branches
    of lines 324 to 328, "output.mov" next to the read file and
    "/tmp/output.exr", are never taken. *)
Theorem review_paths_use_slashes (self : SubmitterPanel) (node : Node) (w w1 : World)
    (new_script_path read_file_path output_file_path : string) :
  temp_script_paths self node w
  = (inr (new_script_path, read_file_path, output_file_path), w1) ->
  read_file_path = replace (node_file node) "\" "/"
  /\ contains_char "\" read_file_path = false
  /\ contains_char "\" output_file_path = false
  /\ exists render_path,
       render_path <> ""
       /\ output_file_path = replace render_path "\" "/"
       /\ render_path
          = match tk_render_path w (root_name w) "nuke_shot_render_movie" with
            | inr (Some (String c p)) =>
                if String.eqb (platform_system w) "Windows"
                then replace (String c p) "\" "/" else String c p
            | _ => fallback_render_path (node_file node)
            end.
Proof.
  intros H. unfold temp_script_paths in H.
  apply bind_inr in H as (script & wa & Hscript & H).
  pose proof (Invariant.adds_dirs__get_nuke_script_path _ _ _ Hscript) as Ha.
  apply bind_inr in H as (script_dir & wb & Hdir & H).
  apply lift_inr in Hdir as [Hdir ->].
  destruct script as [script|]; [|discriminate Hdir].
  apply _get_nuke_script_path_inr in Hscript as (-> & Hwa & _).
  change (default "" (Some (root_name w))) with (root_name w) in H.
  apply bind_inr in H as (dir_exists & wc & Hex & H).
  apply get_inr in Hex as [-> ->].
  apply bind_inr in H as ([] & wd & Hmk & H).
  assert (dirs_added wa wd) as Hd.
  { destruct (exists_in _ _).
    - eapply Invariant.adds_dirs_ret, Hmk.
    - eapply Invariant.adds_dirs_mkdir, Hmk. }
  pose proof (Invariant.dirs_added_trans _ _ _ Ha Hd) as Hwd.
  apply bind_inr in H as (n & we & Hn & H).
  apply get_inr in Hn as [-> ->].
  apply bind_inr in H as (rp & wf & Hrp & H).
  apply bind_inr in H as (rp' & wg & Hrp' & H).
  apply bind_inr in H as (out & wh & Hout & H).
  apply ret_inr in H as [[= _ <- <-] _].
  set (chosen := match tk_render_path w (root_name w) "nuke_shot_render_movie" with
                 | inr (Some (String c p)) =>
                     if String.eqb (platform_system w) "Windows"
                     then replace (String c p) "\" "/" else String c p
                 | _ => fallback_render_path (node_file node)
                 end).
  assert (rp' = chosen /\ rp' <> "") as [Hchosen Hne].
  { unfold _get_render_template in Hrp.
    unfold get at 1 in Hrp. unfold bind at 1 in Hrp.
    rewrite (same_toolkit _ _ Hwd) in Hrp. unfold chosen.
    destruct (tk_render_path w (root_name w) "nuke_shot_render_movie") as [e|[[|c p]|]].
    - apply ret_inr in Hrp as [<- _].
      apply bind_inr in Hrp' as (u & wu & _ & Hrp'). apply ret_inr in Hrp' as [<- _].
      split; [reflexivity | apply fallback_render_path_nonempty].
    - unfold bind, get, ret in Hrp. injection Hrp as <- _.
      assert ((if String.eqb (platform_system wd) "Windows" then replace "" "\" "/" else "")
              = "") as Hnil by now destruct (String.eqb _ "Windows").
      rewrite Hnil in Hrp'.
      apply bind_inr in Hrp' as (u & wu & _ & Hrp'). apply ret_inr in Hrp' as [<- _].
      split; [reflexivity | apply fallback_render_path_nonempty].
    - unfold bind, get, ret in Hrp. injection Hrp as <- _.
      rewrite (same_platform _ _ Hwd) in Hrp'.
      destruct (String.eqb (platform_system w) "Windows").
      + pose proof (replace_char_nonempty "\" "/" c p) as Hrep.
        destruct (replace (String c p) "\" "/") as [|c' p'] eqn:E; [congruence|].
        apply ret_inr in Hrp' as [<- _]. split; [reflexivity | discriminate].
      + apply ret_inr in Hrp' as [<- _]. split; [reflexivity | discriminate].
    - apply ret_inr in Hrp as [<- _].
      apply bind_inr in Hrp' as (u & wu & _ & Hrp'). apply ret_inr in Hrp' as [<- _].
      split; [reflexivity | apply fallback_render_path_nonempty]. }
  assert (out = replace rp' "\" "/") as ->.
  { destruct (String.eqb_spec rp' "") as [Hnil|_]; [contradiction|].
    cbn [negb] in Hout.
    apply bind_inr in Hout as (u & wu & _ & Hout). now apply ret_inr in Hout as [<- _]. }
  split; [reflexivity|]. split; [now apply replace_char_gone|].
  split; [now apply replace_char_gone|].
  exists rp'. auto.
Qed.

Lemma review_paths_use_slashes_studio :
  "/proj/renders/shot010.1001.exr" = replace (node_file Studio.Write1) "\" "/"
  /\ contains_char "\" "/proj/renders/shot010.1001.exr" = false
  /\ contains_char "\" "/proj/renders/review/shot010.mov" = false
  /\ exists render_path,
       render_path <> ""
       /\ "/proj/renders/review/shot010.mov" = replace render_path "\" "/"
       /\ render_path
          = match tk_render_path Studio.world (root_name Studio.world)
                    "nuke_shot_render_movie" with
            | inr (Some (String c p)) =>
                if String.eqb (platform_system Studio.world) "Windows"
                then replace (String c p) "\" "/" else String c p
            | _ => fallback_render_path (node_file Studio.Write1)
            end.
Proof.
  apply (review_paths_use_slashes (Studio.panel "1001-1050" true) Studio.Write1 Studio.world
           (snd (temp_script_paths (Studio.panel "1001-1050" true) Studio.Write1
                   Studio.world))
           "/proj/tmp/shot010_tmp_01.nk").
  vm_compute. reflexivity.
Defined.

Section ReviewScript.

Variable str_format : string -> list (string * pyval) -> exn + string.

Lemma _build_temp_nuke_script_inv self node w w' script out :
  _build_temp_nuke_script str_format self node w = (inr (script, out), w') ->
  exists read_file_path w1 content w2,
    temp_script_paths self node w = (inr (script, read_file_path, out), w1)
    /\ script_content_body str_format self read_file_path out (resources_dir w1) w1
       = (inr content, w2)
    /\ w' = set_fs (<[script := File content]> (fs w2)) w2.
Proof.
  intros H. unfold _build_temp_nuke_script in H.
  destruct (temp_script_paths self node w) as [[e|[[p rd] out0]] w1] eqn:Epaths.
  { rewrite (bind_raise _ _ _ _ _ Epaths) in H. discriminate H. }
  rewrite (bind_run _ _ _ _ _ Epaths) in H. cbn beta iota in H.
  unfold get at 1 in H. unfold bind at 1 in H.
  destruct (script_content_body str_format self rd out0 (resources_dir w1) w1)
    as [[e|content] w2] eqn:Ebody.
  - rewrite (bind_run _ _ _ _ _ (_write_script_content_caught _ _ _ _ _ _ _ _ Ebody)) in H.
    destruct (write_script_file_None p
                (add_event (Message ("Error generating Nuke script: " +:+ exn_str e)) w2))
      as (e' & w3 & Hwrite & _).
    rewrite (bind_raise _ _ _ _ _ Hwrite) in H. discriminate H.
  - rewrite (bind_run _ _ _ _ _ (_write_script_content_returns _ _ _ _ _ _ _ _ Ebody)) in H.
    unfold write_script_file in H.
    destruct (open_w_cases p w2) as [(e & Hopen & _) | Hopen].
    + rewrite bind_assoc_run, (bind_raise _ _ _ _ _ Hopen) in H. discriminate H.
    + rewrite bind_assoc_run, (bind_run _ _ _ _ _ Hopen) in H.
      unfold write, modify, bind, ret in H. injection H as <- <- <-.
      exists rd, w1, content, w2.
      split; [reflexivity|]. split; [assumption|].
      unfold set_fs. cbn. now rewrite insert_insert_eq.
Qed.

(** When [_build_temp_nuke_script] returns, the three paths were settled,
    the template was filled in without an error (so no error message was
    shown for it), and the script it names is a file that holds exactly
    the filled-in template; the output path it returns is the one written
    into that script. *)
Theorem returned_review_script_holds_the_content
    (self : SubmitterPanel) (node : Node) (w w' : World) (script out : string) :
  _build_temp_nuke_script str_format self node w = (inr (script, out), w') ->
  exists read_file_path w1 content w2,
    temp_script_paths self node w = (inr (script, read_file_path, out), w1)
    /\ script_content_body str_format self read_file_path out (resources_dir w1) w1
       = (inr content, w2)
    /\ fs w' = <[script := File content]> (fs w2)
    /\ fs w' !! script = Some (File content)
    /\ log w' = log w2.
Proof.
  intros H.
  apply _build_temp_nuke_script_inv in H as (rd & w1 & content & w2 & Hpaths & Hbody & ->).
  exists rd, w1, content, w2. cbn [fs set_fs log].
  split; [assumption|]. split; [assumption|]. split; [reflexivity|].
  split; [apply lookup_insert_eq | reflexivity].
Qed.

End ReviewScript.

Lemma returned_review_script_holds_the_content_studio :
  exists read_file_path w1 content w2,
    temp_script_paths (Studio.panel "1001-1050" true) Studio.Write1 Studio.world
    = (inr ("/proj/tmp/shot010_tmp_01.nk", read_file_path,
            "/proj/renders/review/shot010.mov"), w1)
    /\ script_content_body format_named (Studio.panel "1001-1050" true) read_file_path
         "/proj/renders/review/shot010.mov" (resources_dir w1) w1
       = (inr content, w2)
    /\ fs (snd (_build_temp_nuke_script format_named (Studio.panel "1001-1050" true)
                  Studio.Write1 Studio.world))
       = <["/proj/tmp/shot010_tmp_01.nk" := File content]> (fs w2)
    /\ fs (snd (_build_temp_nuke_script format_named (Studio.panel "1001-1050" true)
                  Studio.Write1 Studio.world))
       !! "/proj/tmp/shot010_tmp_01.nk" = Some (File content)
    /\ log (snd (_build_temp_nuke_script format_named (Studio.panel "1001-1050" true)
                   Studio.Write1 Studio.world))
       = log w2.
Proof.
  apply (returned_review_script_holds_the_content format_named
           (Studio.panel "1001-1050" true) Studio.Write1 Studio.world).
  vm_compute. reflexivity.
Defined.

(** ** A frame range that is no range *)

Lemma _get_nuke_script_path_saved v :
  root_name v <> "" -> root_name v <> "Root" ->
  _get_nuke_script_path v = (inr (Some (root_name v)), saved v).
Proof.
  intros Hne Hroot. unfold _get_nuke_script_path, bind, get, scriptSave, modify, ret.
  destruct (String.eqb_spec (root_name v) ""); [congruence|].
  destruct (String.eqb_spec (root_name v) "Root"); [congruence|]. reflexivity.
Qed.

Lemma job_file_lines_invalid_range self output_type node output_file v e :
  root_name v <> "" -> root_name v <> "Root" ->
  get_adjusted_frame_range self = inl e ->
  job_file_lines self output_type node output_file v = (inl e, saved v).
Proof.
  intros Hne Hroot Hrange. unfold job_file_lines.
  rewrite (bind_run _ _ _ _ _ (_get_nuke_script_path_saved v Hne Hroot)).
  cbn [basename_opt]. unfold lift at 1. unfold bind at 1.
  rewrite Hrange. reflexivity.
Qed.

Section InvalidRange.

Variable str_format : string -> list (string * pyval) -> exn + string.

(** With a saved script and a frame range the panel cannot read (one
    number, three numbers, a word), the turn of a node ends in the
    [ValueError] of [get_adjusted_frame_range], raised while the lines of
    the first job file are put together.  By then the host has saved the
    script; no other file is written, the farm tool is not run, and no
    message tells the artist what went wrong. *)
Theorem invalid_frame_range_is_not_submitted
    (panel : SubmitterPanel) (node : Node) (w : World) (e : exn) :
  root_name w <> "" -> root_name w <> "Root" ->
  get_adjusted_frame_range panel = inl e ->
  exists w',
    submit_node str_format panel node w = (inl e, w')
    /\ fs w' = <[root_name w := File (script_text w)]> (fs w)
    /\ List.filter is_Run (log w') = List.filter is_Run (log w)
    /\ List.filter is_Message (log w') = List.filter is_Message (log w).
Proof.
  intros Hne Hroot Hrange. unfold submit_node.
  set (ws := snd (_select_and_enable_write_node node w)).
  assert (_select_and_enable_write_node node w = (inr tt, ws)) as Hsel by reflexivity.
  rewrite (bind_run _ _ _ _ _ Hsel).
  set (w1 := saved ws).
  set (w2 := set_uuid_count (S (uuid_count w1)) w1).
  exists (saved w2).
  assert (_build_submission_files panel "exr" node None None ws = (inl e, saved w2)) as Hexr.
  { unfold _build_submission_files. change (String.eqb "exr" "") with false. cbv iota.
    rewrite (bind_run _ _ _ _ _ (_get_nuke_script_path_saved ws Hne Hroot)).
    fold w1.
    destruct (root_name ws) as [|c p] eqn:Hname; [now contradiction Hne|].
    unfold getenv at 1. unfold get at 1. unfold bind at 1.
    unfold uuid4_hex at 1. unfold bind at 1. fold w2.
    unfold _write_job_info.
    rewrite bind_assoc_run.
    rewrite (bind_raise _ _ _ _ _
               (job_file_lines_invalid_range panel "exr" node None w2 e Hne Hroot Hrange)).
    reflexivity. }
  split.
  - unfold _get_submission_files.
    rewrite bind_assoc_run, (bind_raise _ _ _ _ _ Hexr). reflexivity.
  - change (fs (saved w2))
      with (<[root_name w := File (script_text w)]>
              (<[root_name w := File (script_text w)]> (fs w))).
    change (log (saved w2)) with ((log w ++ [ScriptSave]) ++ [ScriptSave]).
    rewrite insert_insert_eq, !List.filter_app. cbn [List.filter is_Run is_Message].
    rewrite !app_nil_r. auto.
Qed.

End InvalidRange.

Lemma invalid_frame_range_is_not_submitted_studio :
  exists w',
    submit_node format_named (Studio.panel "1001" true) Studio.Write1 Studio.world
    = (inl (ValueError "not enough values to unpack (expected 2, got 1)"), w')
    /\ fs w' = <[root_name Studio.world := File (script_text Studio.world)]> (fs Studio.world)
    /\ List.filter is_Run (log w') = List.filter is_Run (log Studio.world)
    /\ List.filter is_Message (log w') = List.filter is_Message (log Studio.world).
Proof.
  apply (invalid_frame_range_is_not_submitted format_named (Studio.panel "1001" true)
           Studio.Write1 Studio.world).
  - discriminate.
  - discriminate.
  - reflexivity.
Defined.
